(** * StockFlow: low-stock alerts, money parsing and product creation

    A shallow embedding of [src/routes/alerts.py], [src/utils/money.py] and
    [src/routes/products.py].

    - Python floats are IEEE binary64 values: [spec_float] with
      [prec = 53] and [emax = 1024]; [int] is [Z].
    - Exceptions are values of an explicit [result] type.
    - Strings are ASCII; the JSON values of a request body are [null],
      booleans, integers and strings.
    - The relational store is a record of tables, each table a list of
      rows in storage order; a query is a filter over these lists.
    - The session of product creation is the pair of the committed store
      and the store as seen inside the open transaction. *)

From Stdlib Require Import ZArith NArith List String Ascii Bool Lia.
From Stdlib Require Import Sorting.Permutation Sorting.Sorted.
From Stdlib Require Import Floats.SpecFloat.
From stdpp Require Import base option list gmap strings pretty.

Local Open Scope Z_scope.

(* ===================================================================== *)
(** * Part I: definitions *)
(* ===================================================================== *)

(** ** Python exceptions as values *)

Inductive exn : Type :=
| ValueError
| TypeError
| OverflowError
| ZeroDivisionError
| AttributeError
| InvalidOperation
| IntegrityError
| MultipleResultsFound.

Inductive result (A : Type) : Type :=
| Ok (a : A)
| Raise (e : exn).
Arguments Ok {A} a.
Arguments Raise {A} e.

Global Instance result_ret : MRet result := λ A a, Ok a.
Global Instance result_bind : MBind result := λ A B f m,
match m with
| Ok a => f a
| Raise e => Raise e
end.

Global Instance result_fmap : FMap result := λ A B f m,
match m with
| Ok a => Ok (f a)
| Raise e => Raise e
end.

(** [try: c except Exception: d] *)
Definition try_except {A} (c : result A) (d : A) : A :=
match c with
| Ok a => a
| Raise _ => d
end.

Definition is_ok {A} (c : result A) : bool :=
match c with
| Ok _ => true
| Raise _ => false
end.

(** ** Python floats *)

Module PyFloat.

Definition prec : Z := 53.
Definition emax : Z := 1024.

Abbreviation float := spec_float.

(** The literal [0.0]. *)
Definition zero : float := S754_zero false.

(** [x < y], [x <= y], [x > y], [x >= y] on floats; a comparison with an
    [int] literal [0] is the comparison with [0.0]. *)
Definition lt (x y : float) : bool := SFltb x y.
Definition le (x y : float) : bool := SFleb x y.
Definition gt (x y : float) : bool := SFltb y x.
Definition ge (x y : float) : bool := SFleb y x.
Definition eq (x y : float) : bool := SFeqb x y.

Definition sub (x y : float) : float := SFsub prec emax x y.

Definition is_zero (x : float) : bool :=
  match x with
  | S754_zero _ => true
  | _ => false
  end.

Definition is_nan (x : float) : bool :=
  match x with
  | S754_nan => true
  | _ => false
  end.

(** [float(n)] for an [int]: round to nearest even; a value that rounds
    beyond the largest finite double raises [OverflowError]. *)
Definition of_int (n : Z) : result float :=
  match binary_normalize prec emax n 0 false with
  | S754_infinity _ => Raise OverflowError
  | S754_nan => Raise OverflowError
  | f => Ok f
  end.

(** [x / y] on two floats: a zero divisor raises. *)
Definition truediv (x y : float) : result float :=
  if is_zero y then Raise ZeroDivisionError
  else Ok (SFdiv prec emax x y).

(** [x / n] with [x] a float and [n] an [int]: [n] is converted first. *)
Definition truediv_int (x : float) (n : Z) : result float :=
  y ← of_int n; truediv x y.

End PyFloat.

Abbreviation float := spec_float.

(** ** Python strings (ASCII) *)

Module PyStr.

(** Characters removed by [str.strip()]. *)
Definition is_space (c : ascii) : bool :=
  let n := N_of_ascii c in
  ((9 <=? n) && (n <=? 13) || (28 <=? n) && (n <=? 32))%N.

Definition digit_of (c : ascii) : option Z :=
  let n := Z.of_N (N_of_ascii c) in
  if (48 <=? n) && (n <=? 57) then Some (n - 48) else None.

Definition is_digit (c : ascii) : bool := bool_decide (is_Some (digit_of c)).

Definition chars (s : string) : list ascii := list_ascii_of_string s.

Fixpoint lstrip (l : list ascii) : list ascii :=
  match l with
  | c :: l' => if is_space c then lstrip l' else l
  | [] => []
  end.

Definition strip_chars (l : list ascii) : list ascii :=
  rev (lstrip (rev (lstrip l))).

(** [s.strip()] *)
Definition strip (s : string) : string :=
  string_of_list_ascii (strip_chars (chars s)).

(** Decimal digits with single underscores allowed between digits, as
    accepted by [int(str)].  [acc] is the value read so far and [prev]
    tells whether the previous character was a digit. *)
Fixpoint int_digits (l : list ascii) (acc : Z) (prev : bool) : option Z :=
  match l with
  | [] => if prev then Some acc else None
  | c :: l' =>
      match digit_of c with
      | Some d => int_digits l' (10 * acc + d) true
      | None =>
          if Ascii.eqb c "_"%char && prev then int_digits l' acc false
          else None
      end
  end.

(** [int(s)] for a [str]: surrounding whitespace, an optional sign, then
    decimal digits. *)
Definition parse_int (s : string) : result Z :=
  let body (l : list ascii) (sign : Z) :=
    match int_digits l 0 false with
    | Some n => Ok (sign * n)
    | None => Raise ValueError
    end in
  match strip_chars (chars s) with
  | "-"%char :: l => body l (-1)
  | "+"%char :: l => body l 1
  | l => body l 1
  end.

End PyStr.

(** ** Values of a JSON request body *)

(** The JSON values the model covers: [null], booleans, integers and
    strings.  Numbers with a fraction, arrays and objects are left out
    (what the handlers do with them depends on the formatting of floats
    and on the database driver), so a statement about every request body
    is a statement about the bodies made of these values. *)
Inductive pyval : Type :=
| PyNone
| PyBool (b : bool)
| PyInt (n : Z)
| PyStr (s : string).

(** [str(v)] *)
Definition py_str (v : pyval) : string :=
match v with
| PyNone => "None"
| PyBool true => "True"
| PyBool false => "False"
| PyInt n => pretty n
| PyStr s => s
end.

(** [int(v)] *)
Definition py_int (v : pyval) : result Z :=
match v with
| PyNone => Raise TypeError
| PyBool b => Ok (if b then 1 else 0)
| PyInt n => Ok n
| PyStr s => PyStr.parse_int s
end.

(** Truth value of [v], as tested by [v or ...] and [if v:]. *)
Definition py_truthy (v : pyval) : bool :=
match v with
| PyNone => false
| PyBool b => b
| PyInt n => negb (n =? 0)
| PyStr s => negb (String.eqb s "")
end.

(** ** The [decimal] module, as far as [as_money] uses it *)

Module PyDecimal.

(** A [Decimal] is a sign, a coefficient and an exponent, or a special
    value. *)
Inductive decimal : Type :=
| Finite (sign : bool) (coeff : N) (exp : Z)
| Infinity (sign : bool)
| NaN (sign : bool) (signaling : bool) (payload : N).

(** [getcontext().prec = 28]; [Emax] of the default context. *)
Definition context_prec : Z := 28.
Definition context_Emax : Z := 999999.

Definition lower (c : ascii) : ascii :=
let n := N_of_ascii c in
if ((65 <=? n) && (n <=? 90))%N then ascii_of_N (n + 32) else c.

Fixpoint take_digits (l : list ascii) : list ascii * list ascii :=
match l with
| c :: l' =>
    if PyStr.is_digit c then
      let '(ds, rest) := take_digits l' in (c :: ds, rest)
    else ([], l)
| [] => ([], [])
end.

Definition digits_value (ds : list ascii) : N :=
fold_left (fun acc c => (10 * acc + Z.to_N (default 0%Z (PyStr.digit_of c)))%N) ds 0%N.

Definition take_sign (l : list ascii) : bool * list ascii :=
match l with
| "-"%char :: l' => (true, l')
| "+"%char :: l' => (false, l')
| _ => (false, l)
end.

(** The numeric alternative of the literal grammar: digits, an optional
    fraction, an optional exponent; at least one digit before the
    exponent. *)
Definition parse_number (l : list ascii) : option (N * Z) :=
let '(ip, r1) := take_digits l in
let '(fp, r2) :=
  match r1 with
  | "."%char :: r => take_digits r
  | _ => ([], r1)
  end in
match ip ++ fp with
| [] => None
| ds =>
    let coeff := digits_value ds in
    let scale := Z.of_nat (length fp) in
    match r2 with
    | [] => Some (coeff, - scale)
    | "e"%char :: r3 =>
        let '(neg, r4) := take_sign r3 in
        let '(ed, r5) := take_digits r4 in
        match ed, r5 with
        | _ :: _, [] =>
            let e := Z.of_N (digits_value ed) in
            Some (coeff, (if neg then - e else e) - scale)
        | _, _ => None
        end
    | _ => None
    end
end.

(** The special alternatives: [Inf], [Infinity], [NaN] and [sNaN] with an
    optional diagnostic. *)
Definition parse_special (sign : bool) (l : list ascii) : option decimal :=
let nan (signaling : bool) (r : list ascii) :=
  let '(ds, rest) := take_digits r in
  match rest with
  | [] => Some (NaN sign signaling (digits_value ds))
  | _ => None
  end in
if bool_decide (l = PyStr.chars "inf") || bool_decide (l = PyStr.chars "infinity")
then Some (Infinity sign)
else
  match l with
  | "n"%char :: "a"%char :: "n"%char :: r => nan false r
  | "s"%char :: "n"%char :: "a"%char :: "n"%char :: r => nan true r
  | _ => None
  end.

(** [Decimal(s)] for a [str]: whitespace is stripped, underscores are
    removed, letters are matched without regard to case.  A literal that
    does not match raises [InvalidOperation]. *)
Definition of_string (s : string) : result decimal :=
let l := filter (fun c => c ≠ "_"%char) (PyStr.strip_chars (PyStr.chars s)) in
let '(sign, body) := take_sign l in
let body := map lower body in
match parse_number body with
| Some (c, e) => Ok (Finite sign c e)
| None =>
    match parse_special sign body with
    | Some d => Ok d
    | None => Raise InvalidOperation
    end
end.

(** Number of decimal digits of a coefficient ([len(self._int)]). *)
Fixpoint ndigits_fuel (fuel : nat) (c : N) : Z :=
match fuel with
| O => 1
| S f => if (c <? 10)%N then 1 else 1 + ndigits_fuel f (c / 10)%N
end.

Definition ndigits (c : N) : Z := ndigits_fuel (N.to_nat (N.size c)) c.

Definition pow10 (k : Z) : N := (10 ^ Z.to_N k)%N.

(** [self._rescale(exp, ROUND_HALF_UP)] on a coefficient: pad with zeros
    when the exponent goes down, else drop [k] digits and add one when the
    first dropped digit is 5 or more. *)
Definition rescale_half_up (c : N) (e target : Z) : N :=
if target <=? e then (c * pow10 (e - target))%N
else
  let k := target - e in
  let q := (c / pow10 k)%N in
  let r := (c mod pow10 k)%N in
  if (5 * pow10 (k - 1) <=? r)%N then (q + 1)%N else q.

(** [d.quantize(Decimal("0.01"), rounding=ROUND_HALF_UP)] in the default
    context with [prec = 28]: a signaling NaN and an infinity raise, a
    quiet NaN is returned (payload cut to the precision), and a finite
    value is rescaled to exponent [-2] provided the result fits in the
    precision. *)
Definition quantize_cents (d : decimal) : result decimal :=
match d with
| NaN s true _ => Raise InvalidOperation
| NaN s false p => Ok (NaN s false (p mod pow10 context_prec)%N)
| Infinity _ => Raise InvalidOperation
| Finite s 0%N _ => Ok (Finite s 0 (-2))
| Finite s c e =>
    let adjusted := e + ndigits c - 1 in
    if context_Emax <? adjusted then Raise InvalidOperation
    else if context_prec <? adjusted - (-2) + 1 then Raise InvalidOperation
    else
      let c' := rescale_half_up c e (-2) in
      if context_Emax <? (-2) + ndigits c' - 1 then Raise InvalidOperation
      else if context_prec <? ndigits c' then Raise InvalidOperation
      else Ok (Finite s c' (-2))
end.

End PyDecimal.

(** ** [src/utils/money.py] *)

Module Money.

Import PyDecimal.

(** [as_money(val)]: [InvalidOperation] and [TypeError] become
    [ValueError]. *)
Definition as_money (val : pyval) : result decimal :=
match d ← of_string (py_str val); quantize_cents d with
| Ok m => Ok m
| Raise InvalidOperation => Raise ValueError
| Raise TypeError => Raise ValueError
| Raise e => Raise e
end.

End Money.

(** ** Dates *)

Module PyTime.

(** A [datetime] is the number of microseconds since [datetime.min]
    (0001-01-01T00:00:00); [datetime.max] is the last microsecond of
    9999-12-31, day number 3652059. *)
Definition us_per_day : Z := 86400000000.
Definition datetime_end : Z := 3652059 * us_per_day.

(** [timedelta(days=n)], in microseconds. *)
Definition timedelta_days (n : Z) : result Z :=
if Z.abs n <=? 999999999 then Ok (n * us_per_day) else Raise OverflowError.

(** [t - d] for a datetime [t] and a timedelta [d]. *)
Definition datetime_sub (t d : Z) : result Z :=
let r := t - d in
if (0 <=? r) && (r <? datetime_end) then Ok r else Raise OverflowError.

End PyTime.

(** ** The relational store

    Modelled from the spec: [models.py] is not among the sources, so the
    tables carry the columns of the spec's data model and of the queries.
    Quantities are integer columns ([create_product] stores an [int]),
    thresholds are float columns; a nullable column is an [option].  The
    threshold of an override row is a value (not nullable), the default of
    a product type is optional. *)

Module Warehouse.
Record t := mk { id : Z; company_id : Z; name : string }.
End Warehouse.

Module Product.
Record t := mk {
  id : Z; name : string; sku : string;
  price : PyDecimal.decimal; product_type_id : option Z }.
End Product.

Module ProductType.
Record t := mk { id : Z; default_low_stock_threshold : option float }.
End ProductType.

Module Inventory.
Record t := mk { product_id : Z; warehouse_id : Z; quantity : option Z }.
End Inventory.

Module ProductThreshold.
Record t := mk {
  company_id : Z; product_id : Z; warehouse_id : option Z;
  threshold : float }.
End ProductThreshold.

Module Order.
Record t := mk { id : Z; company_id : Z; created_at : Z; status : string }.
End Order.

Module OrderLine.
Record t := mk {
  order_id : Z; product_id : Z; warehouse_id : Z; qty : option Z }.
End OrderLine.

Module Supplier.
Record t := mk { id : Z; name : string; contact_email : string }.
End Supplier.

Module ProductSupplier.
Record t := mk {
  company_id : Z; product_id : Z; supplier_id : Z;
  preferred : bool; lead_time_days : Z }.
End ProductSupplier.

Module DB.

Record t := mk {
  warehouses : list Warehouse.t;
  products : list Product.t;
  product_types : list ProductType.t;
  inventory : list Inventory.t;
  product_thresholds : list ProductThreshold.t;
  orders : list Order.t;
  order_lines : list OrderLine.t;
  suppliers : list Supplier.t;
  product_suppliers : list ProductSupplier.t }.


End DB.

(** ** Query helpers *)

Module Sql.

(** [.limit(1)] followed by [.scalar_one_or_none()]: the first row of the
    result, if any.  Without an ORDER BY the store returns its rows in
    storage order. *)
Definition first_or_none {A} (rows : list A) : option A := head rows.

(** Stable insertion of [x] into a list ordered by [ltb]. *)
Fixpoint insert_by {A} (ltb : A → A → bool) (x : A) (l : list A) : list A :=
match l with
| [] => [x]
| y :: l' => if ltb y x then y :: insert_by ltb x l' else x :: y :: l'
end.

(** A stable sort by [ltb]: ORDER BY, and [list.sort(key=...)], which
    compares keys with [<] only and keeps equal keys in their order.  For
    keys that [<] orders totally (numbers without NaN) every stable sort
    produces this list. *)
Definition sort_by {A} (ltb : A → A → bool) (l : list A) : list A :=
foldr (insert_by ltb) [] l.

(** [SUM(col)]: NULL when no row has a value. *)
Definition sum (col : list (option Z)) : option Z :=
match omap id col with
| [] => None
| vs => Some (foldr Z.add 0 vs)
end.

(** The value of a numeric expression as the driver hands it over. *)
Inductive num : Type :=
| Int (n : Z)
| Real (f : float).

(** [COALESCE(SUM(col), 0.0)] *)
Definition coalesce_sum (col : list (option Z)) : num :=
match sum col with
| Some n => Int n
| None => Real PyFloat.zero
end.

(** [float(v)] on such a value. *)
Definition to_float (v : num) : result float :=
match v with
| Int n => PyFloat.of_int n
| Real f => Ok f
end.

End Sql.

(** ** [src/routes/alerts.py] *)

Module Alerts.

(** The ids selected by the subquery [ro]: orders in window for company. *)
Definition recent_orders (db : DB.t) (company_id since_dt : Z) : list Z :=
Order.id <$>
  filter (λ o, Order.company_id o = company_id
               ∧ since_dt ≤ Order.created_at o
               ∧ Order.status o ∈ ["shipped"; "completed"]%string)
         (DB.orders db).

(** The order lines the sum ranges over. *)
Definition matching_lines (db : DB.t) (company_id product_id warehouse_id : Z)
    (since_dt : Z) : list OrderLine.t :=
filter (λ l, OrderLine.order_id l ∈ recent_orders db company_id since_dt
             ∧ OrderLine.product_id l = product_id
             ∧ OrderLine.warehouse_id l = warehouse_id)
       (DB.order_lines db).

(** [total] after the [try]/[except] around [float(total)]. *)
Definition ads_total (db : DB.t) (company_id product_id warehouse_id : Z)
    (since_dt : Z) : float :=
let total :=
  Sql.coalesce_sum
    (OrderLine.qty <$>
       matching_lines db company_id product_id warehouse_id since_dt) in
try_except (Sql.to_float total) PyFloat.zero.

Definition _ads (db : DB.t) (company_id product_id warehouse_id : Z)
    (since_dt : Z) (lookback_days : Z) : result float :=
let total := ads_total db company_id product_id warehouse_id since_dt in
PyFloat.truediv_int total (Z.max lookback_days 1).

(** The rows of the three lookups of [_threshold], before [.limit(1)]. *)
Definition warehouse_overrides (db : DB.t) (company_id : Z)
    (product : Product.t) (warehouse_id : Z) : list float :=
ProductThreshold.threshold <$>
  filter (λ r, ProductThreshold.company_id r = company_id
               ∧ ProductThreshold.product_id r = Product.id product
               ∧ ProductThreshold.warehouse_id r = Some warehouse_id)
         (DB.product_thresholds db).

Definition product_overrides (db : DB.t) (company_id : Z)
    (product : Product.t) : list float :=
ProductThreshold.threshold <$>
  filter (λ r, ProductThreshold.company_id r = company_id
               ∧ ProductThreshold.product_id r = Product.id product
               ∧ ProductThreshold.warehouse_id r = None)
         (DB.product_thresholds db).

Definition type_defaults (db : DB.t) (product_type_id : Z)
    : list (option float) :=
ProductType.default_low_stock_threshold <$>
  filter (λ r, ProductType.id r = product_type_id) (DB.product_types db).

Definition _threshold (db : DB.t) (company_id : Z) (product : Product.t)
    (warehouse_id : Z) : float :=
(* per-warehouse override *)
let t_wh :=
  Sql.first_or_none
    (warehouse_overrides db company_id product warehouse_id) in
match t_wh with
| Some t => t
| None =>
    (* product-level override *)
    let t_prod :=
      Sql.first_or_none (product_overrides db company_id product) in
    match t_prod with
    | Some t => t
    | None =>
        (* product type default; [if product.product_type_id:] is false
           for [None] and for [0] *)
        match Product.product_type_id product with
        | Some ptid =>
            if ptid =? 0 then PyFloat.zero
            else
              let t_def := mjoin (Sql.first_or_none (type_defaults db ptid)) in
              match t_def with
              | Some t => t
              | None => PyFloat.zero
              end
        | None => PyFloat.zero
        end
    end
end.

(** [ORDER BY lead_time_days ASC, supplier_id ASC] *)
Definition supplier_order (a b : ProductSupplier.t) : bool :=
(ProductSupplier.lead_time_days a <? ProductSupplier.lead_time_days b)
|| (ProductSupplier.lead_time_days a =? ProductSupplier.lead_time_days b)
   && (ProductSupplier.supplier_id a <? ProductSupplier.supplier_id b).

(** The supplier links of a product, and the preferred ones among them. *)
Definition all_links (db : DB.t) (company_id product_id : Z)
    : list ProductSupplier.t :=
filter (λ r, ProductSupplier.company_id r = company_id
             ∧ ProductSupplier.product_id r = product_id)
       (DB.product_suppliers db).

Definition preferred_links (db : DB.t) (company_id product_id : Z)
    : list ProductSupplier.t :=
filter (λ r, ProductSupplier.company_id r = company_id
             ∧ ProductSupplier.product_id r = product_id
             ∧ ProductSupplier.preferred r = true)
       (DB.product_suppliers db).

(** The supplier id [_best_supplier] resolves before it loads the row. *)
Definition _best_supplier_id (db : DB.t) (company_id product_id : Z)
    : option Z :=
(* preferred first, shortest lead time *)
let pref :=
  Sql.first_or_none
    (ProductSupplier.supplier_id <$>
       Sql.sort_by supplier_order
         (preferred_links db company_id product_id)) in
match pref with
| Some sid => Some sid
| None =>
    Sql.first_or_none
      (ProductSupplier.supplier_id <$>
         Sql.sort_by supplier_order (all_links db company_id product_id))
end.

(** [db.session.get(Supplier, sid)] *)
Definition get_supplier (db : DB.t) (sid : Z) : option Supplier.t :=
head (filter (λ s, Supplier.id s = sid) (DB.suppliers db)).

Definition _best_supplier (db : DB.t) (company_id product_id : Z)
    : option Supplier.t :=
match _best_supplier_id db company_id product_id with
| Some sid => get_supplier db sid
| None => None
end.

(** The query string of the request. *)
Record args := mk_args {
  arg_lookback_days : option string;
  arg_limit : option string;
  arg_warehouse_id : option string;
  arg_debug : option string }.

Record supplier_json := mk_supplier_json {
  sj_id : Z; sj_name : string; sj_contact_email : string }.

Record alert := mk_alert {
  product_id : Z;
  product_name : string;
  sku : string;
  warehouse_id : Z;
  warehouse_name : string;
  current_stock : float;
  threshold : float;
  days_until_stockout : option float;
  supplier : option supplier_json }.

Record debug_record := mk_debug {
  d_sku : string;
  d_product_id : Z;
  d_warehouse_id : Z;
  d_warehouse_name : string;
  d_stock : float;
  d_threshold : float;
  d_ads : float;
  d_decision : string;
  d_reason_if_skip : list string }.

Inductive body : Type :=
| ErrorBody (error : string)
| AlertsBody (alerts : list alert) (total_alerts : nat)
    (debug : option (list debug_record)).

(** The skip reasons of one row, in the order they are appended. *)
Definition skip_reasons (ads thr stock : float) : list string :=
(if PyFloat.le ads PyFloat.zero then ["no_recent_sales"%string] else [])
++ (if PyFloat.le thr PyFloat.zero then ["zero_threshold"%string] else [])
++ (if PyFloat.ge stock thr then ["stock_not_below_threshold"%string] else []).

Definition keep_decision (ads thr stock : float) : bool :=
PyFloat.gt ads PyFloat.zero && PyFloat.gt thr PyFloat.zero
&& PyFloat.lt stock thr.

(** [float(qty)] guarded by [except Exception]. *)
Definition stock_of (qty : option Z) : float :=
try_except
  (match qty with
   | Some n => PyFloat.of_int n
   | None => Raise TypeError
   end)
  PyFloat.zero.

(** [a["current_stock"] - a["threshold"]], the sort key. *)
Definition deficiency (a : alert) : float :=
PyFloat.sub (current_stock a) (threshold a).

Definition by_deficiency (a b : alert) : bool :=
PyFloat.lt (deficiency a) (deficiency b).

(** [l[:n]] *)
Definition slice_to {A} (n : Z) (l : list A) : list A :=
if 0 <=? n then take (Z.to_nat n) l
else take (length l - Z.to_nat (- n))%nat l.

Section Scan.

Variable db : DB.t.
Variable company_id : Z.
Variable since : Z.
Variable lookback_days : Z.
Variable limit : Z.
Variable debug : bool.
Variable products : gmap Z Product.t.
Variable warehouses : gmap Z Warehouse.t.

(** The body of the loop for a row whose product and warehouse were found:
    the debug record of the row and, when the row is kept, its alert. *)
Definition scan_row (p : Product.t) (w : Warehouse.t) (pid wid : Z)
    (qty : option Z) : result (debug_record * option alert) :=
let stock := stock_of qty in
ads ← _ads db company_id pid wid since lookback_days;
let thr := _threshold db company_id p wid in
let reason := skip_reasons ads thr stock in
let keep := keep_decision ads thr stock in
let d :=
  mk_debug (Product.sku p) pid wid (Warehouse.name w) stock thr ads
    (if keep then "keep" else "skip") reason in
if negb keep then Ok (d, None)
else
  let sup := _best_supplier db company_id pid in
  let supplier :=
    match sup with
    | None => None
    | Some sup =>
        Some (mk_supplier_json (Supplier.id sup) (Supplier.name sup)
                (Supplier.contact_email sup))
    end in
  Ok (d, Some (mk_alert (Product.id p) (Product.name p) (Product.sku p)
                 (Warehouse.id w) (Warehouse.name w) stock thr
                 (if PyFloat.gt ads PyFloat.zero
                  then Some (SFdiv PyFloat.prec PyFloat.emax stock ads)
                  else None)
                 supplier)).

(** The loop over [inv_rows], with its two accumulators and its early
    exit. *)
Fixpoint scan (inv_rows : list (Z * Z * option Z)) (alerts : list alert)
    (dbg : list debug_record) : result (list alert * list debug_record) :=
match inv_rows with
| [] => Ok (alerts, dbg)
| (pid, wid, qty) :: rest =>
    match products !! pid, warehouses !! wid with
    | Some p, Some w =>
        '(d, kept) ← scan_row p w pid wid qty;
        let dbg := if debug then dbg ++ [d] else dbg in
        match kept with
        | None => scan rest alerts dbg
        | Some a =>
            let alerts := alerts ++ [a] in
            if limit <=? Z.of_nat (length alerts) then Ok (alerts, dbg)
            else scan rest alerts dbg
        end
    | _, _ => scan rest alerts dbg
    end
end.

(** What the loop would collect from [inv_rows] without its early exit:
    the alerts of all qualifying rows, in scan order. *)
Fixpoint kept_alerts (inv_rows : list (Z * Z * option Z))
    : result (list alert) :=
match inv_rows with
| [] => Ok []
| (pid, wid, qty) :: rest =>
    match products !! pid, warehouses !! wid with
    | Some p, Some w =>
        '(_, kept) ← scan_row p w pid wid qty;
        more ← kept_alerts rest;
        Ok (option_list kept ++ more)
    | _, _ => kept_alerts rest
    end
end.

End Scan.

(** [request.args.get(name, default)] followed by [int(...)]. *)
Definition int_arg (a : option string) (default : Z) : result Z :=
match a with
| Some s => PyStr.parse_int s
| None => Ok default
end.

(** The inventory of the company, with the optional warehouse filter. *)
Definition inv_rows (db : DB.t) (company_id : Z)
    (target_warehouse : option Z) : list (Z * Z * option Z) :=
let joined :=
  i ← DB.inventory db;
  _ ← filter (λ w, Warehouse.id w = Inventory.warehouse_id i
                   ∧ Warehouse.company_id w = company_id)
             (DB.warehouses db);
  [i] in
let filtered :=
  match target_warehouse with
  | Some t =>
      if t =? 0 then joined
      else filter (λ i, Inventory.warehouse_id i = t) joined
  | None => joined
  end in
(λ i, (Inventory.product_id i, Inventory.warehouse_id i,
       Inventory.quantity i)) <$> filtered.

(** [{p.id: p for p in rows}]: a later row replaces an earlier one. *)
Definition dict_by_id {A} (key : A → Z) (rows : list A) : gmap Z A :=
foldl (λ m r, <[key r := r]> m) ∅ rows.

(** The two dictionaries of the prefetch. *)
Definition prefetch_products (db : DB.t) (rows : list (Z * Z * option Z))
    : gmap Z Product.t :=
let product_ids : gset Z := list_to_set ((λ r, r.1.1) <$> rows) in
dict_by_id Product.id
  (filter (λ p, Product.id p ∈ product_ids) (DB.products db)).

Definition prefetch_warehouses (db : DB.t) (rows : list (Z * Z * option Z))
    : gmap Z Warehouse.t :=
let warehouse_ids : gset Z := list_to_set ((λ r, r.1.2) <$> rows) in
dict_by_id Warehouse.id
  (filter (λ w, Warehouse.id w ∈ warehouse_ids) (DB.warehouses db)).

(** [int(target_warehouse) if target_warehouse is not None else None] *)
Definition parse_warehouse (a : option string) : result (option Z) :=
match a with
| Some s => Some <$> PyStr.parse_int s
| None => Ok None
end.

(** [since = datetime.utcnow() - timedelta(days=lookback_days)] *)
Definition since_of (now lookback_days : Z) : result Z :=
delta ← PyTime.timedelta_days lookback_days;
PyTime.datetime_sub now delta.

(** What the handler holds once the alerts are sorted. *)
Record collected := mk_collected {
  c_limit : Z;
  c_debug : bool;
  c_alerts : list alert;
  c_dbg : list debug_record }.

(** The handler up to and including [alerts.sort(...)]: an early response,
    or the sorted alerts with the debug records. *)
Definition collect (db : DB.t) (now : Z) (company_id : Z) (req : args)
    : result (body * Z + collected) :=
lookback_days ← int_arg (arg_lookback_days req) 30;
limit ← int_arg (arg_limit req) 100;
let debug := bool_decide (arg_debug req = Some "1"%string) in
match parse_warehouse (arg_warehouse_id req) with
| Raise ValueError => Ok (inl (ErrorBody "invalid_warehouse_id", 400))
| Raise e => Raise e
| Ok target_warehouse =>
    since ← since_of now lookback_days;
    let rows := inv_rows db company_id target_warehouse in
    (* prefetch *)
    let products := prefetch_products db rows in
    let warehouses := prefetch_warehouses db rows in
    '(alerts, dbg) ←
      scan db company_id since lookback_days limit debug products
        warehouses rows [] [];
    let alerts := Sql.sort_by by_deficiency alerts in
    Ok (inr (mk_collected limit debug alerts dbg))
end.

(** [resp = {...}; return jsonify(resp), 200] *)
Definition respond (debug : bool) (alerts : list alert)
    (dbg : list debug_record) : body * Z :=
(AlertsBody alerts (length alerts) (if debug then Some dbg else None), 200).

Definition low_stock_alerts (db : DB.t) (now : Z) (company_id : Z)
    (req : args) : result (body * Z) :=
c ← collect db now company_id req;
match c with
| inl early => Ok early
| inr c =>
    let alerts := c_alerts c in
    let alerts :=
      if c_limit c <? Z.of_nat (length alerts)
      then slice_to (c_limit c) alerts
      else alerts in
    Ok (respond (c_debug c) alerts (c_dbg c))
end.

(** The handler with the truncation after the sort left out. *)
Definition low_stock_alerts_untruncated (db : DB.t) (now : Z)
    (company_id : Z) (req : args) : result (body * Z) :=
c ← collect db now company_id req;
match c with
| inl early => Ok early
| inr c => Ok (respond (c_debug c) (c_alerts c) (c_dbg c))
end.

End Alerts.

(** ** [src/routes/products.py] *)

Module Products.

(** A unit of work of the session: the committed store, and the store as
    the open transaction sees it. *)
Record session := mk_session { committed : DB.t; pending : DB.t }.

Definition begin (db : DB.t) : session := mk_session db db.

(** [db.session.commit()] and [db.session.rollback()] *)
Definition commit (s : session) : session :=
mk_session (pending s) (pending s).
Definition rollback (s : session) : session :=
mk_session (committed s) (committed s).

Definition with_products (db : DB.t) (ps : list Product.t) : DB.t :=
DB.mk (DB.warehouses db) ps (DB.product_types db) (DB.inventory db)
  (DB.product_thresholds db) (DB.orders db) (DB.order_lines db)
  (DB.suppliers db) (DB.product_suppliers db).

Definition with_inventory (db : DB.t) (inv : list Inventory.t) : DB.t :=
DB.mk (DB.warehouses db) (DB.products db) (DB.product_types db) inv
  (DB.product_thresholds db) (DB.orders db) (DB.order_lines db)
  (DB.suppliers db) (DB.product_suppliers db).

(** The id the store gives to a new product row. *)
Definition next_product_id (db : DB.t) : Z :=
1 + foldr Z.max 0 (Product.id <$> DB.products db).

(** [db.session.add(product); db.session.flush()]: the INSERT runs inside
    the transaction and is refused when the sku is taken.

    Modelled from the spec: the uniqueness of [sku] is declared in
    [models.py], which is not among the sources. *)
Definition add_product_flush (s : session) (name sku : string)
    (price : PyDecimal.decimal) : session * result Product.t :=
let db := pending s in
if bool_decide (sku ∈ Product.sku <$> DB.products db)
then (s, Raise IntegrityError)
else
  let p := Product.mk (next_product_id db) name sku price None in
  (mk_session (committed s) (with_products db (DB.products db ++ [p])),
   Ok p).

(** [.scalar_one_or_none()] without a limit. *)
Definition scalar_one_or_none {A} (rows : list A) : result (option A) :=
match rows with
| [] => Ok None
| [x] => Ok (Some x)
| _ => Raise MultipleResultsFound
end.

(** The value an integer column is compared with or set to; a parameter
    that is not an integer matches no row. *)
Definition int_param (v : pyval) : option Z :=
match v with
| PyInt n => Some n
| PyBool b => Some (if b then 1 else 0)
| _ => None
end.

Inductive body : Type :=
| Errors (errors : gmap string string)
| Error (error : string)
| InternalError (detail : exn)
| Created (product_id : Z).

(** [(payload.get(key) or "").strip()] *)
Definition stripped_field (payload : gmap string pyval) (key : string)
    : result string :=
let v := default PyNone (payload !! key) in
match (if py_truthy v then v else PyStr "") with
| PyStr s => Ok (PyStr.strip s)
| _ => Raise AttributeError
end.

(** The statements of the [try] block before the commit: the session they
    leave behind, and the product id or the exception raised. *)
Definition create_in_transaction (s : session) (name sku : string)
    (price : PyDecimal.decimal) (initial_quantity : Z) (warehouse_id : pyval)
    : session * result Z :=
(* ---- create product ---- *)
match add_product_flush s name sku price with
| (s, Raise e) => (s, Raise e)
| (s, Ok product) =>
    (* ---- optional initial inventory (idempotent "set") ---- *)
    match warehouse_id with
    | PyNone => (s, Ok (Product.id product))
    | _ =>
        let db := pending s in
        let hit (i : Inventory.t) : Prop :=
          Inventory.product_id i = Product.id product
          ∧ Some (Inventory.warehouse_id i) = int_param warehouse_id in
        match scalar_one_or_none (filter hit (DB.inventory db)) with
        | Raise e => (s, Raise e)
        | Ok (Some _) =>
            let set_quantity (i : Inventory.t) :=
              if bool_decide (hit i)
              then Inventory.mk (Inventory.product_id i)
                     (Inventory.warehouse_id i) (Some initial_quantity)
              else i in
            (mk_session (committed s)
               (with_inventory db (set_quantity <$> DB.inventory db)),
             Ok (Product.id product))
        | Ok None =>
            let i :=
              Inventory.mk (Product.id product)
                (default 0 (int_param warehouse_id))
                (Some initial_quantity) in
            (mk_session (committed s)
               (with_inventory db (DB.inventory db ++ [i])),
             Ok (Product.id product))
        end
    end
end.

(** The lookup that verifies a given [warehouse_id]: [None] when no
    warehouse has that id. *)
Definition find_warehouse (db : DB.t) (warehouse_id : pyval)
    : result (option Z) :=
scalar_one_or_none
  (Warehouse.id <$>
     filter (λ w, Some (Warehouse.id w) = int_param warehouse_id)
            (DB.warehouses db)).

(** The [try] block with its handlers. *)
Definition run_transaction (db : DB.t) (name sku : string)
    (price : PyDecimal.decimal) (initial_quantity : Z) (warehouse_id : pyval)
    : DB.t * result (body * Z) :=
match
  create_in_transaction (begin db) name sku price initial_quantity
    warehouse_id
with
| (s, Ok product_id) =>
    (committed (commit s), Ok (Created product_id, 201))
| (s, Raise IntegrityError) =>
    (* Most likely a SKU uniqueness violation *)
    (committed (rollback s), Ok (Error "sku_already_exists", 409))
| (s, Raise e) =>
    (committed (rollback s), Ok (InternalError e, 500))
end.

(** The validation block: the fields, or the [errors] dictionary. *)
Definition validate (payload : gmap string pyval)
    : result (gmap string string
              + string * string * PyDecimal.decimal * Z) :=
name ← stripped_field payload "name";
sku ← stripped_field payload "sku";
let price_raw := default PyNone (payload !! "price") in
let initial_quantity := default (PyInt 0) (payload !! "initial_quantity") in
let errors : gmap string string := ∅ in
let errors :=
  if String.eqb name "" then <["name" := "required"]> errors else errors in
let errors :=
  if String.eqb sku "" then <["sku" := "required"]> errors else errors in
let price := Money.as_money price_raw in
let errors :=
  if is_ok price then errors
  else <["price" := "invalid_decimal"]> errors in
let quantity :=
  n ← py_int initial_quantity;
  if n <? 0 then Raise ValueError else Ok n in
let errors :=
  if is_ok quantity then errors
  else <["initial_quantity" := "must_be_non_negative_integer"]> errors in
match price, quantity with
| Ok price, Ok initial_quantity =>
    if bool_decide (errors ≠ ∅) then Ok (inl errors)
    else Ok (inr (name, sku, price, initial_quantity))
| _, _ => Ok (inl errors)
end.

(** [create_product()]: the store after the request and the response, or
    the exception that escapes the handler. *)
Definition create_product (db : DB.t) (json : option (gmap string pyval))
    : DB.t * result (body * Z) :=
let payload := default ∅ json in
let warehouse_id := default PyNone (payload !! "warehouse_id") in
match validate payload with
| Raise e => (db, Raise e)
| Ok (inl errors) => (db, Ok (Errors errors, 400))
| Ok (inr (name, sku, price, initial_quantity)) =>
    (* If warehouse_id provided, verify it exists *)
    match
      match warehouse_id with
      | PyNone => Ok true
      | _ => (λ wh, bool_decide (wh ≠ None)) <$> find_warehouse db warehouse_id
      end
    with
    | Raise e => (db, Raise e)
    | Ok false => (db, Ok (Error "warehouse_not_found", 404))
    | Ok true =>
        run_transaction db name sku price initial_quantity warehouse_id
    end
end.

End Products.

(** ** A small store used in the examples *)

Module Demo.

(** The double nearest to an integer. *)
Definition dbl (n : Z) : float := try_except (PyFloat.of_int n) PyFloat.zero.

Definition day (n : Z) : Z := n * PyTime.us_per_day.

Definition price : PyDecimal.decimal := PyDecimal.Finite false 1999 (-2).

(** Company 7 has one warehouse and two products, both selling one unit a
    day over the last 30 days and both below their threshold of 10: the
    widget has 9 in stock, the gadget 1. *)
Definition store : DB.t :=
DB.mk
  [Warehouse.mk 1 7 "main"]
  [Product.mk 1 "widget" "W-1" price None;
   Product.mk 2 "gadget" "G-1" price (Some 5)]
  [ProductType.mk 5 (Some (dbl 3))]
  [Inventory.mk 1 1 (Some 9); Inventory.mk 2 1 (Some 1)]
  [ProductThreshold.mk 7 1 None (dbl 10);
   ProductThreshold.mk 7 2 None (dbl 10)]
  [Order.mk 1 7 (day 700000) "shipped"]
  [OrderLine.mk 1 1 1 (Some 30); OrderLine.mk 1 2 1 (Some 30)]
  [Supplier.mk 3 "acme" "sales@acme.example";
   Supplier.mk 4 "bolt" "hello@bolt.example"]
  [ProductSupplier.mk 7 1 4 false 5; ProductSupplier.mk 7 1 3 false 5].

Definition today : Z := day 700010.

(** The start of the default 30-day window on that day. *)
Definition window_start : Z := day 699980.

Definition widget : Product.t := Product.mk 1 "widget" "W-1" price None.
Definition main_warehouse : Warehouse.t := Warehouse.mk 1 7 "main".

Definition widget_alert : Alerts.alert :=
Alerts.mk_alert 1 "widget" "W-1" 1 "main" (dbl 9) (dbl 10) (Some (dbl 9))
  (Some (Alerts.mk_supplier_json 3 "acme" "sales@acme.example")).

Definition gadget_alert : Alerts.alert :=
Alerts.mk_alert 2 "gadget" "G-1" 1 "main" (dbl 1) (dbl 10) (Some (dbl 1))
  None.

(** A valid creation request that reuses the sku of the widget, with an
    initial stock for warehouse 1. *)
Definition duplicate_request : gmap string pyval :=
<["name" := PyStr "Widget, again"]>
  (<["sku" := PyStr " W-1 "]>
     (<["price" := PyStr "4.50"]>
        (<["initial_quantity" := PyInt 12]>
           (<["warehouse_id" := PyInt 1]> ∅)))).

(** The example store with other order lines, and with other threshold
    rows. *)
Definition with_order_lines (lines : list OrderLine.t) : DB.t :=
DB.mk (DB.warehouses store) (DB.products store) (DB.product_types store)
  (DB.inventory store) (DB.product_thresholds store) (DB.orders store)
  lines (DB.suppliers store) (DB.product_suppliers store).

Definition with_thresholds (rows : list ProductThreshold.t) : DB.t :=
DB.mk (DB.warehouses store) (DB.products store) (DB.product_types store)
  (DB.inventory store) rows (DB.orders store) (DB.order_lines store)
  (DB.suppliers store) (DB.product_suppliers store).

(** A valid creation request for a new sku, with an initial stock for
    warehouse 1; the price rounds to 4.51. *)
Definition new_request : gmap string pyval :=
<["name" := PyStr " Sprocket "]>
  (<["sku" := PyStr "S-1"]>
     (<["price" := PyStr "4.505"]>
        (<["initial_quantity" := PyInt 12]>
           (<["warehouse_id" := PyInt 1]> ∅)))).

Definition sprocket : Product.t :=
Product.mk 3 "Sprocket" "S-1" (PyDecimal.Finite false 451 (-2)) None.

Definition gadget : Product.t := Product.mk 2 "gadget" "G-1" price (Some 5).


(** A store whose only product type has the id 0 and a default threshold
    of 3, and a product of that type without any override. *)
Definition zero_typed_widget : Product.t :=
Product.mk 1 "widget" "W-1" price (Some 0).

Definition zero_type_store : DB.t :=
DB.mk [Warehouse.mk 1 7 "main"] [zero_typed_widget]
  [ProductType.mk 0 (Some (dbl 3))] [Inventory.mk 1 1 (Some 2)] [] [] [] []
  [].

End Demo.

(** ** Notions used in the statements *)

(** [b] may follow [a] in a list ascending for [ltb]: [b] is not below
    [a]. *)
Definition ascending {A} (ltb : A → A → bool) (a b : A) : Prop :=
ltb b a = false.

(** Ascending order of the sort keys of two alerts. *)
Definition deficiency_le (a b : Alerts.alert) : Prop :=
PyFloat.le (Alerts.deficiency a) (Alerts.deficiency b) = true.

(** Rounding the magnitude [c * 10 ^ e] half up to a whole number of
    hundredths: [floor (c * 10 ^ (e + 2) + 1/2)]. *)
Definition half_up_cents (c : N) (e : Z) : N :=
if -2 <=? e then (c * PyDecimal.pow10 (e + 2))%N
else ((2 * c + PyDecimal.pow10 (- 2 - e)) / (2 * PyDecimal.pow10 (- 2 - e)))%N.

(** The largest coefficient the context precision allows is
    [10 ^ 28 - 1]. *)
Definition fits_precision (c : N) : Prop :=
(c < PyDecimal.pow10 PyDecimal.context_prec)%N.

(** A supplier link is at least as good as another: shorter lead time,
    or the same lead time and a supplier id that is not larger. *)
Definition link_le (a b : ProductSupplier.t) : Prop :=
ProductSupplier.lead_time_days a < ProductSupplier.lead_time_days b
∨ ProductSupplier.lead_time_days a = ProductSupplier.lead_time_days b
  ∧ ProductSupplier.supplier_id a ≤ ProductSupplier.supplier_id b.

(** [r] is the first row of a table that satisfies [P]: the row a query
    with [.limit(1)] and no ORDER BY returns.  [no_row]: no row of the
    table satisfies [P]. *)
Definition first_row {A} (P : A → Prop) (rows : list A) (r : A) : Prop :=
∃ before after, rows = before ++ r :: after ∧ P r ∧ ∀ x, x ∈ before → ¬ P x.

Definition no_row {A} (P : A → Prop) (rows : list A) : Prop :=
∀ x, x ∈ rows → ¬ P x.

(** An override row for exactly this company, product and warehouse; a
    product-level override row (null warehouse); a product type row with a
    given id. *)
Definition warehouse_override (company_id : Z) (product : Product.t)
    (warehouse_id : Z) (r : ProductThreshold.t) : Prop :=
ProductThreshold.company_id r = company_id
∧ ProductThreshold.product_id r = Product.id product
∧ ProductThreshold.warehouse_id r = Some warehouse_id.

Definition product_override (company_id : Z) (product : Product.t)
    (r : ProductThreshold.t) : Prop :=
ProductThreshold.company_id r = company_id
∧ ProductThreshold.product_id r = Product.id product
∧ ProductThreshold.warehouse_id r = None.

Definition type_row (product_type_id : Z) (r : ProductType.t) : Prop :=
ProductType.id r = product_type_id.



(** The float is a zero, a finite number or an infinity of sign [s]. *)
Definition has_sign (s : bool) (x : float) : Prop :=
match x with
| S754_zero s' | S754_infinity s' | S754_finite s' _ _ => s' = s
| S754_nan => False
end.

(** The warehouse check of [create_product] (the [if warehouse_id is not
    None:] block before the [try]), as a function of its own: whether the
    handler goes on. *)
Definition warehouse_check (db : DB.t) (warehouse_id : pyval)
    : result bool :=
match warehouse_id with
| PyNone => Ok true
| _ =>
    (λ wh, bool_decide (wh ≠ None))
      <$> Products.find_warehouse db warehouse_id
end.

(* ===================================================================== *)
(** * Part II: properties *)
(* ===================================================================== *)

(** ** Rounding an integer to a double *)

Section Iter.
Context {A : Type} (f : A → A) (Q : Z → A → Prop).
Hypothesis step : ∀ k x, 0 ≤ k → Q k x → Q (k + 1) (f x).

Lemma iter_pos_invariant p : ∀ k x, 0 ≤ k → Q k x → Q (k + Z.pos p) (SpecFloat.iter_pos f p x).
Proof.
  induction p as [p IH|p IH|]; intros k x Hk HQ; simpl.
  - replace (k + Z.pos p~1) with ((k + 1 + Z.pos p) + Z.pos p) by lia.
    apply IH; [lia|]. apply IH; [lia|]. by apply step.
  - replace (k + Z.pos p~0) with ((k + Z.pos p) + Z.pos p) by lia.
    apply IH; [lia|]. by apply IH.
  - by apply step.
Qed.
End Iter.

Lemma shr_1_m mrs : 0 ≤ shr_m mrs → shr_m (shr_1 mrs) = shr_m mrs / 2.
Proof.
  destruct mrs as [m r s]; simpl. intros Hm.
  destruct m as [|[p|p|]|p]; cbn -[Z.div]; try lia.
  - reflexivity.
  - apply Z.div_unique with 1; lia.
  - apply Z.div_unique with 0; lia.
  - reflexivity.
Qed.

Lemma shr_iter_m p mrs :
  0 ≤ shr_m mrs → shr_m (SpecFloat.iter_pos shr_1 p mrs) = shr_m mrs / 2 ^ Z.pos p.
Proof.
  intros Hm.
  pose proof (iter_pos_invariant shr_1
    (λ k x, shr_m x = shr_m mrs / 2 ^ k) ) as H.
  simpl in H. specialize (H ltac:(
    intros k x Hk Hx; rewrite shr_1_m; [|rewrite Hx; apply Z.div_pos; lia];
    rewrite Hx, Z.pow_add_r, Z.pow_1_r by lia;
    rewrite Z.div_div by lia; reflexivity) p 0 mrs).
  simpl in H. apply H; [lia|]. by rewrite Z.div_1_r.
Qed.

Lemma digits2_size p : digits2_pos p = Pos.size p.
Proof. induction p; simpl; congruence. Qed.

Lemma digits2_bounds p :
  2 ^ (Z.pos (digits2_pos p) - 1) ≤ Z.pos p < 2 ^ Z.pos (digits2_pos p).
Proof.
  rewrite digits2_size. split.
  - pose proof (Pos.size_le p) as H.
    assert (Z.pos (2 ^ Pos.size p) ≤ Z.pos p~0) as H' by exact H.
    rewrite Pos2Z.inj_pow in H'.
    replace (Z.pos (Pos.size p)) with (Z.pos (Pos.size p) - 1 + 1) in H' by lia.
    rewrite Z.pow_add_r, Z.pow_1_r in H' by lia. lia.
  - pose proof (Pos.size_gt p) as H.
    assert (Z.pos p < Z.pos (2 ^ Pos.size p)) as H' by exact H.
    by rewrite Pos2Z.inj_pow in H'.
Qed.

Lemma Zdigits2_bounds m :
  0 < m → 1 ≤ Zdigits2 m ∧ 2 ^ (Zdigits2 m - 1) ≤ m < 2 ^ Zdigits2 m.
Proof.
  destruct m as [|p|p]; try lia. intros _. simpl.
  split; [lia|apply digits2_bounds].
Qed.

Lemma Zdigits2_unique m d : 1 ≤ d → 2 ^ (d - 1) ≤ m < 2 ^ d → Zdigits2 m = d.
Proof.
  intros Hd [Hlo Hhi].
  assert (0 < m) as Hm by (pose proof (Z.pow_pos_nonneg 2 (d - 1)); lia).
  destruct (Zdigits2_bounds m Hm) as (H1 & Hlo' & Hhi').
  destruct (Z.lt_trichotomy (Zdigits2 m) d) as [Hlt|[Heq|Hgt]]; [|done|].
  - pose proof (Z.pow_le_mono_r 2 (Zdigits2 m) (d - 1)). lia.
  - pose proof (Z.pow_le_mono_r 2 d (Zdigits2 m - 1)). lia.
Qed.

Lemma Zdigits2_succ m : 0 < m → Zdigits2 m ≤ Zdigits2 (m + 1) ≤ Zdigits2 m + 1.
Proof.
  intros Hm.
  destruct (Zdigits2_bounds m Hm) as (H1 & Hlo & Hhi).
  destruct (Zdigits2_bounds (m + 1) ltac:(lia)) as (H1' & Hlo' & Hhi').
  split.
  - destruct (Z.le_gt_cases (Zdigits2 m) (Zdigits2 (m + 1))) as [|Hgt]; [done|].
    pose proof (Z.pow_le_mono_r 2 (Zdigits2 (m + 1)) (Zdigits2 m - 1)). lia.
  - destruct (Z.le_gt_cases (Zdigits2 (m + 1)) (Zdigits2 m + 1)) as [|Hgt]; [done|].
    pose proof (Z.pow_le_mono_r 2 (Zdigits2 m + 1) (Zdigits2 (m + 1) - 1)).
    assert (2 ^ (Zdigits2 m + 1) = 2 * 2 ^ Zdigits2 m) by
      (rewrite Z.pow_add_r, Z.pow_1_r by lia; lia).
    lia.
Qed.

Lemma shr_record_of_loc_m m l : shr_m (shr_record_of_loc m l) = m.
Proof. by destruct l as [|[]]. Qed.

Section Round.
Variables prec emax : Z.
Hypothesis prec_pos : 0 < prec.
Hypothesis emax_big : 2 ≤ emax.

Lemma shr_fexp_spec m e l :
  0 < m → emin prec emax < Zdigits2 m + e →
  ∃ mrs e', shr_fexp prec emax m e l = (mrs, e')
    ∧ 0 < shr_m mrs
    ∧ Zdigits2 (shr_m mrs) + e' = Zdigits2 m + e
    ∧ e' = Z.max e (fexp prec emax (Zdigits2 m + e)).
Proof.
  intros Hm Hmin. unfold shr_fexp, shr.
  destruct (Zdigits2_bounds m Hm) as (H1 & Hlo & Hhi).
  destruct (fexp prec emax (Zdigits2 m + e) - e) as [|n|n] eqn:Hn.
  - eexists _, _. rewrite shr_record_of_loc_m. repeat split; try done. lia.
  - eexists _, _. split; [done|].
    rewrite shr_iter_m by (rewrite shr_record_of_loc_m; lia).
    rewrite shr_record_of_loc_m.
    assert (Z.pos n ≤ Zdigits2 m - 1) as Hle by (unfold fexp in Hn; lia).
    assert (2 ^ (Zdigits2 m - 1) = 2 ^ (Zdigits2 m - 1 - Z.pos n) * 2 ^ Z.pos n)
      as Hsplit by (rewrite <- Z.pow_add_r by lia; f_equal; lia).
    assert (2 ^ Zdigits2 m = 2 ^ (Zdigits2 m - Z.pos n) * 2 ^ Z.pos n)
      as Hsplit' by (rewrite <- Z.pow_add_r by lia; f_equal; lia).
    assert (0 < 2 ^ Z.pos n) as Hp by (apply Z.pow_pos_nonneg; lia).
    assert (2 ^ (Zdigits2 m - 1 - Z.pos n) ≤ m / 2 ^ Z.pos n) as Hq1.
    { apply Z.div_le_lower_bound; lia. }
    assert (m / 2 ^ Z.pos n < 2 ^ (Zdigits2 m - Z.pos n)) as Hq2.
    { apply Z.div_lt_upper_bound; lia. }
    assert (0 < 2 ^ (Zdigits2 m - 1 - Z.pos n)) by (apply Z.pow_pos_nonneg; lia).
    rewrite (Zdigits2_unique _ (Zdigits2 m - Z.pos n)); [|lia|].
    + repeat split; lia.
    + replace (Zdigits2 m - Z.pos n - 1) with (Zdigits2 m - 1 - Z.pos n) by lia.
      lia.
  - eexists _, _. rewrite shr_record_of_loc_m. repeat split; try done. lia.
Qed.

Lemma round_nearest_even_cases m l :
  round_nearest_even m l = m ∨ round_nearest_even m l = m + 1.
Proof. destruct l as [|[]]; simpl; auto. destruct (Z.even m); auto. Qed.

(** Rounding a positive value that is not below the smallest subnormal
    gives a finite number or an infinity of the given sign; the exponent of
    a finite result is bounded. *)
Lemma binary_round_aux_pos sx mx ex lx :
  0 < mx → emin prec emax < Zdigits2 mx + ex →
  binary_round_aux prec emax sx mx ex lx = S754_infinity sx
  ∨ ∃ m e, binary_round_aux prec emax sx mx ex lx = S754_finite sx m e.
Proof.
  intros Hm Hmin. unfold binary_round_aux.
  destruct (shr_fexp_spec mx ex lx Hm Hmin) as (mrs' & e' & -> & Hm' & Hd' & He').
  set (m'' := round_nearest_even _ _).
  assert (0 < m'' ∧ Zdigits2 (shr_m mrs') ≤ Zdigits2 m'') as [Hm'' Hd''].
  { subst m''. destruct (round_nearest_even_cases (shr_m mrs')
      (loc_of_shr_record mrs')) as [->| ->]; [lia|].
    pose proof (Zdigits2_succ _ Hm'). lia. }
  destruct (shr_fexp_spec m'' e' loc_Exact Hm'' ltac:(lia))
    as (mrs'' & e'' & -> & Hm3 & _ & _).
  destruct (shr_m mrs'') as [|m|m]; try lia.
  destruct (e'' <=? emax - prec); eauto.
Qed.

Lemma binary_round_aux_finite sx mx ex lx :
  0 < mx → emin prec emax < Zdigits2 mx + ex →
  ex ≤ emax - prec → Zdigits2 mx + ex < emax →
  ∃ m e, binary_round_aux prec emax sx mx ex lx = S754_finite sx m e.
Proof.
  intros Hm Hmin Hex Hmax. unfold binary_round_aux.
  destruct (shr_fexp_spec mx ex lx Hm Hmin) as (mrs' & e' & -> & Hm' & Hd' & He').
  set (m'' := round_nearest_even _ _).
  assert (0 < m'' ∧ Zdigits2 (shr_m mrs') ≤ Zdigits2 m'' ≤ Zdigits2 (shr_m mrs') + 1)
    as [Hm'' Hd''].
  { subst m''. destruct (round_nearest_even_cases (shr_m mrs')
      (loc_of_shr_record mrs')) as [->| ->]; [lia|].
    pose proof (Zdigits2_succ _ Hm'). lia. }
  destruct (shr_fexp_spec m'' e' loc_Exact Hm'' ltac:(lia))
    as (mrs'' & e'' & -> & Hm3 & _ & He'').
  destruct (shr_m mrs'') as [|m|m]; try lia.
  assert (e'' ≤ emax - prec) as Hle by (unfold fexp, emin in *; lia).
  apply Z.leb_le in Hle. rewrite Hle. eauto.
Qed.

End Round.

Lemma digits2_iter_xO p d :
  digits2_pos (Pos.iter xO p d) = (digits2_pos p + d)%positive.
Proof.
  revert p. induction d using Pos.peano_ind; intros p.
  - simpl. lia.
  - rewrite Pos.iter_succ. simpl. rewrite IHd. lia.
Qed.

(** [float(n)] of a positive [int] is a positive finite double, unless it
    overflows. *)
Lemma of_int_positive n :
  1 ≤ n →
  PyFloat.of_int n = Raise OverflowError
  ∨ ∃ m e, PyFloat.of_int n = Ok (S754_finite false m e).
Proof.
  intros Hn. destruct n as [|p|p]; try lia.
  unfold PyFloat.of_int, binary_normalize, binary_round.
  destruct (shl_align p 0 _) as [mz ez] eqn:Hal.
  assert (Zdigits2 (Z.pos mz) + ez = Z.pos (digits2_pos p)) as Hd.
  { unfold shl_align in Hal.
    destruct (fexp _ _ _ - 0) as [|d|d] eqn:Hf; inversion Hal; subst; simpl; try lia.
    rewrite digits2_iter_xO. unfold fexp in *. lia. }
  destruct (binary_round_aux_pos PyFloat.prec PyFloat.emax ltac:(done) false (Z.pos mz) ez
    loc_Exact ltac:(lia)) as [->|(m & e & ->)]; eauto.
  rewrite Hd. unfold emin, PyFloat.emax, PyFloat.prec. lia.
Qed.

(** Below [2 ^ 1023] the conversion cannot overflow. *)
Lemma of_int_in_range n :
  1 ≤ n < 2 ^ 1023 →
  ∃ m e, PyFloat.of_int n = Ok (S754_finite false m e).
Proof.
  intros [Hn Hhi]. destruct n as [|p|p]; try lia.
  unfold PyFloat.of_int, binary_normalize, binary_round.
  assert (Z.pos (digits2_pos p) ≤ 1023) as Hdig.
  { pose proof (digits2_bounds p) as [Hlo _].
    destruct (Z.le_gt_cases (Z.pos (digits2_pos p)) 1023) as [|Hgt]; [done|].
    pose proof (Z.pow_le_mono_r 2 1023 (Z.pos (digits2_pos p) - 1)). lia. }
  destruct (shl_align p 0 _) as [mz ez] eqn:Hal.
  assert (Zdigits2 (Z.pos mz) + ez = Z.pos (digits2_pos p) ∧ ez ≤ 0) as [Hd Hez].
  { unfold shl_align in Hal.
    destruct (fexp _ _ _ - 0) as [|d|d] eqn:Hf; inversion Hal; subst; simpl; try lia.
    rewrite digits2_iter_xO. unfold fexp in *. lia. }
  destruct (binary_round_aux_finite PyFloat.prec PyFloat.emax ltac:(done)
    ltac:(done) false (Z.pos mz) ez loc_Exact ltac:(lia)) as (m & e & ->); eauto;
  rewrite ?Hd; unfold emin, PyFloat.emax, PyFloat.prec; lia.
Qed.

(** ** Comparisons of doubles *)

Lemma SFeqb_not_ltb x y : SFeqb x y = true → SFltb x y = false.
Proof. unfold SFeqb, SFltb. by destruct (SFcompare x y) as [[]|]. Qed.

(** Two finite numbers of the same sign, compared in both directions. *)
Local Ltac flip_compare m m' e e' :=
  change (Pos.compare_cont Eq m' m) with (m' ?= m)%positive;
  change (Pos.compare_cont Eq m m') with (m ?= m')%positive;
  rewrite (Z.compare_antisym e e'), (Pos.compare_antisym m m');
  cbn; f_equal; by destruct (e ?= e').

Lemma SFcompare_antisym x y :
  SFcompare y x = CompOpp <$> SFcompare x y.
Proof.
  unfold SFcompare.
  destruct x as [[]|[]| |[] m e], y as [[]|[]| |[] m' e']; try done.
  all: flip_compare m m' e e'.
Qed.

Lemma SFltb_asym x y : SFltb x y = true → SFltb y x = false.
Proof.
  unfold SFltb. rewrite (SFcompare_antisym x y).
  by destruct (SFcompare x y) as [[]|].
Qed.

Lemma SFleb_of_not_ltb x y :
  PyFloat.is_nan x = false → PyFloat.is_nan y = false →
  SFltb y x = false → SFleb x y = true.
Proof.
  unfold SFltb, SFleb. rewrite (SFcompare_antisym x y). intros Hx Hy.
  destruct (SFcompare x y) as [[]|] eqn:Hc; cbn; try done.
  by destruct x, y.
Qed.

Section NotNan.
Variables prec emax : Z.

Lemma shr_fexp_nonneg m e l :
  0 ≤ m → 0 ≤ shr_m (shr_fexp prec emax m e l).1.
Proof.
  intros Hm. unfold shr_fexp, shr.
  destruct (fexp prec emax (Zdigits2 m + e) - e) as [|n|n]; cbn [fst];
    rewrite ?shr_iter_m; rewrite ?shr_record_of_loc_m; try lia.
  apply Z.div_pos; [lia|]. apply Z.pow_pos_nonneg; lia.
Qed.

Lemma binary_round_aux_not_nan sx mx ex lx :
  0 ≤ mx → binary_round_aux prec emax sx mx ex lx ≠ S754_nan.
Proof.
  intros Hm. unfold binary_round_aux.
  pose proof (shr_fexp_nonneg mx ex lx Hm) as H1.
  destruct (shr_fexp prec emax mx ex lx) as [mrs' e']. cbn [fst] in H1.
  set (m'' := round_nearest_even _ _).
  assert (0 ≤ m'') as H2.
  { subst m''. destruct (round_nearest_even_cases (shr_m mrs')
      (loc_of_shr_record mrs')) as [->| ->]; lia. }
  pose proof (shr_fexp_nonneg m'' e' loc_Exact H2) as H3.
  destruct (shr_fexp prec emax m'' e' loc_Exact) as [mrs'' e''].
  cbn [fst] in H3.
  destruct (shr_m mrs'') as [|m|m]; try done.
  by destruct (e'' <=? emax - prec).
Qed.

Lemma binary_normalize_not_nan m e szero :
  binary_normalize prec emax m e szero ≠ S754_nan.
Proof.
  unfold binary_normalize, binary_round. destruct m as [|p|p]; [done| |].
  - destruct (shl_align p e _). by apply binary_round_aux_not_nan.
  - destruct (shl_align p e _). by apply binary_round_aux_not_nan.
Qed.

Lemma SFsub_not_nan x y :
  SFltb x y = true → PyFloat.is_nan (SFsub prec emax x y) = false.
Proof.
  destruct x as [[]|[]| |sx mx ex], y as [[]|[]| |sy my ey]; try done.
  intros _. unfold SFsub.
  pose proof (binary_normalize_not_nan
    (cond_Zopp sx (Z.pos (shl_align mx ex (ex `min` ey)).1)
     - cond_Zopp sy (Z.pos (shl_align my ey (ex `min` ey)).1))
    (ex `min` ey) false) as H.
  by destruct (binary_normalize _ _ _ _ _).
Qed.
End NotNan.

(** ** The keep decision (C1) *)

Section Decision.

Import Alerts.

Variable db : DB.t.
Variables company_id since lookback_days : Z.

Lemma scan_row_ok p w pid wid qty ads :
  _ads db company_id pid wid since lookback_days = Ok ads →
  ∃ d kept,
    scan_row db company_id since lookback_days p w pid wid qty = Ok (d, kept)
    ∧ d_ads d = ads
    ∧ d_stock d = stock_of qty
    ∧ d_threshold d = _threshold db company_id p wid
    ∧ d_reason_if_skip d = skip_reasons ads (d_threshold d) (d_stock d)
    ∧ d_decision d
      = (if keep_decision ads (d_threshold d) (d_stock d)
         then "keep" else "skip")%string
    ∧ (keep_decision ads (d_threshold d) (d_stock d) = false → kept = None)
    ∧ (keep_decision ads (d_threshold d) (d_stock d) = true →
       ∃ a, kept = Some a
         ∧ product_id a = Product.id p ∧ warehouse_id a = Warehouse.id w
         ∧ current_stock a = d_stock d ∧ threshold a = d_threshold d
         ∧ days_until_stockout a
           = Some (SFdiv PyFloat.prec PyFloat.emax (d_stock d) ads)).
Proof.
  intros Hads. unfold scan_row. rewrite Hads. cbn [mbind result_bind].
  destruct (keep_decision ads _ _) eqn:Hkeep; cbn [negb].
  - eexists _, _. split; [done|]. cbn. rewrite Hkeep.
    repeat split; try done. intros _. eexists. split; [done|]. cbn.
    repeat split.
    unfold keep_decision in Hkeep.
    apply andb_prop in Hkeep as [Hk _]. apply andb_prop in Hk as [-> _].
    done.
  - eexists _, _. split; [done|]. cbn. rewrite Hkeep. repeat split; done.
Qed.

(** C1. A scanned row (one whose product and warehouse are found) becomes
    an alert, appended to the list of the loop, if and only if [ads > 0],
    [threshold > 0] and [stock < threshold]; otherwise the loop goes on
    with its list unchanged.  With [ads > 0] and [threshold > 0], a row with
    [stock == threshold] is skipped and one with [stock < threshold] is
    kept; the reasons recorded for the row are exactly those among
    [no_recent_sales], [zero_threshold], [stock_not_below_threshold] whose
    own condition ([ads <= 0], [threshold <= 0], [stock >= threshold])
    holds. *)
Theorem keep_iff_and_skip_reasons p w pid wid qty ads :
  _ads db company_id pid wid since lookback_days = Ok ads →
  let stock := stock_of qty in
  let thr := _threshold db company_id p wid in
  ∃ d kept,
    scan_row db company_id since lookback_days p w pid wid qty = Ok (d, kept)
    ∧ (∀ limit debug products warehouses rest alerts dbg,
         products !! pid = Some p → warehouses !! wid = Some w →
         let continue :=
           scan db company_id since lookback_days limit debug products
             warehouses rest in
         let dbg' := if debug then dbg ++ [d] else dbg in
         scan db company_id since lookback_days limit debug products
           warehouses ((pid, wid, qty) :: rest) alerts dbg
         = match kept with
           | None => continue alerts dbg'
           | Some a =>
               if limit <=? Z.of_nat (length (alerts ++ [a]))
               then Ok (alerts ++ [a], dbg')
               else continue (alerts ++ [a]) dbg'
           end)
    ∧ (is_Some kept ↔
         PyFloat.gt ads PyFloat.zero = true
         ∧ PyFloat.gt thr PyFloat.zero = true
         ∧ PyFloat.lt stock thr = true)
    ∧ (d_decision d = "keep"%string ↔ is_Some kept)
    ∧ (PyFloat.gt ads PyFloat.zero = true →
       PyFloat.gt thr PyFloat.zero = true →
       (PyFloat.eq stock thr = true → kept = None)
       ∧ (PyFloat.lt stock thr = true → is_Some kept))
    ∧ (∀ r : string,
         r ∈ d_reason_if_skip d ↔
           r = "no_recent_sales"%string ∧ PyFloat.le ads PyFloat.zero = true
           ∨ r = "zero_threshold"%string ∧ PyFloat.le thr PyFloat.zero = true
           ∨ r = "stock_not_below_threshold"%string
             ∧ PyFloat.ge stock thr = true).
Proof.
  intros Hads stock thr.
  destruct (scan_row_ok p w pid wid qty ads Hads)
    as (d & kept & Hrow & _ & Hs & Ht & Hr & Hd & Hskip & Hkeep).
  rewrite Hs, Ht in *. fold stock thr in Hr, Hd, Hskip, Hkeep.
  assert (is_Some kept ↔ keep_decision ads thr stock = true) as Hiff.
  { destruct (keep_decision ads thr stock).
    - destruct Hkeep as (a & -> & _); [done|]. split; eauto.
    - rewrite Hskip by done. split; [by intros [? ?]|done]. }
  exists d, kept. split; [done|]. split; [|split; [|split; [|split]]].
  - intros limit debug products warehouses rest alerts dbg Hp Hw. cbn [scan].
    by rewrite Hp, Hw, Hrow.
  - rewrite Hiff. unfold keep_decision. rewrite !andb_true_iff. tauto.
  - rewrite Hiff, Hd. by destruct (keep_decision ads thr stock).
  - intros Ha Hth. split.
    + intros Heq. apply Hskip. unfold keep_decision.
      unfold PyFloat.eq, PyFloat.lt in *. rewrite (SFeqb_not_ltb _ _ Heq).
      apply andb_false_r.
    + intros Hlt. apply Hiff. unfold keep_decision. by rewrite Ha, Hth, Hlt.
  - intros r. rewrite Hr. unfold skip_reasons.
    destruct (PyFloat.le ads PyFloat.zero), (PyFloat.le thr PyFloat.zero),
      (PyFloat.ge stock thr); cbn [app];
      rewrite ?elem_of_cons, ?elem_of_nil; intuition congruence.
Qed.

End Decision.

(** ** Average daily sales (C5) *)

Section AverageDailySales.

Import Alerts.

Variable db : DB.t.
Variables company_id product_id warehouse_id since : Z.




(** The only exception [_ads] can raise is the [OverflowError] of
    converting the divisor. *)
Lemma ads_outcome lookback_days :
  (_ads db company_id product_id warehouse_id since lookback_days
   = Raise OverflowError
   ∧ PyFloat.of_int (Z.max lookback_days 1) = Raise OverflowError)
  ∨ ∃ m e,
      PyFloat.of_int (Z.max lookback_days 1) = Ok (S754_finite false m e)
      ∧ _ads db company_id product_id warehouse_id since lookback_days
        = Ok (SFdiv PyFloat.prec PyFloat.emax
                (ads_total db company_id product_id warehouse_id since)
                (S754_finite false m e)).
Proof.
  unfold _ads, PyFloat.truediv_int.
  destruct (of_int_positive (Z.max lookback_days 1) ltac:(lia))
    as [->|(m & e & ->)]; [by left|right].
  by exists m, e.
Qed.


(** For every [lookback_days], large ones included, the division itself
    never fails. *)
Lemma ads_never_divides_by_zero lookback_days :
  _ads db company_id product_id warehouse_id since lookback_days
    ≠ Raise ZeroDivisionError.
Proof.
  destruct (ads_outcome lookback_days) as [[-> _]|(m & e & _ & ->)]; done.
Qed.

End AverageDailySales.


(** ** The scan loop *)

Lemma dict_by_id_lookup {A} (key : A → Z) (rows : list A) k r :
  Alerts.dict_by_id key rows !! k = Some r → key r = k ∧ r ∈ rows.
Proof.
  unfold Alerts.dict_by_id.
  assert (∀ (m : gmap Z A),
    (∀ k r, m !! k = Some r → key r = k ∧ r ∈ rows) →
    ∀ l, l ⊆ rows →
    ∀ k r, foldl (λ m r, <[key r := r]> m) m l !! k = Some r →
    key r = k ∧ r ∈ rows) as Hgen.
  { intros m Hm l. revert m Hm.
    induction l as [|x l IH]; intros m Hm Hl k' r'; cbn [foldl]; [by apply Hm|].
    apply IH; [|set_solver].
    intros k2 r2. rewrite lookup_insert. case_decide as Hk.
    - intros [= <-]. split; [done|set_solver].
    - apply Hm. }
  apply (Hgen ∅); [|done]. intros ? ?. by rewrite lookup_empty.
Qed.

Section ScanLoop.

Import Alerts.

Variable db : DB.t.
Variables company_id since lookback_days limit : Z.
Variable debug : bool.
Variable products : gmap Z Product.t.
Variable warehouses : gmap Z Warehouse.t.

Notation scan_row' := (scan_row db company_id since lookback_days).
Notation scan' :=
  (scan db company_id since lookback_days limit debug products warehouses).
Notation kept_alerts' :=
  (kept_alerts db company_id since lookback_days products warehouses).

Lemma scan_row_inv p w pid wid qty d kept :
  scan_row' p w pid wid qty = Ok (d, kept) →
  ∃ ads, _ads db company_id pid wid since lookback_days = Ok ads
    ∧ (keep_decision ads (_threshold db company_id p wid) (stock_of qty)
       = false → kept = None)
    ∧ (keep_decision ads (_threshold db company_id p wid) (stock_of qty)
       = true →
       ∃ a, kept = Some a
         ∧ product_id a = Product.id p ∧ warehouse_id a = Warehouse.id w
         ∧ current_stock a = stock_of qty
         ∧ threshold a = _threshold db company_id p wid
         ∧ days_until_stockout a
           = Some (SFdiv PyFloat.prec PyFloat.emax (stock_of qty) ads)).
Proof.
  intros Hrow.
  destruct (_ads db company_id pid wid since lookback_days) as [ads|e] eqn:Hads.
  - destruct (scan_row_ok db company_id since lookback_days p w pid wid qty
      ads Hads) as (d' & kept' & Hrow' & _ & Hs & Ht & _ & _ & Hskip & Hkeep).
    rewrite Hrow in Hrow'. injection Hrow' as <- <-.
    rewrite Hs, Ht in *. by exists ads.
  - unfold scan_row in Hrow. by rewrite Hads in Hrow.
Qed.

(** When the divisor converts, the unlimited scan is defined. *)
Lemma kept_alerts_ok rows :
  is_ok (PyFloat.of_int (Z.max lookback_days 1)) = true →
  ∃ q, kept_alerts' rows = Ok q.
Proof.
  intros Hconv. induction rows as [|[[pid wid] qty] rows [q IH]]; [by eexists|].
  cbn [kept_alerts]. rewrite IH.
  destruct (products !! pid) as [p|]; [|by eexists].
  destruct (warehouses !! wid) as [w|]; [|by eexists].
  destruct (ads_outcome db company_id pid wid since lookback_days)
    as [[_ Hover]|(m & e & _ & Hads)]; [by rewrite Hover in Hconv|].
  destruct (scan_row_ok db company_id since lookback_days p w pid wid qty _
    Hads) as (d & kept & -> & _).
  by eexists.
Qed.

Lemma kept_alerts_elem rows q a :
  kept_alerts' rows = Ok q → a ∈ q →
  ∃ pid wid qty p w d,
    (pid, wid, qty) ∈ rows
    ∧ products !! pid = Some p ∧ warehouses !! wid = Some w
    ∧ scan_row' p w pid wid qty = Ok (d, Some a).
Proof.
  revert q. induction rows as [|[[pid wid] qty] rows IH]; intros q Hq Ha.
  { injection Hq as <-. by apply elem_of_nil in Ha. }
  cbn [kept_alerts] in Hq.
  assert (∀ q', kept_alerts' rows = Ok q' → a ∈ q' →
    ∃ pid0 wid0 qty0 p w d,
      (pid0, wid0, qty0) ∈ (pid, wid, qty) :: rows
      ∧ products !! pid0 = Some p ∧ warehouses !! wid0 = Some w
      ∧ scan_row' p w pid0 wid0 qty0 = Ok (d, Some a)) as IH'.
  { intros q' Hq' Ha'.
    destruct (IH q' Hq' Ha') as (pid0 & wid0 & qty0 & p & w & d & Hin & H).
    exists pid0, wid0, qty0, p, w, d. split; [set_solver|done]. }
  destruct (products !! pid) as [p|] eqn:Hp; [|by eapply IH'].
  destruct (warehouses !! wid) as [w|] eqn:Hw; [|by eapply IH'].
  destruct (scan_row' p w pid wid qty) as [[d kept]|] eqn:Hrow; [|done].
  cbn [mbind result_bind] in Hq.
  destruct (kept_alerts' rows) as [more|] eqn:Hmore; [|done].
  cbn [mbind result_bind] in Hq. injection Hq as <-.
  apply elem_of_app in Ha as [Ha|Ha]; [|by eapply IH'].
  destruct kept as [a'|]; cbn [option_list] in Ha; [|by apply elem_of_nil in Ha].
  apply list_elem_of_singleton in Ha as ->.
  exists pid, wid, qty, p, w, d. split; [set_solver|done].
Qed.

(** The loop collects a prefix of what the unlimited scan collects: it
    stops right after the append that brings the list to [limit]
    elements, and in any case after its first append when [limit] is
    already reached. *)
Lemma scan_prefix rows : ∀ alerts dbg q,
  kept_alerts' rows = Ok q →
  ∃ dbg',
    scan' rows alerts dbg
    = Ok (alerts
          ++ take (Z.to_nat (Z.max 1 (limit - Z.of_nat (length alerts)))) q,
          dbg').
Proof.
  induction rows as [|[[pid wid] qty] rows IH]; intros alerts dbg q Hq.
  { injection Hq as <-. rewrite take_nil, app_nil_r. by eexists. }
  cbn [kept_alerts scan] in *.
  destruct (products !! pid) as [p|]; [|by apply IH].
  destruct (warehouses !! wid) as [w|]; [|by apply IH].
  destruct (scan_row' p w pid wid qty) as [[d kept]|]; [|done].
  cbn [mbind result_bind] in *.
  destruct (kept_alerts' rows) as [more|] eqn:Hmore; [|done].
  cbn [mbind result_bind] in Hq. injection Hq as <-.
  destruct kept as [a|]; cbn [option_list app].
  - rewrite length_app. cbn [length].
    destruct (limit <=? _) eqn:Hlim.
    + apply Z.leb_le in Hlim.
      replace (Z.to_nat _) with 1%nat by lia. by eexists.
    + apply Z.leb_gt in Hlim.
      destruct (IH (alerts ++ [a]) (if debug then dbg ++ [d] else dbg) more
        eq_refl) as [dbg' ->].
      eexists. f_equal. f_equal. rewrite <- app_assoc. f_equal.
      rewrite length_app. cbn [length app].
      replace (Z.to_nat (Z.max 1 (limit - Z.of_nat (length alerts))))
        with (S (Z.to_nat (Z.max 1
                (limit - Z.of_nat (length alerts + 1))))) by lia.
      done.
  - by apply IH.
Qed.

End ScanLoop.

(** ** Stable sorting *)

Section SortBy.

Context {A : Type} (ltb : A → A → bool).

Lemma insert_by_perm x l : Sql.insert_by ltb x l ≡ₚ x :: l.
Proof.
  induction l as [|y l IH]; cbn [Sql.insert_by]; [done|].
  destruct (ltb y x); [|done].
  rewrite IH. apply Permutation_swap.
Qed.

Lemma sort_by_perm l : Sql.sort_by ltb l ≡ₚ l.
Proof.
  induction l as [|x l IH]; [done|].
  unfold Sql.sort_by in *. cbn [foldr]. by rewrite insert_by_perm, IH.
Qed.

Lemma sort_by_length l : length (Sql.sort_by ltb l) = length l.
Proof. apply Permutation_length, sort_by_perm. Qed.

Lemma sort_by_elem x l : x ∈ Sql.sort_by ltb l ↔ x ∈ l.
Proof. by rewrite sort_by_perm. Qed.

Hypothesis ltb_asym : ∀ a b, ltb a b = true → ltb b a = false.

Lemma insert_by_sorted x l :
  Sorted (ascending ltb) l → Sorted (ascending ltb) (Sql.insert_by ltb x l).
Proof.
  induction 1 as [|y l Hl IH Hhd]; cbn [Sql.insert_by].
  { repeat constructor. }
  destruct (ltb y x) eqn:Hyx.
  - constructor; [done|].
    destruct Hhd as [|z l Hyz]; cbn [Sql.insert_by].
    + constructor. by apply ltb_asym.
    + destruct (ltb z x); constructor; [done|]. by apply ltb_asym.
  - constructor; [by constructor|]. by constructor.
Qed.

Lemma sort_by_sorted l : Sorted (ascending ltb) (Sql.sort_by ltb l).
Proof.
  induction l as [|x l IH]; [constructor|].
  unfold Sql.sort_by in *. cbn [foldr]. by apply insert_by_sorted.
Qed.

(** With a comparison that is also negatively transitive, the head of the
    sorted list is a least element of the input. *)
Hypothesis ltb_neg_trans :
  ∀ a b c, ltb b a = false → ltb c b = false → ltb c a = false.

Lemma sort_by_head x l :
  head (Sql.sort_by ltb l) = Some x → x ∈ l ∧ ∀ y, y ∈ l → ltb y x = false.
Proof.
  revert x. induction l as [|z l IH]; intros x; [done|].
  unfold Sql.sort_by in *. cbn [foldr].
  destruct (foldr (Sql.insert_by ltb) [] l) as [|y s] eqn:Hs.
  - destruct l as [|z' l]; [|by pose proof (sort_by_length (z' :: l)) as Hlen;
      unfold Sql.sort_by in Hlen; rewrite Hs in Hlen].
    cbn. intros [= ->]. split; [set_solver|].
    intros y Hy%list_elem_of_singleton. rewrite Hy.
    destruct (ltb x x) eqn:Hxx; [|done]. by rewrite (ltb_asym _ _ Hxx) in Hxx.
  - destruct (IH y eq_refl) as [Hy Hmin]. cbn [Sql.insert_by].
    destruct (ltb y z) eqn:Hyz; cbn; intros [= ->].
    + split; [set_solver|]. intros y' [Hy'|Hy']%elem_of_cons; [|by apply Hmin].
      rewrite Hy'. by apply ltb_asym.
    + split; [set_solver|]. intros y' [Hy'|Hy']%elem_of_cons.
      * rewrite Hy'. destruct (ltb x x) eqn:Hxx; [|done].
        by rewrite (ltb_asym _ _ Hxx) in Hxx.
      * eapply ltb_neg_trans; [exact Hyz|by apply Hmin].
Qed.

Lemma sort_by_head_none l : head (Sql.sort_by ltb l) = None → l = [].
Proof.
  intros Hhd. pose proof (sort_by_length l) as Hlen.
  destruct (Sql.sort_by ltb l); [|done]. by destruct l.
Qed.

End SortBy.

Lemma by_deficiency_asym a b :
  Alerts.by_deficiency a b = true → Alerts.by_deficiency b a = false.
Proof. apply SFltb_asym. Qed.

(** ** The handler *)

Section Handler.

Import Alerts.

Variable db : DB.t.
Variables now company_id : Z.

Lemma since_of_bound lookback_days since :
  since_of now lookback_days = Ok since →
  Z.abs lookback_days ≤ 999999999
  ∧ is_ok (PyFloat.of_int (Z.max lookback_days 1)) = true.
Proof.
  unfold since_of, PyTime.timedelta_days.
  destruct (Z.abs lookback_days <=? 999999999) eqn:Hb; [|done].
  intros _. apply Z.leb_le in Hb. split; [done|].
  destruct (of_int_in_range (Z.max lookback_days 1)) as (m & e & ->); [|done].
  assert (999999999 < 2 ^ 1023) by done. lia.
Qed.

(** Inside the handler [_ads] cannot raise: [timedelta] has already
    bounded [lookback_days]. *)
Lemma ads_ok_in_handler lookback_days since product_id warehouse_id :
  since_of now lookback_days = Ok since →
  ∃ ads, _ads db company_id product_id warehouse_id since lookback_days
         = Ok ads.
Proof.
  intros [_ Hconv]%since_of_bound.
  destruct (ads_outcome db company_id product_id warehouse_id since
    lookback_days) as [[_ Hover]|(m & e & _ & ->)]; [|by eexists].
  by rewrite Hover in Hconv.
Qed.

(** What [collect] returns, in terms of the unlimited scan. *)
Lemma collect_inv req c :
  collect db now company_id req = Ok (inr c) →
  ∃ lookback_days target_warehouse since q dbg,
    int_arg (arg_lookback_days req) 30 = Ok lookback_days
    ∧ int_arg (arg_limit req) 100 = Ok (c_limit c)
    ∧ parse_warehouse (arg_warehouse_id req) = Ok target_warehouse
    ∧ since_of now lookback_days = Ok since
    ∧ c_debug c = bool_decide (arg_debug req = Some "1"%string)
    ∧ (let rows := inv_rows db company_id target_warehouse in
       kept_alerts db company_id since lookback_days
         (prefetch_products db rows) (prefetch_warehouses db rows) rows
       = Ok q
       ∧ scan db company_id since lookback_days (c_limit c) (c_debug c)
           (prefetch_products db rows) (prefetch_warehouses db rows) rows
           [] []
         = Ok (take (Z.to_nat (Z.max 1 (c_limit c))) q, dbg))
    ∧ c_alerts c
      = Sql.sort_by by_deficiency (take (Z.to_nat (Z.max 1 (c_limit c))) q)
    ∧ c_dbg c = dbg.
Proof.
  unfold collect. intros Hc.
  destruct (int_arg (arg_lookback_days req) 30) as [lb|] eqn:Hlb; [|done].
  destruct (int_arg (arg_limit req) 100) as [lim|] eqn:Hlim; [|done].
  cbn [mbind result_bind] in Hc.
  destruct (parse_warehouse (arg_warehouse_id req)) as [tw|[]] eqn:Htw;
    try done.
  destruct (since_of now lb) as [since|] eqn:Hsince; [|done].
  cbn [mbind result_bind] in Hc.
  destruct (since_of_bound lb since Hsince) as [_ Hconv].
  set (rows := inv_rows db company_id tw) in *.
  destruct (kept_alerts_ok db company_id since lb (prefetch_products db rows)
    (prefetch_warehouses db rows) rows Hconv) as [q Hq].
  destruct (scan_prefix db company_id since lb lim
    (bool_decide (arg_debug req = Some "1"%string))
    (prefetch_products db rows) (prefetch_warehouses db rows) rows [] [] q Hq)
    as [dbg Hscan].
  cbn [length app] in Hscan. rewrite Z.sub_0_r in Hscan.
  rewrite Hscan in Hc. cbn [mbind result_bind] in Hc.
  injection Hc as <-. cbn [c_limit c_debug c_alerts c_dbg].
  exists lb, tw, since, q, dbg. repeat split; done.
Qed.

End Handler.

(** ** The handler: responses (C3, C4, C9, C10) *)

Lemma slice_to_elem {A} (x : A) n l : x ∈ Alerts.slice_to n l → x ∈ l.
Proof.
  unfold Alerts.slice_to.
  destruct (0 <=? n); intros (i & Hi & _)%elem_of_take;
    by eapply list_elem_of_lookup_2.
Qed.

Section Responses.

Import Alerts.

Variable db : DB.t.
Variables now company_id : Z.

Lemma collect_early req early :
  collect db now company_id req = Ok (inl early) →
  early = (ErrorBody "invalid_warehouse_id", 400).
Proof.
  unfold collect.
  destruct (int_arg (arg_lookback_days req) 30); [|done].
  destruct (int_arg (arg_limit req) 100); [|done].
  cbn [mbind result_bind].
  destruct (parse_warehouse _) as [tw|[]]; try done; [|by intros [= <-]].
  destruct (since_of _ _); [|done]. cbn [mbind result_bind].
  by destruct (scan _ _ _ _ _ _ _ _ _ _ _) as [[? ?]|].
Qed.

(** C9. Every alert of a response carries a [days_until_stockout] that is
    not null: it is [stock / ads] for the average daily sales of the
    alert's product and warehouse, which are positive. *)
Theorem alerts_have_days_until_stockout req alerts total dbg status :
  low_stock_alerts db now company_id req
  = Ok (AlertsBody alerts total dbg, status) →
  ∀ a, a ∈ alerts →
    ∃ lookback_days since ads,
      int_arg (arg_lookback_days req) 30 = Ok lookback_days
      ∧ since_of now lookback_days = Ok since
      ∧ _ads db company_id (product_id a) (warehouse_id a) since
          lookback_days = Ok ads
      ∧ PyFloat.gt ads PyFloat.zero = true
      ∧ days_until_stockout a
        = Some (SFdiv PyFloat.prec PyFloat.emax (current_stock a) ads)
      ∧ days_until_stockout a ≠ None.
Proof.
  unfold low_stock_alerts. intros Hresp a Ha.
  destruct (collect db now company_id req) as [[early|c]|] eqn:Hc; [| |done].
  { apply collect_early in Hc as ->. done. }
  cbn [mbind result_bind] in Hresp. injection Hresp as <- _ _ _.
  assert (a ∈ c_alerts c) as Ha'.
  { destruct (c_limit c <? _); [by eapply slice_to_elem|done]. }
  clear Ha.
  destruct (collect_inv db now company_id req c Hc)
    as (lb & tw & since & q & dbg' & Hlb & _ & _ & Hsince & _ & [Hq _] & Hal & _).
  rewrite Hal in Ha'. apply sort_by_elem in Ha'.
  apply elem_of_take in Ha' as (i & Hi & _).
  apply list_elem_of_lookup_2 in Hi.
  destruct (kept_alerts_elem _ _ _ _ _ _ _ _ _ Hq Hi)
    as (pid & wid & qty & p & w & d & _ & Hp & Hw & Hrow).
  apply dict_by_id_lookup in Hp as [Hpid _].
  apply dict_by_id_lookup in Hw as [Hwid _].
  destruct (scan_row_inv _ _ _ _ _ _ _ _ _ _ _ Hrow)
    as (ads & Hads & Hskip & Hkeep).
  destruct (keep_decision ads _ _) eqn:Hdec; [|by specialize (Hskip eq_refl)].
  destruct (Hkeep eq_refl) as (a' & [= <-] & Hpa & Hwa & Hstock & _ & Hdays).
  exists lb, since, ads. rewrite Hpa, Hwa, Hpid, Hwid, Hdays, Hstock.
  repeat split; try done.
  unfold keep_decision in Hdec.
  apply andb_prop in Hdec as [Hdec _]. by apply andb_prop in Hdec as [-> _].
Qed.

(** C10. [warehouse_id=0] is accepted by the integer check and then
    ignored: the inventory rows and the whole response are those of a
    request without [warehouse_id], and no 400 is returned. *)
Theorem warehouse_zero_is_no_filter lookback limit debug :
  parse_warehouse (Some "0"%string) = Ok (Some 0)
  ∧ inv_rows db company_id (Some 0) = inv_rows db company_id None
  ∧ low_stock_alerts db now company_id
      (mk_args lookback limit (Some "0"%string) debug)
    = low_stock_alerts db now company_id (mk_args lookback limit None debug)
  ∧ low_stock_alerts db now company_id
      (mk_args lookback limit (Some "0"%string) debug)
    ≠ Ok (ErrorBody "invalid_warehouse_id", 400).
Proof.
  assert (low_stock_alerts db now company_id
            (mk_args lookback limit (Some "0"%string) debug)
          = low_stock_alerts db now company_id
              (mk_args lookback limit None debug)) as Heq by reflexivity.
  split; [reflexivity|]. split; [reflexivity|]. split; [exact Heq|].
  rewrite Heq. unfold low_stock_alerts, collect.
  cbn [arg_lookback_days arg_limit arg_warehouse_id arg_debug].
  destruct (int_arg lookback 30); [|done].
  destruct (int_arg limit 100); [|done].
  cbn [mbind result_bind parse_warehouse].
  destruct (since_of _ _); [|done]. cbn [mbind result_bind].
  by destruct (scan _ _ _ _ _ _ _ _ _ _ _) as [[? ?]|].
Qed.

(** A warehouse id other than zero does restrict the rows. *)
Lemma inv_rows_filtered t :
  t ≠ 0 →
  ∀ r, r ∈ inv_rows db company_id (Some t) ↔
       r ∈ inv_rows db company_id None ∧ r.1.2 = t.
Proof.
  intros Ht r. unfold inv_rows.
  destruct (Z.eqb_spec t 0) as [|_]; [done|].
  rewrite !list_elem_of_fmap. split.
  - intros (i & -> & [Hw Hi]%list_elem_of_filter). eauto.
  - intros [(i & -> & Hi) Hw]. exists i. split; [done|].
    by apply list_elem_of_filter.
Qed.

(** C4, amended. With a limit of at least one, the early exit keeps the
    list within the limit, and the handler without the final truncation
    responds identically. *)
Theorem truncation_redundant_for_positive_limit req limit :
  int_arg (arg_limit req) 100 = Ok limit →
  1 ≤ limit →
  low_stock_alerts db now company_id req
  = low_stock_alerts_untruncated db now company_id req.
Proof.
  intros Hlimit Hpos. unfold low_stock_alerts, low_stock_alerts_untruncated.
  destruct (collect db now company_id req) as [[early|c]|] eqn:Hc; try done.
  cbn [mbind result_bind].
  destruct (collect_inv db now company_id req c Hc)
    as (lb & tw & since & q & dbg' & _ & Hlim & _ & _ & _ & _ & Hal & _).
  assert (c_limit c = limit) as Hcl by congruence.
  assert (Z.of_nat (length (c_alerts c)) ≤ c_limit c) as Hlen.
  { rewrite Hal, sort_by_length, length_take. lia. }
  apply Z.ltb_ge in Hlen. by rewrite Hlen.
Qed.

End Responses.

(** With [limit=0] the loop still collects one alert before it tests the
    limit; only the final truncation empties the list. *)
Lemma truncation_not_redundant_for_zero_limit :
  let req := Alerts.mk_args None (Some "0"%string) None None in
  Alerts.low_stock_alerts Demo.store Demo.today 7 req
  = Ok (Alerts.AlertsBody [] 0 None, 200)
  ∧ Alerts.low_stock_alerts_untruncated Demo.store Demo.today 7 req
    = Ok (Alerts.AlertsBody [Demo.widget_alert] 1 None, 200)
  ∧ Alerts.low_stock_alerts Demo.store Demo.today 7 req
    ≠ Alerts.low_stock_alerts_untruncated Demo.store Demo.today 7 req.
Proof. by vm_compute. Qed.

Lemma truncation_redundant_witness :
  let req := Alerts.mk_args None (Some "1"%string) None None in
  Alerts.int_arg (Alerts.arg_limit req) 100 = Ok 1
  ∧ 1 ≤ 1
  ∧ Alerts.low_stock_alerts Demo.store Demo.today 7 req
    = Alerts.low_stock_alerts_untruncated Demo.store Demo.today 7 req.
Proof.
  split; [reflexivity|]. split; [lia|].
  apply (truncation_redundant_for_positive_limit Demo.store Demo.today 7
           (Alerts.mk_args None (Some "1"%string) None None) 1);
    [reflexivity|lia].
Defined.

(** ** The early exit (C3) *)

Section EarlyExit.

Import Alerts.

Variable db : DB.t.
Variables company_id since lookback_days limit : Z.
Variable products : gmap Z Product.t.
Variable warehouses : gmap Z Warehouse.t.

(** With debug records on, a scan that stops early ends on the record of
    the row it has just kept. *)
Lemma scan_stops_at_kept rows : ∀ alerts dbg alerts' dbg',
  Z.of_nat (length alerts) < Z.max limit 1 →
  scan db company_id since lookback_days limit true products warehouses
    rows alerts dbg = Ok (alerts', dbg') →
  Z.max limit 1 ≤ Z.of_nat (length alerts') →
  ∃ dbg0 d, dbg' = dbg0 ++ [d] ∧ d_decision d = "keep"%string.
Proof.
  induction rows as [|[[pid wid] qty] rows IH];
    intros alerts dbg alerts' dbg' Hlt Hscan Hge; cbn [scan] in Hscan.
  { injection Hscan as <- <-. lia. }
  destruct (products !! pid) as [p|]; [|by eapply IH].
  destruct (warehouses !! wid) as [w|]; [|by eapply IH].
  destruct (scan_row db company_id since lookback_days p w pid wid qty)
    as [[d kept]|] eqn:Hrow; [|done].
  cbn [mbind result_bind] in Hscan.
  destruct kept as [a|]; [|by eapply IH].
  destruct (limit <=? _) eqn:Hlim.
  - injection Hscan as <- <-. exists dbg, d. split; [done|].
    destruct (scan_row_inv _ _ _ _ _ _ _ _ _ _ _ Hrow) as (ads & Hads & Hskip & _).
    destruct (scan_row_ok db company_id since lookback_days p w pid wid qty
      ads Hads) as (d' & kept' & Hrow' & _ & Hs & Ht & _ & Hd & _).
    rewrite Hrow in Hrow'. injection Hrow' as <- <-.
    rewrite Hd, Hs, Ht.
    destruct (keep_decision ads _ _); [done|]. by specialize (Hskip eq_refl).
  - apply Z.leb_gt in Hlim. eapply IH; [|done..].
    rewrite length_app in *. cbn [length] in *. lia.
Qed.

(** The sort key of a kept alert is a number. *)
Lemma kept_alerts_deficiency rows q :
  kept_alerts db company_id since lookback_days products warehouses rows
  = Ok q →
  Forall (λ a, PyFloat.is_nan (deficiency a) = false) q.
Proof.
  intros Hq. apply Forall_forall. intros a Ha.
  destruct (kept_alerts_elem _ _ _ _ _ _ _ _ _ Hq Ha)
    as (pid & wid & qty & p & w & d & _ & _ & _ & Hrow).
  destruct (scan_row_inv _ _ _ _ _ _ _ _ _ _ _ Hrow)
    as (ads & _ & Hskip & Hkeep).
  destruct (keep_decision ads _ _) eqn:Hdec; [|by specialize (Hskip eq_refl)].
  destruct (Hkeep eq_refl) as (a' & [= <-] & _ & _ & Hstock & Hthr & _).
  unfold deficiency, PyFloat.sub. rewrite Hstock, Hthr.
  apply SFsub_not_nan.
  unfold keep_decision in Hdec. by apply andb_prop in Hdec as [_ Hlt].
Qed.

End EarlyExit.

Lemma sorted_by_deficiency l :
  Forall (λ a, PyFloat.is_nan (Alerts.deficiency a) = false) l →
  Sorted deficiency_le (Sql.sort_by Alerts.by_deficiency l).
Proof.
  intros Hnum.
  assert (Forall (λ a, PyFloat.is_nan (Alerts.deficiency a) = false)
            (Sql.sort_by Alerts.by_deficiency l)) as Hnum'.
  { by rewrite sort_by_perm. }
  pose proof (sort_by_sorted Alerts.by_deficiency by_deficiency_asym l) as Hs.
  induction Hs as [|a s Hs IH Hhd]; [constructor|].
  apply Forall_cons in Hnum' as [Ha Hnum'].
  constructor; [by apply IH|].
  destruct Hhd as [|b s Hab]; constructor.
  apply Forall_cons in Hnum' as [Hb _].
  by apply SFleb_of_not_ltb.
Qed.

Section FirstKept.

Import Alerts.

(** C3. When more rows qualify than [limit], the response holds the first
    [limit] kept rows in scan order, sorted ascending by
    [stock - threshold].  The loop stops right after the append that
    brings its list to [limit] elements (after its first append when
    [limit] is below one), on the row it has just kept, so for a limit of
    at least one it collects exactly these rows.  This is not in general
    the [limit] most deficient rows: in the example store the widget
    (deficiency -1) is scanned before the gadget (deficiency -9) and is
    the one returned for [limit=1]. *)
Theorem early_exit_returns_first_kept :
  (∀ db now company_id req lookback_days limit target_warehouse since,
     int_arg (arg_lookback_days req) 30 = Ok lookback_days →
     int_arg (arg_limit req) 100 = Ok limit →
     parse_warehouse (arg_warehouse_id req) = Ok target_warehouse →
     since_of now lookback_days = Ok since →
     let rows := inv_rows db company_id target_warehouse in
     ∃ q,
       kept_alerts db company_id since lookback_days
         (prefetch_products db rows) (prefetch_warehouses db rows) rows
       = Ok q
       ∧ (limit < Z.of_nat (length q) →
          ∃ dbg,
            let alerts :=
              Sql.sort_by by_deficiency (take (Z.to_nat limit) q) in
            low_stock_alerts db now company_id req
            = Ok (AlertsBody alerts (length alerts) dbg, 200)
            ∧ alerts ≡ₚ take (Z.to_nat limit) q
            ∧ Sorted deficiency_le alerts
            ∧ (∃ dbg',
                 scan db company_id since lookback_days limit
                   (bool_decide (arg_debug req = Some "1"%string))
                   (prefetch_products db rows) (prefetch_warehouses db rows)
                   rows [] []
                 = Ok (take (Z.to_nat (Z.max limit 1)) q, dbg'))
            ∧ (1 ≤ limit → Z.of_nat (length alerts) = limit)
            ∧ (arg_debug req = Some "1"%string → q ≠ [] →
               ∃ dbg0 d,
                 dbg = Some (dbg0 ++ [d])
                 ∧ d_decision d = "keep"%string)))
  ∧ (let req := mk_args None (Some "1"%string) None None in
     let rows := inv_rows Demo.store 7 None in
     let q := [Demo.widget_alert; Demo.gadget_alert] in
     kept_alerts Demo.store 7 Demo.window_start 30
       (prefetch_products Demo.store rows)
       (prefetch_warehouses Demo.store rows) rows = Ok q
     ∧ low_stock_alerts Demo.store Demo.today 7 req
       = Ok (AlertsBody [Demo.widget_alert] 1 None, 200)
     ∧ take 1 (Sql.sort_by by_deficiency q) = [Demo.gadget_alert]
     ∧ [Demo.widget_alert] ≠ take 1 (Sql.sort_by by_deficiency q)).
Proof.
  split; [|by vm_compute].
  intros db now company_id req lookback_days limit target_warehouse since
    Hlb Hlim Htw Hsince rows.
  destruct (since_of_bound now lookback_days since Hsince) as [_ Hconv].
  destruct (kept_alerts_ok db company_id since lookback_days
    (prefetch_products db rows) (prefetch_warehouses db rows) rows Hconv)
    as [q Hq].
  exists q. split; [done|]. intros Hmore.
  pose proof (kept_alerts_deficiency _ _ _ _ _ _ _ _ Hq) as Hnum.
  destruct (scan_prefix db company_id since lookback_days limit
    (bool_decide (arg_debug req = Some "1"%string))
    (prefetch_products db rows) (prefetch_warehouses db rows) rows [] [] q Hq)
    as [dbg' Hscan].
  cbn [length app] in Hscan. rewrite Z.sub_0_r, Z.max_comm in Hscan.
  set (dbg := if bool_decide (arg_debug req = Some "1"%string)
              then Some dbg' else None).
  assert (arg_debug req = Some "1"%string → q ≠ [] →
          ∃ dbg0 d, dbg = Some (dbg0 ++ [d]) ∧ d_decision d = "keep"%string)
    as Hstop.
  { intros Hdebug Hne. subst dbg.
    rewrite bool_decide_eq_true_2 in * by done.
    destruct (scan_stops_at_kept db company_id since lookback_days limit
      (prefetch_products db rows) (prefetch_warehouses db rows) rows [] []
      _ dbg' ltac:(cbn; lia) Hscan) as (dbg0 & d & -> & Hd).
    - rewrite length_take. destruct q; [done|]. cbn [length] in *. lia.
    - by exists dbg0, d. }
  unfold low_stock_alerts, collect.
  rewrite Hlb, Hlim. cbn [mbind result_bind]. rewrite Htw, Hsince.
  cbn [mbind result_bind]. fold rows. rewrite Hscan.
  cbn [mbind result_bind c_limit c_debug c_alerts c_dbg].
  fold dbg. exists dbg. cbn zeta.
  assert (Forall (λ a, PyFloat.is_nan (deficiency a) = false)
            (take (Z.to_nat limit) q)) as Hnum'.
  { by apply Forall_take. }
  destruct (Z.le_gt_cases 1 limit) as [Hpos|Hnonpos].
  - replace (Z.max limit 1) with limit in * by lia.
    replace (limit <? _) with false
      by (symmetry; apply Z.ltb_ge; rewrite sort_by_length, length_take; lia).
    unfold respond. fold dbg.
    split; [done|]. split; [apply sort_by_perm|].
    split; [by apply sorted_by_deficiency|].
    split; [by exists dbg'|].
    split; [|done]. intros _. rewrite sort_by_length, length_take. lia.
  - replace (Z.max limit 1) with 1 in * by lia.
    replace (Z.to_nat limit) with 0%nat by lia. cbn [take Sql.sort_by foldr].
    assert (∀ l : list alert, (length l ≤ 1)%nat →
      (if limit <? Z.of_nat (length l) then slice_to limit l else l) = [])
      as Hcut.
    { intros l Hl. unfold slice_to.
      destruct (limit <? _) eqn:Hlt; [|apply Z.ltb_ge in Hlt; destruct l;
        [done|cbn [length] in *; lia]].
      destruct (0 <=? limit) eqn:H0.
      - apply Z.leb_le in H0. by replace (Z.to_nat limit) with 0%nat by lia.
      - apply Z.leb_gt in H0.
        by replace (length l - Z.to_nat (- limit))%nat with 0%nat by lia. }
    rewrite Hcut by (rewrite sort_by_length, length_take; lia).
    unfold respond. cbn [take Sql.sort_by foldr length]. fold dbg.
    split; [done|]. split; [done|]. split; [constructor|].
    split; [by exists dbg'|]. split; [lia|done].
Qed.

End FirstKept.

Lemma early_exit_witness :
  let req := Alerts.mk_args None (Some "1"%string) None (Some "1"%string) in
  (1 < Z.of_nat (length [Demo.widget_alert; Demo.gadget_alert]))
  ∧ ∃ dbg,
      Alerts.low_stock_alerts Demo.store Demo.today 7 req
      = Ok (Alerts.AlertsBody [Demo.widget_alert] 1 dbg, 200).
Proof.
  intros req. split; [cbn; lia|].
  destruct (proj1 early_exit_returns_first_kept Demo.store Demo.today 7 req
              30 1 None Demo.window_start
              eq_refl eq_refl eq_refl eq_refl) as [q [Hq Hmore]].
  vm_compute in Hq. injection Hq as <-.
  destruct (Hmore ltac:(cbn; lia)) as (dbg & Hresp & _).
  exists dbg. exact Hresp.
Defined.

(** ** Threshold resolution (C2) *)

Lemma filter_first_row {A} (P : A → Prop) `{!∀ x, Decision (P x)} rows r :
  first_row P rows r → ∃ rest, filter P rows = r :: rest.
Proof.
  intros (before & after & -> & HP & Hno). rewrite filter_app.
  replace (filter P before) with (@nil A).
  - rewrite filter_cons_True by done. by eexists.
  - symmetry. apply elem_of_nil_inv.
    intros x [Hx Hin]%list_elem_of_filter. by apply (Hno x).
Qed.

Lemma filter_no_row {A} (P : A → Prop) `{!∀ x, Decision (P x)} rows :
  no_row P rows → filter P rows = [].
Proof.
  intros Hno. apply elem_of_nil_inv.
  intros x [Hx Hin]%list_elem_of_filter. by apply (Hno x).
Qed.

Section Threshold.

Import Alerts.

Variable db : DB.t.
Variable company_id : Z.
Variable product : Product.t.
Variable warehouse_id : Z.

Local Abbreviation wh_query :=
  (λ r : ProductThreshold.t,
     ProductThreshold.company_id r = company_id
     ∧ ProductThreshold.product_id r = Product.id product
     ∧ ProductThreshold.warehouse_id r = Some warehouse_id).

Local Abbreviation prod_query :=
  (λ r : ProductThreshold.t,
     ProductThreshold.company_id r = company_id
     ∧ ProductThreshold.product_id r = Product.id product
     ∧ ProductThreshold.warehouse_id r = None).

Local Abbreviation type_query ptid :=
  (λ r : ProductType.t, ProductType.id r = ptid).

Lemma threshold_warehouse_level r :
  first_row (warehouse_override company_id product warehouse_id)
    (DB.product_thresholds db) r →
  _threshold db company_id product warehouse_id
  = ProductThreshold.threshold r.
Proof.
  intros Hr.
  destruct (filter_first_row wh_query _ r Hr) as [rest Hf].
  unfold _threshold, warehouse_overrides. by rewrite Hf.
Qed.

Lemma threshold_product_level r :
  no_row (warehouse_override company_id product warehouse_id)
    (DB.product_thresholds db) →
  first_row (product_override company_id product)
    (DB.product_thresholds db) r →
  _threshold db company_id product warehouse_id
  = ProductThreshold.threshold r.
Proof.
  intros Hwh Hr.
  pose proof (filter_no_row wh_query _ Hwh) as Hnone.
  destruct (filter_first_row prod_query _ r Hr) as [rest Hf].
  unfold _threshold, warehouse_overrides, product_overrides.
  by rewrite Hnone, Hf.
Qed.

(** Without any override the result is decided by the product type. *)
Lemma threshold_without_override :
  no_row (warehouse_override company_id product warehouse_id)
    (DB.product_thresholds db) →
  no_row (product_override company_id product) (DB.product_thresholds db) →
  _threshold db company_id product warehouse_id
  = match Product.product_type_id product with
    | Some ptid =>
        if ptid =? 0 then PyFloat.zero
        else
          match
            mjoin (head (ProductType.default_low_stock_threshold
                         <$> filter (type_query ptid) (DB.product_types db)))
          with
          | Some t => t
          | None => PyFloat.zero
          end
    | None => PyFloat.zero
    end.
Proof.
  intros Hwh Hprod.
  pose proof (filter_no_row wh_query _ Hwh) as Hnone.
  pose proof (filter_no_row prod_query _ Hprod) as Hnone'.
  unfold _threshold, warehouse_overrides, product_overrides.
  by rewrite Hnone, Hnone'.
Qed.

(** C2, amended.  [_threshold] returns the first value found in this
    order, each lookup reading the rows of the store in storage order: the
    threshold of the first override row for exactly this company, product
    and warehouse; else that of the first product-level override row (null
    warehouse) of the company and product; else, when the product has a
    product type with an id other than 0, the default of the first product
    type row with that id when it has one; else [0.0].  When a
    warehouse-specific override row exists, the result is the threshold of
    such a row whatever the other rows are and in whatever order the rows
    were inserted. *)
Theorem threshold_resolution_order :
  let rows := DB.product_thresholds db in
  let warehouse_level := warehouse_override company_id product warehouse_id in
  let product_level := product_override company_id product in
  (∀ r, first_row warehouse_level rows r →
        _threshold db company_id product warehouse_id
        = ProductThreshold.threshold r)
  ∧ (no_row warehouse_level rows →
     ∀ r, first_row product_level rows r →
          _threshold db company_id product warehouse_id
          = ProductThreshold.threshold r)
  ∧ (no_row warehouse_level rows → no_row product_level rows →
     ∀ ptid r t,
       Product.product_type_id product = Some ptid → ptid ≠ 0 →
       first_row (type_row ptid) (DB.product_types db) r →
       ProductType.default_low_stock_threshold r = Some t →
       _threshold db company_id product warehouse_id = t)
  ∧ (no_row warehouse_level rows → no_row product_level rows →
     (Product.product_type_id product = None
      ∨ Product.product_type_id product = Some 0
      ∨ ∃ ptid,
          Product.product_type_id product = Some ptid
          ∧ (no_row (type_row ptid) (DB.product_types db)
             ∨ ∃ r, first_row (type_row ptid) (DB.product_types db) r
                  ∧ ProductType.default_low_stock_threshold r = None)) →
     _threshold db company_id product warehouse_id = PyFloat.zero)
  ∧ (∀ db',
       rows ≡ₚ DB.product_thresholds db' →
       (∃ r, r ∈ rows ∧ warehouse_level r) →
       ∃ r, r ∈ rows ∧ warehouse_level r
         ∧ _threshold db' company_id product warehouse_id
           = ProductThreshold.threshold r).
Proof.
  intros rows warehouse_level product_level.
  split; [|split; [|split; [|split]]].
  - apply threshold_warehouse_level.
  - intros Hwh r Hr. by apply threshold_product_level.
  - intros Hwh Hprod ptid r t Hpt Hnz Hr Hdef.
    rewrite (threshold_without_override Hwh Hprod), Hpt.
    destruct (Z.eqb_spec ptid 0) as [|_]; [done|].
    destruct (filter_first_row (type_query ptid) _ r Hr) as [rest ->].
    cbn. by rewrite Hdef.
  - intros Hwh Hprod Hcase.
    rewrite (threshold_without_override Hwh Hprod).
    destruct Hcase as [->|[->|(ptid & -> & Hdef)]]; [done|done|].
    destruct (ptid =? 0); [done|].
    destruct Hdef as [Hno|(r & Hr & Hdef)].
    + by rewrite (filter_no_row (type_query ptid) _ Hno).
    + destruct (filter_first_row (type_query ptid) _ r Hr) as [rest ->].
      cbn. by rewrite Hdef.
  - intros db' Hperm (r & Hin & Hr).
    unfold _threshold, warehouse_overrides.
    destruct (filter wh_query (DB.product_thresholds db'))
      as [|r' rest] eqn:Hf.
    + assert (r ∈ filter wh_query (DB.product_thresholds db')) as Hin'.
      { apply list_elem_of_filter. split; [exact Hr|]. by rewrite <- Hperm. }
      rewrite Hf in Hin'. by apply elem_of_nil in Hin'.
    + assert (r' ∈ filter wh_query (DB.product_thresholds db')) as Hin'
        by (rewrite Hf; apply list_elem_of_here).
      apply list_elem_of_filter in Hin' as [Hr' Hin'].
      exists r'. split; [by rewrite Hperm|]. split; [exact Hr'|done].
Qed.

End Threshold.

(** The claim as stated fails for a product type with the id 0: the
    product has a product type, that type has a default of 3, and yet the
    result is [0.0], because [product_type_id] is tested by its truth
    value. *)
Lemma threshold_ignores_type_zero :
  no_row (warehouse_override 7 Demo.zero_typed_widget 1)
    (DB.product_thresholds Demo.zero_type_store)
  ∧ no_row (product_override 7 Demo.zero_typed_widget)
      (DB.product_thresholds Demo.zero_type_store)
  ∧ Product.product_type_id Demo.zero_typed_widget = Some 0
  ∧ first_row (type_row 0) (DB.product_types Demo.zero_type_store)
      (ProductType.mk 0 (Some (Demo.dbl 3)))
  ∧ Alerts._threshold Demo.zero_type_store 7 Demo.zero_typed_widget 1
    = PyFloat.zero
  ∧ Alerts._threshold Demo.zero_type_store 7 Demo.zero_typed_widget 1
    ≠ Demo.dbl 3.
Proof.
  split; [by intros x ?%elem_of_nil|]. split; [by intros x ?%elem_of_nil|].
  split; [done|]. split.
  - exists [], []. split; [done|]. split; [done|]. by intros x ?%elem_of_nil.
  - split; [by vm_compute|]. vm_compute. discriminate.
Qed.


(** ** Supplier selection (C7) *)

Lemma supplier_order_asym a b :
  Alerts.supplier_order a b = true → Alerts.supplier_order b a = false.
Proof.
  unfold Alerts.supplier_order.
  rewrite orb_true_iff, andb_true_iff, orb_false_iff, andb_false_iff.
  rewrite !Z.ltb_lt, !Z.eqb_eq, !Z.ltb_ge, Z.eqb_neq. lia.
Qed.

Lemma supplier_order_neg_trans a b c :
  Alerts.supplier_order b a = false → Alerts.supplier_order c b = false →
  Alerts.supplier_order c a = false.
Proof.
  unfold Alerts.supplier_order.
  rewrite !orb_false_iff, !andb_false_iff.
  rewrite !Z.ltb_ge, !Z.eqb_neq. lia.
Qed.

Lemma supplier_order_link_le a b :
  Alerts.supplier_order b a = false ↔ link_le a b.
Proof.
  unfold Alerts.supplier_order, link_le.
  rewrite !orb_false_iff, !andb_false_iff.
  rewrite !Z.ltb_ge, !Z.eqb_neq. lia.
Qed.

(** The head of the ordered rows is a link that is at least as good as
    every other one. *)
Lemma best_link links :
  match head (Sql.sort_by Alerts.supplier_order links) with
  | Some l => l ∈ links ∧ ∀ l', l' ∈ links → link_le l l'
  | None => links = []
  end.
Proof.
  destruct (head _) as [l|] eqn:Hhd.
  - apply sort_by_head in Hhd as [Hin Hmin];
      [|apply supplier_order_asym|apply supplier_order_neg_trans].
    split; [done|]. intros l' Hl'. by apply supplier_order_link_le, Hmin.
  - by apply sort_by_head_none in Hhd.
Qed.


Lemma best_supplier_id_unfold db company_id product_id :
  Alerts._best_supplier_id db company_id product_id
  = match ProductSupplier.supplier_id <$>
            head (Sql.sort_by Alerts.supplier_order
                    (Alerts.preferred_links db company_id product_id)) with
    | Some sid => Some sid
    | None =>
        ProductSupplier.supplier_id <$>
          head (Sql.sort_by Alerts.supplier_order
                  (Alerts.all_links db company_id product_id))
    end.
Proof.
  unfold Alerts._best_supplier_id, Sql.first_or_none.
  by destruct (Sql.sort_by _ (Alerts.preferred_links _ _ _)),
    (Sql.sort_by _ (Alerts.all_links _ _ _)).
Qed.

Section Supplier.

Import Alerts.

Variable db : DB.t.
Variables company_id product_id : Z.




End Supplier.

(** ** Money parsing (C6) *)

Section Quantize.

Import PyDecimal.

Lemma pow10_pos k : (0 < pow10 k)%N.
Proof. unfold pow10. apply N.neq_0_lt_0, N.pow_nonzero. done. Qed.

Lemma pow10_succ k : 0 ≤ k → pow10 (k + 1) = (10 * pow10 k)%N.
Proof.
  intros Hk. unfold pow10.
  replace (Z.to_N (k + 1)) with (N.succ (Z.to_N k)) by lia.
  by rewrite N.pow_succ_r'.
Qed.

Lemma pow10_add j k : 0 ≤ j → 0 ≤ k → pow10 (j + k) = (pow10 j * pow10 k)%N.
Proof.
  intros Hj Hk. unfold pow10. rewrite Z2N.inj_add by done.
  by rewrite N.pow_add_r.
Qed.

Lemma pow10_le j k : 0 ≤ j ≤ k → (pow10 j ≤ pow10 k)%N.
Proof.
  intros Hjk. unfold pow10. apply N.pow_le_mono_r; [done|]. lia.
Qed.

Lemma ndigits_fuel_bounds fuel : ∀ c,
  (c < 2 ^ N.of_nat fuel)%N →
  1 ≤ ndigits_fuel fuel c
  ∧ (c < pow10 (ndigits_fuel fuel c))%N
  ∧ (c ≠ 0%N → (pow10 (ndigits_fuel fuel c - 1) ≤ c)%N).
Proof.
  induction fuel as [|fuel IH]; intros c Hc; cbn [ndigits_fuel].
  { cbn in Hc. split; [done|]. split; [|lia].
    change (pow10 1) with 10%N. lia. }
  destruct (N.ltb_spec c 10) as [Hlt|Hge].
  { split; [done|]. split; [by change (pow10 1) with 10%N|].
    intros Hnz. change (pow10 (1 - 1)) with 1%N. lia. }
  assert (c / 10 < 2 ^ N.of_nat fuel)%N as Hdiv.
  { apply N.Div0.div_lt_upper_bound.
    rewrite Nat2N.inj_succ, N.pow_succ_r' in Hc. lia. }
  destruct (IH _ Hdiv) as (H1 & Hhi & Hlo).
  pose proof (N.Div0.div_mod c 10) as Hdm.
  pose proof (N.mod_lt c 10 ltac:(done)) as Hmod.
  assert (c / 10 ≠ 0)%N as Hq by (intros Hq; rewrite Hq in Hdm; lia).
  specialize (Hlo Hq).
  split; [lia|]. split.
  - replace (1 + ndigits_fuel fuel (c / 10)) with
      (ndigits_fuel fuel (c / 10) + 1) by lia.
    rewrite pow10_succ by lia.
    generalize dependent (pow10 (ndigits_fuel fuel (c / 10))).
    generalize dependent (c / 10)%N. generalize dependent (c mod 10)%N.
    intros. lia.
  - intros _.
    replace (1 + ndigits_fuel fuel (c / 10) - 1) with
      (ndigits_fuel fuel (c / 10) - 1 + 1) by lia.
    rewrite pow10_succ by lia.
    generalize dependent (pow10 (ndigits_fuel fuel (c / 10) - 1)).
    generalize dependent (c / 10)%N. generalize dependent (c mod 10)%N.
    intros. lia.
Qed.

Lemma ndigits_bounds c :
  1 ≤ ndigits c
  ∧ (c < pow10 (ndigits c))%N
  ∧ (c ≠ 0%N → (pow10 (ndigits c - 1) ≤ c)%N).
Proof.
  apply ndigits_fuel_bounds. rewrite N2Nat.id. apply N.size_gt.
Qed.

(** A coefficient has at most [n] digits exactly when it is below
    [10 ^ n]. *)
Lemma ndigits_le c n : 1 ≤ n → ndigits c ≤ n ↔ (c < pow10 n)%N.
Proof.
  intros Hn. destruct (ndigits_bounds c) as (H1 & Hhi & Hlo). split.
  - intros Hle. eapply N.lt_le_trans; [exact Hhi|]. apply pow10_le. lia.
  - intros Hlt. destruct (Z.le_gt_cases (ndigits c) n) as [|Hgt]; [done|].
    destruct (N.eq_dec c 0%N) as [->|Hnz].
    + change (ndigits 0) with 1 in Hgt. lia.
    + specialize (Hlo Hnz).
      pose proof (pow10_le n (ndigits c - 1) ltac:(lia)). lia.
Qed.

(** The digit test of the rounding function agrees with rounding the
    value half up. *)
Lemma rescale_half_up_cents c e :
  rescale_half_up c e (-2) = half_up_cents c e.
Proof.
  unfold rescale_half_up, half_up_cents.
  destruct (-2 <=? e) eqn:He.
  { do 2 f_equal; lia. }
  apply Z.leb_gt in He.
  set (k := -2 - e). assert (1 ≤ k) as Hk by lia.
  set (h := pow10 (k - 1)).
  assert (pow10 k = (10 * h)%N) as HP.
  { subst h. rewrite <- pow10_succ by lia. f_equal. lia. }
  rewrite HP.
  pose proof (pow10_pos (k - 1)) as Hh. fold h in Hh.
  pose proof (N.Div0.div_mod c (10 * h)) as Hdm.
  pose proof (N.mod_lt c (10 * h) ltac:(lia)) as Hmod.
  set (q := (c / (10 * h))%N) in *. set (r := (c mod (10 * h))%N) in *.
  destruct (N.leb_spec (5 * h) r) as [Hup|Hdown].
  - apply N.div_unique with (2 * r - 10 * h)%N; [lia|]. nia.
  - apply N.div_unique with (2 * r + 10 * h)%N; [lia|]. nia.
Qed.

Lemma half_up_cents_lower c e :
  c ≠ 0%N → 27 ≤ e + ndigits c → (pow10 28 ≤ half_up_cents c e)%N.
Proof.
  intros Hnz Hbig. destruct (ndigits_bounds c) as (H1 & _ & Hlo).
  specialize (Hlo Hnz). unfold half_up_cents.
  destruct (-2 <=? e) eqn:He.
  - apply Z.leb_le in He.
    destruct (Z.le_gt_cases 28 (e + 2)) as [Hbig'|Hsmall].
    + pose proof (pow10_le 28 (e + 2) ltac:(lia)). nia.
    + replace 28 with ((28 - (e + 2)) + (e + 2)) at 1 by lia.
      rewrite pow10_add by lia.
      pose proof (pow10_le (28 - (e + 2)) (ndigits c - 1) ltac:(lia)).
      pose proof (pow10_pos (e + 2)). nia.
  - apply Z.leb_gt in He. set (k := -2 - e). assert (1 ≤ k) as Hk by lia.
    pose proof (pow10_pos k) as HP.
    apply N.div_le_lower_bound; [lia|].
    pose proof (pow10_le (28 + k) (ndigits c - 1) ltac:(lia)) as Hle.
    rewrite pow10_add in Hle by lia. nia.
Qed.

(** [quantize] on a finite value: the rounded coefficient, when it fits
    the precision. *)
Lemma quantize_cents_finite s c e :
  quantize_cents (Finite s c e)
  = if (half_up_cents c e <? pow10 context_prec)%N
    then Ok (Finite s (half_up_cents c e) (-2))
    else Raise InvalidOperation.
Proof.
  destruct (N.eq_dec c 0%N) as [->|Hnz].
  { replace (half_up_cents 0 e) with 0%N.
    - done.
    - unfold half_up_cents. destruct (-2 <=? e); [done|].
      symmetry. apply N.div_small. pose proof (pow10_pos (-2 - e)). lia. }
  unfold quantize_cents. destruct c as [|p]; [done|].
  rewrite rescale_half_up_cents.
  set (c := N.pos p) in *. set (H := half_up_cents c e).
  destruct (Z.le_gt_cases 27 (e + ndigits c)) as [Hbig|Hsmall].
  - pose proof (half_up_cents_lower c e Hnz Hbig) as Hlow. fold H in Hlow.
    replace (H <? pow10 context_prec)%N with false
      by (symmetry; apply N.ltb_ge; exact Hlow).
    destruct (context_Emax <? _); [done|].
    replace (context_prec <? _) with true; [done|].
    symmetry. apply Z.ltb_lt. unfold context_prec. lia.
  - replace (context_Emax <? e + ndigits c - 1) with false
      by (symmetry; apply Z.ltb_ge; unfold context_Emax; lia).
    replace (context_prec <? e + ndigits c - 1 - -2 + 1) with false
      by (symmetry; apply Z.ltb_ge; unfold context_prec; lia).
    destruct (N.ltb_spec H (pow10 context_prec)) as [Hfit|Hover].
    + apply (ndigits_le H 28 ltac:(done)) in Hfit.
      replace (context_Emax <? -2 + ndigits H - 1) with false
        by (symmetry; apply Z.ltb_ge; unfold context_Emax; lia).
      replace (context_prec <? ndigits H) with false
        by (symmetry; apply Z.ltb_ge; unfold context_prec; lia).
      done.
    + assert (¬ ndigits H ≤ 28) as Hdig.
      { rewrite (ndigits_le H 28) by done. unfold context_prec in Hover. lia. }
      destruct (context_Emax <? _); [done|].
      replace (context_prec <? ndigits H) with true; [done|].
      symmetry. apply Z.ltb_lt. unfold context_prec. lia.
Qed.

End Quantize.

Section AsMoney.

Import PyDecimal Money.

Lemma of_string_raises s e : of_string s = Raise e → e = InvalidOperation.
Proof.
  unfold of_string. destruct (take_sign _) as [sign body].
  destruct (parse_number _) as [[c x]|]; [done|].
  destruct (parse_special _ _); [done|]. by intros [= <-].
Qed.

(** The outcome of [as_money], by the shape of the parsed literal. *)
Lemma as_money_cases v :
  match of_string (py_str v) with
  | Raise _ => as_money v = Raise ValueError
  | Ok (Finite s c e) =>
      as_money v
      = if (half_up_cents c e <? pow10 context_prec)%N
        then Ok (Finite s (half_up_cents c e) (-2))
        else Raise ValueError
  | Ok (Infinity _) => as_money v = Raise ValueError
  | Ok (NaN _ true _) => as_money v = Raise ValueError
  | Ok (NaN s false p) =>
      as_money v = Ok (NaN s false (p mod pow10 context_prec)%N)
  end.
Proof.
  unfold as_money.
  destruct (of_string (py_str v)) as [[s c e|s|s [] p]|x] eqn:Hparse;
    cbn [mbind result_bind]; try done.
  - rewrite quantize_cents_finite. by destruct (_ <? _)%N.
  - by apply of_string_raises in Hparse as ->.
Qed.

(** C6, amended. For an input that is not a quiet-NaN token, [as_money]
    raises [ValueError] exactly when the input does not parse as a finite
    decimal whose amount, rounded half up to two fractional digits, fits
    the 28 digits of the context; otherwise it returns that rounded amount
    with exponent [-2].  No other exception is raised.  So ["19.995"]
    gives [20.00], and ["abc"], [None], infinities and signaling NaNs
    raise. *)
Theorem as_money_quantizes_or_raises v :
  (∀ s p, of_string (py_str v) ≠ Ok (NaN s false p)) →
  (as_money v = Raise ValueError ↔
     ¬ ∃ s c e, of_string (py_str v) = Ok (Finite s c e)
                ∧ fits_precision (half_up_cents c e))
  ∧ (∀ s c e,
       of_string (py_str v) = Ok (Finite s c e) →
       fits_precision (half_up_cents c e) →
       as_money v = Ok (Finite s (half_up_cents c e) (-2)))
  ∧ (∀ x, as_money v = Raise x → x = ValueError)
  ∧ (∀ m, as_money v = Ok m → ∃ s c, m = Finite s c (-2))
  ∧ as_money (PyStr "19.995") = Ok (Finite false 2000 (-2))
  ∧ as_money (PyStr "-19.995") = Ok (Finite true 2000 (-2))
  ∧ as_money (PyStr "19.994") = Ok (Finite false 1999 (-2))
  ∧ as_money (PyInt 7) = Ok (Finite false 700 (-2))
  ∧ as_money (PyStr "abc") = Raise ValueError
  ∧ as_money PyNone = Raise ValueError
  ∧ as_money (PyStr "Infinity") = Raise ValueError
  ∧ as_money (PyStr "-inf") = Raise ValueError
  ∧ as_money (PyStr "sNaN") = Raise ValueError.
Proof.
  intros Hnan. pose proof (as_money_cases v) as Hcases.
  unfold fits_precision.
  assert (as_money (PyStr "19.995") = Ok (Finite false 2000 (-2))
    ∧ as_money (PyStr "-19.995") = Ok (Finite true 2000 (-2))
    ∧ as_money (PyStr "19.994") = Ok (Finite false 1999 (-2))
    ∧ as_money (PyInt 7) = Ok (Finite false 700 (-2))
    ∧ as_money (PyStr "abc") = Raise ValueError
    ∧ as_money PyNone = Raise ValueError
    ∧ as_money (PyStr "Infinity") = Raise ValueError
    ∧ as_money (PyStr "-inf") = Raise ValueError
    ∧ as_money (PyStr "sNaN") = Raise ValueError) as Hexamples
    by (by vm_compute).
  match goal with
  | |- ?G =>
      assert (as_money v = Raise ValueError →
        (¬ ∃ s c e, of_string (py_str v) = Ok (Finite s c e)
                    ∧ (half_up_cents c e < pow10 context_prec)%N) → G)
        as Hraise
  end.
  { intros Hr Hno. split; [done|]. split; [|split; [|split]].
    - intros s c e Hp Hf. destruct Hno. by exists s, c, e.
    - intros x. rewrite Hr. by intros [= <-].
    - intros m. by rewrite Hr.
    - exact Hexamples. }
  destruct (of_string (py_str v)) as [[s c e|s|s [] p]|x] eqn:Hparse.
  - destruct (N.ltb_spec (half_up_cents c e) (pow10 context_prec))
      as [Hfit|Hover].
    + split; [|split; [|split; [|split]]].
      * rewrite Hcases. split; [done|]. intros []. by exists s, c, e.
      * by intros ? ? ? [= <- <- <-] _.
      * intros x. by rewrite Hcases.
      * intros m. rewrite Hcases. intros [= <-]. by eexists _, _.
      * exact Hexamples.
    + apply Hraise; [done|].
      intros (? & ? & ? & [= <- <- <-] & ?). lia.
  - apply Hraise; [done|]. by intros (? & ? & ? & ? & _).
  - apply Hraise; [done|]. by intros (? & ? & ? & ? & _).
  - by destruct (Hnan s p).
  - apply Hraise; [done|]. by intros (? & ? & ? & ? & _).
Qed.

End AsMoney.

(** ["1e30"] is a finite decimal, and yet [as_money] raises: its amount
    needs 33 digits. *)
Lemma as_money_rejects_large_amount :
  PyDecimal.of_string (py_str (PyStr "1e30"))
  = Ok (PyDecimal.Finite false 1 30)
  ∧ Money.as_money (PyStr "1e30") = Raise ValueError.
Proof. by vm_compute. Qed.

(** A quiet NaN is handed back by [quantize] instead of being refused. *)
Lemma as_money_passes_quiet_nan :
  Money.as_money (PyStr "NaN") = Ok (PyDecimal.NaN false false 0).
Proof. by vm_compute. Qed.

Lemma as_money_witness :
  (∀ s p, PyDecimal.of_string (py_str (PyStr "19.995"))
          ≠ Ok (PyDecimal.NaN s false p))
  ∧ Money.as_money (PyStr "19.995") = Ok (PyDecimal.Finite false 2000 (-2)).
Proof.
  assert (∀ s p, PyDecimal.of_string (py_str (PyStr "19.995"))
                 ≠ Ok (PyDecimal.NaN s false p)) as Hnan
    by (intros s p; vm_compute; discriminate).
  split; [exact Hnan|].
  apply (proj1 (proj2 (as_money_quantizes_or_raises (PyStr "19.995") Hnan))
           false 19995%N (-3)).
  - vm_compute. reflexivity.
  - vm_compute. reflexivity.
Defined.

(** ** Product creation (C8) *)

Section CreateProduct.

Import Products.

Lemma create_in_transaction_committed s name sku price quantity warehouse_id :
  committed (create_in_transaction s name sku price quantity warehouse_id).1
  = committed s.
Proof.
  unfold create_in_transaction, add_product_flush.
  case_bool_decide; [done|]. cbn.
  destruct warehouse_id; try done;
    by destruct (scalar_one_or_none _) as [[?|]|].
Qed.

(** The handlers of the [try] block: every response but 201 leaves the
    committed store as it was, and 409 carries [sku_already_exists]. *)
Lemma run_transaction_atomic db name sku price quantity warehouse_id :
  let '(db', resp) :=
    run_transaction db name sku price quantity warehouse_id in
  (∃ id, resp = Ok (Created id, 201))
  ∨ db' = db
    ∧ (resp = Ok (Error "sku_already_exists", 409)
       ∨ ∃ e, resp = Ok (InternalError e, 500)).
Proof.
  unfold run_transaction.
  pose proof (create_in_transaction_committed (begin db) name sku price
    quantity warehouse_id) as Hc.
  destruct (create_in_transaction _ _ _ _ _ _) as [s [id|e]]; cbn in *.
  - left. by exists id.
  - destruct e; cbn; right; split; eauto.
Qed.

(** A duplicate sku is refused by the flush, before anything is written
    even inside the transaction. *)
Lemma duplicate_sku_flush s name sku price :
  sku ∈ Product.sku <$> DB.products (pending s) →
  add_product_flush s name sku price = (s, Raise IntegrityError).
Proof.
  intros Hdup. unfold add_product_flush. by rewrite bool_decide_eq_true_2.
Qed.

(** C8. A creation request that passes validation and the warehouse check
    and whose sku is already taken gets 409 [sku_already_exists], and the
    store after the request is the store before it: no product row and no
    inventory row was added or changed.  More generally a 409 response
    always comes with an unchanged store. *)
Theorem duplicate_sku_conflict db json name sku price quantity :
  let payload := default ∅ json in
  let warehouse_id := default PyNone (payload !! "warehouse_id"%string) in
  validate payload = Ok (inr (name, sku, price, quantity)) →
  (warehouse_id = PyNone
   ∨ ∃ w, find_warehouse db warehouse_id = Ok (Some w)) →
  sku ∈ Product.sku <$> DB.products db →
  ∃ db',
    create_product db json = (db', Ok (Error "sku_already_exists", 409))
    ∧ db' = db
    ∧ DB.products db' = DB.products db
    ∧ DB.inventory db' = DB.inventory db
    ∧ (∀ json' db'' body,
         create_product db json' = (db'', Ok (body, 409)) →
         body = Error "sku_already_exists" ∧ db'' = db).
Proof.
  intros payload warehouse_id Hvalid Hwh Hdup.
  exists db. split; [|split; [done|split; [done|split; [done|]]]].
  - unfold create_product. fold payload. rewrite Hvalid. fold warehouse_id.
    assert (match warehouse_id with
            | PyNone => Ok true
            | _ => (λ wh, bool_decide (wh ≠ None))
                     <$> find_warehouse db warehouse_id
            end = Ok true) as ->.
    { destruct Hwh as [->|[w Hw]]; [done|]. rewrite Hw.
      by destruct warehouse_id. }
    unfold run_transaction, create_in_transaction.
    by rewrite duplicate_sku_flush.
  - intros json' db'' body Hcp. unfold create_product in Hcp.
    destruct (validate (default ∅ json')) as [[errors|[[[n k] p] q]]|e];
      [by simplify_eq| |by simplify_eq].
    destruct (match default PyNone (default ∅ json' !! _) with
              | PyNone => _ | _ => _ end)
      as [[]|]; [|by simplify_eq|by simplify_eq].
    pose proof (run_transaction_atomic db n k p q
      (default PyNone (default ∅ json' !! "warehouse_id"%string))) as Hrun.
    rewrite Hcp in Hrun.
    destruct Hrun as [[id ?]|[-> [?|[e ?]]]]; by simplify_eq.
Qed.

End CreateProduct.

Lemma duplicate_sku_witness :
  ∃ db',
    Products.create_product Demo.store (Some Demo.duplicate_request)
    = (db', Ok (Products.Error "sku_already_exists", 409))
    ∧ db' = Demo.store.
Proof.
  pose proof (duplicate_sku_conflict Demo.store (Some Demo.duplicate_request)
                "Widget, again" "W-1" (PyDecimal.Finite false 450 (-2)) 12)
    as H.
  cbv zeta in H.
  destruct H as (db' & Hresp & Hsame & _).
  - vm_compute. reflexivity.
  - right. exists 1. vm_compute. reflexivity.
  - vm_compute. apply (list_elem_of_here "W-1"%string ["G-1"%string]).
  - by exists db'.
Defined.

(** ** The statements at the example store *)

Lemma keep_iff_witness :
  Alerts._ads Demo.store 7 1 1 Demo.window_start 30 = Ok (Demo.dbl 1)
  ∧ ∃ d kept,
      Alerts.scan_row Demo.store 7 Demo.window_start 30 Demo.widget
        Demo.main_warehouse 1 1 (Some 9) = Ok (d, kept)
      ∧ (Alerts.d_decision d = "keep"%string ↔ is_Some kept).
Proof.
  assert (Alerts._ads Demo.store 7 1 1 Demo.window_start 30
          = Ok (Demo.dbl 1)) as Hads by (vm_compute; reflexivity).
  split; [exact Hads|].
  destruct (keep_iff_and_skip_reasons Demo.store 7 Demo.window_start 30
              Demo.widget Demo.main_warehouse 1 1 (Some 9) (Demo.dbl 1) Hads)
    as (d & kept & Hrow & _ & _ & Hdecision & _).
  exists d, kept. split; [exact Hrow|exact Hdecision].
Defined.

Lemma days_until_stockout_witness :
  Alerts.low_stock_alerts Demo.store Demo.today 7
    (Alerts.mk_args None None None None)
  = Ok (Alerts.AlertsBody [Demo.gadget_alert; Demo.widget_alert] 2 None, 200)
  ∧ ∃ ads,
      Alerts.days_until_stockout Demo.widget_alert
      = Some (SFdiv PyFloat.prec PyFloat.emax
                (Alerts.current_stock Demo.widget_alert) ads).
Proof.
  assert (Alerts.low_stock_alerts Demo.store Demo.today 7
            (Alerts.mk_args None None None None)
          = Ok (Alerts.AlertsBody [Demo.gadget_alert; Demo.widget_alert] 2
                  None, 200)) as Hresp by (vm_compute; reflexivity).
  split; [exact Hresp|].
  destruct (alerts_have_days_until_stockout Demo.store Demo.today 7 _ _ _ _ _
              Hresp Demo.widget_alert)
    as (lookback_days & since & ads & _ & _ & _ & _ & Hdays & _).
  - apply list_elem_of_further, list_elem_of_here.
  - exists ads. exact Hdays.
Defined.

Lemma threshold_resolution_witness :
  let product_row := ProductThreshold.mk 7 2 None (Demo.dbl 10) in
  let warehouse_row := ProductThreshold.mk 7 2 (Some 1) (Demo.dbl 4) in
  (* all three levels present, the product-level row inserted first *)
  first_row (warehouse_override 7 Demo.gadget 1)
    (DB.product_thresholds (Demo.with_thresholds [product_row; warehouse_row]))
    warehouse_row
  ∧ Alerts._threshold (Demo.with_thresholds [product_row; warehouse_row]) 7
      Demo.gadget 1 = Demo.dbl 4
  (* no override: the default of the product type *)
  ∧ first_row (type_row 5) (DB.product_types (Demo.with_thresholds []))
      (ProductType.mk 5 (Some (Demo.dbl 3)))
  ∧ Alerts._threshold (Demo.with_thresholds []) 7 Demo.gadget 1
    = Demo.dbl 3.
Proof.
  intros product_row warehouse_row.
  assert (first_row (warehouse_override 7 Demo.gadget 1)
            (DB.product_thresholds
               (Demo.with_thresholds [product_row; warehouse_row]))
            warehouse_row) as Hwh.
  { exists [product_row], []. split; [reflexivity|]. split; [done|].
    intros x Hx. apply list_elem_of_singleton in Hx. subst x.
    intros (_ & _ & Hw). discriminate Hw. }
  assert (first_row (type_row 5) (DB.product_types (Demo.with_thresholds []))
            (ProductType.mk 5 (Some (Demo.dbl 3)))) as Htype.
  { exists [], []. split; [reflexivity|]. split; [reflexivity|].
    intros x Hx. by apply elem_of_nil in Hx. }
  split; [exact Hwh|]. split; [|split; [exact Htype|]].
  - exact (proj1 (threshold_resolution_order
                    (Demo.with_thresholds [product_row; warehouse_row]) 7
                    Demo.gadget 1) warehouse_row Hwh).
  - refine (proj1 (proj2 (proj2 (threshold_resolution_order
                    (Demo.with_thresholds []) 7 Demo.gadget 1)))
              _ _ 5 (ProductType.mk 5 (Some (Demo.dbl 3))) (Demo.dbl 3)
              eq_refl _ Htype eq_refl).
    + intros x Hx. by apply elem_of_nil in Hx.
    + intros x Hx. by apply elem_of_nil in Hx.
    + discriminate.
Defined.


(* ===================================================================== *)
(** * Part III: further properties of the three modules *)
(* ===================================================================== *)

(** ** The handler: every outcome *)

Lemma parse_int_raises s e : PyStr.parse_int s = Raise e → e = ValueError.
Proof.
  unfold PyStr.parse_int. intros H.
  repeat case_match; congruence.
Qed.

Lemma int_arg_raises a d e : Alerts.int_arg a d = Raise e → e = ValueError.
Proof. destruct a as [s|]; [apply parse_int_raises|done]. Qed.

Lemma parse_warehouse_raises a e :
  Alerts.parse_warehouse a = Raise e → e = ValueError.
Proof.
  destruct a as [s|]; [|done]. cbn.
  destruct (PyStr.parse_int s) eqn:Hs; [done|].
  intros [= <-]. by eapply parse_int_raises.
Qed.

(** The start of the window is defined exactly when [timedelta] accepts
    the number of days and the difference is a date. *)
Lemma since_of_spec now lookback_days :
  Alerts.since_of now lookback_days
  = if bool_decide (Z.abs lookback_days ≤ 999999999
                    ∧ 0 ≤ now - lookback_days * PyTime.us_per_day
                      < PyTime.datetime_end)
    then Ok (now - lookback_days * PyTime.us_per_day)
    else Raise OverflowError.
Proof.
  unfold Alerts.since_of, PyTime.timedelta_days, PyTime.datetime_sub.
  destruct (Z.leb_spec (Z.abs lookback_days) 999999999);
    cbn [mbind result_bind].
  - destruct (Z.leb_spec 0 (now - lookback_days * PyTime.us_per_day)),
      (Z.ltb_spec (now - lookback_days * PyTime.us_per_day)
         PyTime.datetime_end); cbn [andb];
      case_bool_decide; try done; lia.
  - case_bool_decide; [lia|done].
Qed.

Section Outcomes.

Import Alerts.

Variable db : DB.t.
Variables now company_id : Z.

Lemma collect_ok req lookback_days limit target_warehouse since :
  int_arg (arg_lookback_days req) 30 = Ok lookback_days →
  int_arg (arg_limit req) 100 = Ok limit →
  parse_warehouse (arg_warehouse_id req) = Ok target_warehouse →
  since_of now lookback_days = Ok since →
  ∃ c, collect db now company_id req = Ok (inr c).
Proof.
  intros Hlb Hlim Htw Hsince. unfold collect.
  rewrite Hlb, Hlim. cbn [mbind result_bind]. rewrite Htw, Hsince.
  cbn [mbind result_bind].
  destruct (since_of_bound now lookback_days since Hsince) as [_ Hconv].
  set (rows := inv_rows db company_id target_warehouse).
  destruct (kept_alerts_ok db company_id since lookback_days
    (prefetch_products db rows) (prefetch_warehouses db rows) rows Hconv)
    as [q Hq].
  destruct (scan_prefix db company_id since lookback_days limit
    (bool_decide (arg_debug req = Some "1"%string))
    (prefetch_products db rows) (prefetch_warehouses db rows) rows [] [] q Hq)
    as [dbg ->].
  by eexists.
Qed.

(** The four ways the handler can go, up to the sort. *)
Lemma collect_cases req :
  match int_arg (arg_lookback_days req) 30, int_arg (arg_limit req) 100,
        parse_warehouse (arg_warehouse_id req) with
  | Raise _, _, _ | Ok _, Raise _, _ =>
      collect db now company_id req = Raise ValueError
  | Ok _, Ok _, Raise _ =>
      collect db now company_id req
      = Ok (inl (ErrorBody "invalid_warehouse_id", 400))
  | Ok lookback_days, Ok _, Ok _ =>
      match since_of now lookback_days with
      | Ok _ => ∃ c, collect db now company_id req = Ok (inr c)
      | Raise _ => collect db now company_id req = Raise OverflowError
      end
  end.
Proof.
  destruct (int_arg (arg_lookback_days req) 30) as [lb|e] eqn:Hlb.
  2:{ apply int_arg_raises in Hlb as Hv. subst e.
      unfold collect. by rewrite Hlb. }
  destruct (int_arg (arg_limit req) 100) as [lim|e] eqn:Hlim.
  2:{ apply int_arg_raises in Hlim as Hv. subst e.
      unfold collect. by rewrite Hlb, Hlim. }
  destruct (parse_warehouse (arg_warehouse_id req)) as [tw|e] eqn:Htw.
  2:{ apply parse_warehouse_raises in Htw as Hv. subst e.
      unfold collect. rewrite Hlb, Hlim.
      cbn [mbind result_bind]. by rewrite Htw. }
  destruct (since_of now lb) as [since|e] eqn:Hsince.
  - by eapply collect_ok.
  - assert (e = OverflowError) as ->.
    { rewrite since_of_spec in Hsince. case_bool_decide; congruence. }
    unfold collect. rewrite Hlb, Hlim. cbn [mbind result_bind].
    by rewrite Htw, Hsince.
Qed.

(** X1. For every request the handler ends in one of four ways, decided by
    its query string alone: it raises [ValueError] when [lookback_days] or
    [limit] is not an integer (also when [warehouse_id] is malformed too);
    it answers 400 [invalid_warehouse_id] when these two parse and
    [warehouse_id] does not; it raises [OverflowError] when all three parse
    and [lookback_days] is beyond 999999999 days or the start of the window
    is not a date; in every other case it answers 200 with a list of alerts
    and [total_alerts] equal to its length. *)
Theorem low_stock_alerts_outcomes req :
  match int_arg (arg_lookback_days req) 30, int_arg (arg_limit req) 100,
        parse_warehouse (arg_warehouse_id req) with
  | Raise _, _, _ | Ok _, Raise _, _ =>
      low_stock_alerts db now company_id req = Raise ValueError
  | Ok _, Ok _, Raise _ =>
      low_stock_alerts db now company_id req
      = Ok (ErrorBody "invalid_warehouse_id", 400)
  | Ok lookback_days, Ok _, Ok _ =>
      if bool_decide (Z.abs lookback_days ≤ 999999999
                      ∧ 0 ≤ now - lookback_days * PyTime.us_per_day
                        < PyTime.datetime_end)
      then ∃ alerts dbg,
             low_stock_alerts db now company_id req
             = Ok (AlertsBody alerts (length alerts) dbg, 200)
      else low_stock_alerts db now company_id req = Raise OverflowError
  end.
Proof.
  pose proof (collect_cases req) as Hc. unfold low_stock_alerts.
  destruct (int_arg (arg_lookback_days req) 30) as [lb|];
    [|by rewrite Hc].
  destruct (int_arg (arg_limit req) 100) as [lim|]; [|by rewrite Hc].
  destruct (parse_warehouse (arg_warehouse_id req)) as [tw|];
    [|by rewrite Hc].
  rewrite since_of_spec in Hc. case_bool_decide; [|by rewrite Hc].
  destruct Hc as [c ->]. cbn [mbind result_bind]. unfold respond.
  by eexists _, _.
Qed.

(** The collected alerts behind a response. *)
Lemma response_inv req alerts total dbg status :
  low_stock_alerts db now company_id req
  = Ok (AlertsBody alerts total dbg, status) →
  ∃ c, collect db now company_id req = Ok (inr c)
    ∧ alerts = (if c_limit c <? Z.of_nat (length (c_alerts c))
                then slice_to (c_limit c) (c_alerts c) else c_alerts c)
    ∧ total = length alerts
    ∧ dbg = (if c_debug c then Some (c_dbg c) else None)
    ∧ status = 200.
Proof.
  unfold low_stock_alerts. intros Hresp.
  destruct (collect db now company_id req) as [[early|c]|] eqn:Hc; [| |done].
  { apply collect_early in Hc as ->. done. }
  cbn [mbind result_bind] in Hresp. unfold respond in Hresp.
  injection Hresp as <- <- <- <-. by exists c.
Qed.

(** X2. A response never carries more alerts than [limit], whatever the
    limit: for a limit of zero or below it carries none.  [total_alerts]
    is the length of the list, and the [debug] key is absent exactly when
    the request does not say [debug=1]. *)
Theorem low_stock_alerts_within_limit req alerts total dbg status :
  low_stock_alerts db now company_id req
  = Ok (AlertsBody alerts total dbg, status) →
  ∃ limit,
    int_arg (arg_limit req) 100 = Ok limit
    ∧ total = length alerts
    ∧ Z.of_nat (length alerts) ≤ Z.max limit 0
    ∧ (dbg = None ↔ arg_debug req ≠ Some "1"%string).
Proof.
  intros (c & Hc & -> & -> & -> & _)%response_inv.
  destruct (collect_inv db now company_id req c Hc)
    as (lb & tw & since & q & dbg' & _ & Hlim & _ & _ & Hdebug & _ & Hal & _).
  exists (c_limit c). split; [done|]. split; [done|]. split.
  - destruct (Z.ltb_spec (c_limit c) (Z.of_nat (length (c_alerts c))))
      as [Hlt|Hge]; [|lia].
    unfold slice_to. destruct (Z.leb_spec 0 (c_limit c)).
    + rewrite length_take. lia.
    + rewrite length_take.
      assert (length (c_alerts c) ≤ 1)%nat.
      { rewrite Hal, sort_by_length, length_take. lia. }
      lia.
  - rewrite Hdebug. case_bool_decide; split; try done.
Qed.

End Outcomes.

Lemma low_stock_alerts_within_limit_witness :
  let req := Alerts.mk_args None (Some "1"%string) None None in
  Alerts.low_stock_alerts Demo.store Demo.today 7 req
  = Ok (Alerts.AlertsBody [Demo.widget_alert] 1 None, 200)
  ∧ ∃ limit,
      Alerts.int_arg (Alerts.arg_limit req) 100 = Ok limit
      ∧ Z.of_nat (length [Demo.widget_alert]) ≤ Z.max limit 0.
Proof.
  intros req.
  assert (Alerts.low_stock_alerts Demo.store Demo.today 7 req
          = Ok (Alerts.AlertsBody [Demo.widget_alert] 1 None, 200)) as Hresp
    by (vm_compute; reflexivity).
  split; [exact Hresp|].
  destruct (low_stock_alerts_within_limit Demo.store Demo.today 7 _ _ _ _ _
              Hresp) as (limit & Hlimit & _ & Hlen & _).
  exists limit. split; [exact Hlimit|exact Hlen].
Defined.

(** ** The handler: where the alerts come from *)

Lemma Sorted_take {A} (R : A → A → Prop) n l :
  Sorted R l → Sorted R (take n l).
Proof.
  intros Hs. revert n. induction Hs as [|x l Hs IH Hhd]; intros [|n]; cbn;
    try constructor; [apply IH|].
  destruct Hhd as [|y l Hxy]; destruct n; cbn; by constructor.
Qed.

Lemma slice_to_take {A} n (l : list A) : ∃ k, Alerts.slice_to n l = take k l.
Proof. unfold Alerts.slice_to. destruct (0 <=? n); by eexists. Qed.

Lemma inv_rows_elem db company_id tw pid wid qty :
  (pid, wid, qty) ∈ Alerts.inv_rows db company_id tw →
  ∃ i w,
    i ∈ DB.inventory db ∧ w ∈ DB.warehouses db
    ∧ Warehouse.id w = wid ∧ Warehouse.company_id w = company_id
    ∧ Inventory.product_id i = pid ∧ Inventory.warehouse_id i = wid
    ∧ Inventory.quantity i = qty
    ∧ (∀ t, tw = Some t → t ≠ 0 → wid = t).
Proof.
  unfold Alerts.inv_rows. intros (i & [= -> -> ->] & Hi)%list_elem_of_fmap.
  assert (i ∈ (i ← DB.inventory db;
               _ ← filter (λ w, Warehouse.id w = Inventory.warehouse_id i
                                ∧ Warehouse.company_id w = company_id)
                          (DB.warehouses db);
               [i])
          ∧ ∀ t, tw = Some t → t ≠ 0 → Inventory.warehouse_id i = t)
    as [Hjoin Hfilter].
  { destruct tw as [t|]; [|by split].
    destruct (Z.eqb_spec t 0) as [->|Hne].
    - split; [done|]. by intros ? [= <-].
    - apply list_elem_of_filter in Hi as [Hw Hi]. split; [done|].
      by intros ? [= <-]. }
  apply list_elem_of_bind in Hjoin as (i' & Hin & Hi').
  apply list_elem_of_bind in Hin as (w & Hin & Hw).
  apply list_elem_of_singleton in Hin as ->.
  apply list_elem_of_filter in Hw as [[Hid Hco] Hw].
  by exists i', w.
Qed.

Section Origin.

Import Alerts.

Variable db : DB.t.
Variables now company_id : Z.

(** A kept row, in full. *)
Lemma scan_row_kept since lookback_days p w pid wid qty d a :
  scan_row db company_id since lookback_days p w pid wid qty = Ok (d, Some a) →
  ∃ ads,
    _ads db company_id pid wid since lookback_days = Ok ads
    ∧ keep_decision ads (_threshold db company_id p wid) (stock_of qty) = true
    ∧ a = mk_alert (Product.id p) (Product.name p) (Product.sku p)
            (Warehouse.id w) (Warehouse.name w) (stock_of qty)
            (_threshold db company_id p wid)
            (Some (SFdiv PyFloat.prec PyFloat.emax (stock_of qty) ads))
            ((λ sup, mk_supplier_json (Supplier.id sup) (Supplier.name sup)
                       (Supplier.contact_email sup))
               <$> _best_supplier db company_id pid).
Proof.
  unfold scan_row.
  destruct (_ads db company_id pid wid since lookback_days) as [ads|]; [|done].
  cbn [mbind result_bind].
  destruct (keep_decision ads _ _) eqn:Hkeep; cbn [negb]; [|done].
  intros [= <- <-]. exists ads. split; [done|]. split; [done|].
  unfold keep_decision in Hkeep.
  apply andb_prop in Hkeep as [Hk _]. apply andb_prop in Hk as [-> _].
  by destruct (_best_supplier db company_id pid).
Qed.

Lemma response_alert_origin req alerts total dbg status a :
  low_stock_alerts db now company_id req
  = Ok (AlertsBody alerts total dbg, status) →
  a ∈ alerts →
  ∃ lookback_days target_warehouse since pid wid qty p w d,
    int_arg (arg_lookback_days req) 30 = Ok lookback_days
    ∧ parse_warehouse (arg_warehouse_id req) = Ok target_warehouse
    ∧ since_of now lookback_days = Ok since
    ∧ (pid, wid, qty) ∈ inv_rows db company_id target_warehouse
    ∧ p ∈ DB.products db ∧ Product.id p = pid
    ∧ w ∈ DB.warehouses db ∧ Warehouse.id w = wid
    ∧ scan_row db company_id since lookback_days p w pid wid qty
      = Ok (d, Some a).
Proof.
  intros (c & Hc & -> & _)%response_inv Ha.
  assert (a ∈ c_alerts c) as Ha'.
  { destruct (c_limit c <? _); [by eapply slice_to_elem|done]. }
  clear Ha.
  destruct (collect_inv db now company_id req c Hc)
    as (lb & tw & since & q & dbg' & Hlb & _ & Htw & Hsince & _ & [Hq _]
        & Hal & _).
  rewrite Hal in Ha'. apply sort_by_elem in Ha'.
  apply elem_of_take in Ha' as (i & Hi & _).
  apply list_elem_of_lookup_2 in Hi.
  destruct (kept_alerts_elem _ _ _ _ _ _ _ _ _ Hq Hi)
    as (pid & wid & qty & p & w & d & Hrow & Hp & Hw & Hscan).
  apply dict_by_id_lookup in Hp as [Hpid Hp].
  apply dict_by_id_lookup in Hw as [Hwid Hw].
  apply list_elem_of_filter in Hp as [_ Hp].
  apply list_elem_of_filter in Hw as [_ Hw].
  by exists lb, tw, since, pid, wid, qty, p, w, d.
Qed.

(** X3. Every alert of a response is a real low-stock row, built from
    the rows it names: its threshold is positive and its stock is strictly
    below it; its id, name and sku are those of a product row and its
    warehouse id and name those of a warehouse row; its stock is the
    quantity of an inventory row of that product and warehouse (0.0 when
    the quantity is null or does not convert); its threshold is the one
    [_threshold] resolves for that product and warehouse; and its supplier
    is the one [_best_supplier] returns for the company and the product,
    [null] when there is none. *)
Theorem alerts_are_low_stock req alerts total dbg status :
  low_stock_alerts db now company_id req
  = Ok (AlertsBody alerts total dbg, status) →
  ∀ a, a ∈ alerts →
    PyFloat.gt (threshold a) PyFloat.zero = true
    ∧ PyFloat.lt (current_stock a) (threshold a) = true
    ∧ (∃ p i w,
         p ∈ DB.products db ∧ i ∈ DB.inventory db ∧ w ∈ DB.warehouses db
         ∧ Product.id p = product_id a
         ∧ Product.name p = product_name a
         ∧ Product.sku p = sku a
         ∧ Warehouse.id w = warehouse_id a
         ∧ Warehouse.name w = warehouse_name a
         ∧ Inventory.product_id i = product_id a
         ∧ Inventory.warehouse_id i = warehouse_id a
         ∧ current_stock a = stock_of (Inventory.quantity i)
         ∧ threshold a = _threshold db company_id p (warehouse_id a))
    ∧ supplier a
      = (λ sup, mk_supplier_json (Supplier.id sup) (Supplier.name sup)
                  (Supplier.contact_email sup))
          <$> _best_supplier db company_id (product_id a).
Proof.
  intros Hresp a Ha.
  destruct (response_alert_origin _ _ _ _ _ _ Hresp Ha)
    as (lb & tw & since & pid & wid & qty & p & w & d & _ & _ & _ & Hrow
        & Hp & Hpid & Hw & Hwid & Hscan).
  destruct (inv_rows_elem _ _ _ _ _ _ Hrow)
    as (i & w' & Hi & _ & _ & _ & Hip & Hiw & Hiq & _).
  destruct (scan_row_kept _ _ _ _ _ _ _ _ _ Hscan) as (ads & _ & Hkeep & ->).
  cbn [threshold current_stock product_id product_name sku warehouse_id
       warehouse_name supplier].
  unfold keep_decision in Hkeep.
  apply andb_prop in Hkeep as [Hk Hlt]. apply andb_prop in Hk as [_ Hthr].
  split; [done|]. split; [done|]. split; [|by rewrite Hpid].
  exists p, i, w. rewrite Hwid, Hiq. by repeat split; try congruence.
Qed.

(** X4. A response only reports warehouses of the company of the URL:
    the warehouse id of every alert is the id of a warehouse row of that
    company.  With a [warehouse_id] other than zero in the query string,
    every alert is for that warehouse. *)
Theorem alerts_belong_to_company req alerts total dbg status :
  low_stock_alerts db now company_id req
  = Ok (AlertsBody alerts total dbg, status) →
  ∀ a, a ∈ alerts →
    (∃ w, w ∈ DB.warehouses db
        ∧ Warehouse.id w = warehouse_id a
        ∧ Warehouse.company_id w = company_id)
    ∧ (∀ t, parse_warehouse (arg_warehouse_id req) = Ok (Some t) →
            t ≠ 0 → warehouse_id a = t).
Proof.
  intros Hresp a Ha.
  destruct (response_alert_origin _ _ _ _ _ _ Hresp Ha)
    as (lb & tw & since & pid & wid & qty & p & w & d & _ & Htw & _ & Hrow
        & _ & _ & _ & Hwid & Hscan).
  destruct (inv_rows_elem _ _ _ _ _ _ Hrow)
    as (i & w' & _ & Hw' & Hid & Hco & _ & _ & _ & Hfilter).
  destruct (scan_row_kept _ _ _ _ _ _ _ _ _ Hscan) as (ads & _ & _ & ->).
  cbn [warehouse_id]. rewrite Hwid. split.
  - by exists w'.
  - intros t Ht Hne. rewrite Htw in Ht. injection Ht as ->.
    by eapply Hfilter.
Qed.

(** X5. The alerts of every response are in ascending order of
    [current_stock - threshold], the most deficient first, whether or not
    the loop stopped early and whether or not the list was truncated. *)
Theorem alerts_always_sorted req alerts total dbg status :
  low_stock_alerts db now company_id req
  = Ok (AlertsBody alerts total dbg, status) →
  Sorted deficiency_le alerts.
Proof.
  intros (c & Hc & -> & _)%response_inv.
  destruct (collect_inv db now company_id req c Hc)
    as (lb & tw & since & q & dbg' & _ & _ & _ & _ & _ & [Hq _] & Hal & _).
  assert (Sorted deficiency_le (c_alerts c)) as Hs.
  { rewrite Hal. apply sorted_by_deficiency, Forall_take.
    by eapply kept_alerts_deficiency. }
  destruct (c_limit c <? _); [|done].
  destruct (slice_to_take (c_limit c) (c_alerts c)) as [k ->].
  by apply Sorted_take.
Qed.

(** X6. When at most [limit] rows qualify, none is lost: the request is
    answered with 200 and with all the qualifying rows of the scan, sorted
    by deficiency. *)
Theorem all_qualifying_rows_returned req lookback_days limit target_warehouse
    since :
  int_arg (arg_lookback_days req) 30 = Ok lookback_days →
  int_arg (arg_limit req) 100 = Ok limit →
  parse_warehouse (arg_warehouse_id req) = Ok target_warehouse →
  since_of now lookback_days = Ok since →
  let rows := inv_rows db company_id target_warehouse in
  ∃ q,
    kept_alerts db company_id since lookback_days
      (prefetch_products db rows) (prefetch_warehouses db rows) rows = Ok q
    ∧ (Z.of_nat (length q) ≤ limit →
       ∃ dbg,
         low_stock_alerts db now company_id req
         = Ok (AlertsBody (Sql.sort_by by_deficiency q) (length q) dbg, 200)
         ∧ Sql.sort_by by_deficiency q ≡ₚ q).
Proof.
  intros Hlb Hlim Htw Hsince rows.
  destruct (collect_ok db now company_id req _ _ _ _ Hlb Hlim Htw Hsince)
    as [c Hc].
  destruct (collect_inv db now company_id req c Hc)
    as (lb & tw & since' & q & dbg' & Hlb' & Hlim' & Htw' & Hsince' & _
        & [Hq _] & Hal & _).
  assert (lb = lookback_days) as -> by congruence.
  assert (tw = target_warehouse) as -> by congruence.
  assert (since' = since) as -> by congruence.
  assert (c_limit c = limit) as Hcl by congruence.
  exists q. split; [done|]. intros Hfew.
  unfold low_stock_alerts. rewrite Hc. cbn [mbind result_bind].
  assert (c_alerts c = Sql.sort_by by_deficiency q) as Hall.
  { rewrite Hal. f_equal. apply take_ge. lia. }
  rewrite Hall, Hcl, sort_by_length.
  replace (limit <? Z.of_nat (length q)) with false
    by (symmetry; apply Z.ltb_ge; lia).
  unfold respond. rewrite sort_by_length.
  eexists. split; [done|]. apply sort_by_perm.
Qed.

(** X7. A company without warehouses (an unknown company id included)
    is answered like any other, with an empty list: no alert,
    [total_alerts] zero, status 200, and no debug record. *)
Theorem company_without_warehouses_has_no_alerts req alerts total dbg status :
  low_stock_alerts db now company_id req
  = Ok (AlertsBody alerts total dbg, status) →
  (∀ w, w ∈ DB.warehouses db → Warehouse.company_id w ≠ company_id) →
  alerts = [] ∧ total = 0%nat ∧ status = 200
  ∧ (dbg = None ∨ dbg = Some []).
Proof.
  intros (c & Hc & -> & -> & -> & ->)%response_inv Hnone.
  destruct (collect_inv db now company_id req c Hc)
    as (lb & tw & since & q & dbg' & _ & _ & _ & _ & _ & [_ Hscan] & Hal
        & Hdbg).
  assert (inv_rows db company_id tw = []) as Hrows.
  { apply elem_of_nil_inv. intros [[pid wid] qty] Hrow.
    destruct (inv_rows_elem _ _ _ _ _ _ Hrow)
      as (i & w & _ & Hw & _ & Hco & _).
    by apply (Hnone w). }
  rewrite Hrows in Hscan. cbn [scan] in Hscan. injection Hscan as Hq <-.
  rewrite <- Hq in Hal. cbn in Hal. rewrite Hal, Hdbg. cbn [length].
  replace (c_limit c <? Z.of_nat 0) with (c_limit c <? 0) by done.
  assert ((if c_limit c <? 0 then slice_to (c_limit c) (@nil alert) else [])
          = []) as ->.
  { destruct (c_limit c <? 0); [|done]. unfold slice_to.
    destruct (0 <=? c_limit c); by rewrite take_nil. }
  repeat split. destruct (c_debug c); [by right|by left].
Qed.

End Origin.

Lemma alerts_are_low_stock_witness :
  Alerts.low_stock_alerts Demo.store Demo.today 7
    (Alerts.mk_args None None None None)
  = Ok (Alerts.AlertsBody [Demo.gadget_alert; Demo.widget_alert] 2 None, 200)
  ∧ PyFloat.gt (Alerts.threshold Demo.widget_alert) PyFloat.zero = true
  ∧ PyFloat.lt (Alerts.current_stock Demo.widget_alert)
      (Alerts.threshold Demo.widget_alert) = true.
Proof.
  assert (Alerts.low_stock_alerts Demo.store Demo.today 7
            (Alerts.mk_args None None None None)
          = Ok (Alerts.AlertsBody [Demo.gadget_alert; Demo.widget_alert] 2
                  None, 200)) as Hresp by (vm_compute; reflexivity).
  split; [exact Hresp|].
  destruct (alerts_are_low_stock Demo.store Demo.today 7 _ _ _ _ _ Hresp
              Demo.widget_alert) as (Hthr & Hlow & _).
  - apply list_elem_of_further, list_elem_of_here.
  - split; [exact Hthr|exact Hlow].
Defined.

Lemma alerts_belong_to_company_witness :
  Alerts.low_stock_alerts Demo.store Demo.today 7
    (Alerts.mk_args None None (Some "1"%string) None)
  = Ok (Alerts.AlertsBody [Demo.gadget_alert; Demo.widget_alert] 2 None, 200)
  ∧ ∃ w, w ∈ DB.warehouses Demo.store
      ∧ Warehouse.id w = Alerts.warehouse_id Demo.gadget_alert
      ∧ Warehouse.company_id w = 7.
Proof.
  assert (Alerts.low_stock_alerts Demo.store Demo.today 7
            (Alerts.mk_args None None (Some "1"%string) None)
          = Ok (Alerts.AlertsBody [Demo.gadget_alert; Demo.widget_alert] 2
                  None, 200)) as Hresp by (vm_compute; reflexivity).
  split; [exact Hresp|].
  destruct (alerts_belong_to_company Demo.store Demo.today 7 _ _ _ _ _ Hresp
              Demo.gadget_alert) as [Hw _].
  - apply list_elem_of_here.
  - exact Hw.
Defined.

Lemma alerts_always_sorted_witness :
  Alerts.low_stock_alerts Demo.store Demo.today 7
    (Alerts.mk_args None None None None)
  = Ok (Alerts.AlertsBody [Demo.gadget_alert; Demo.widget_alert] 2 None, 200)
  ∧ Sorted deficiency_le [Demo.gadget_alert; Demo.widget_alert].
Proof.
  assert (Alerts.low_stock_alerts Demo.store Demo.today 7
            (Alerts.mk_args None None None None)
          = Ok (Alerts.AlertsBody [Demo.gadget_alert; Demo.widget_alert] 2
                  None, 200)) as Hresp by (vm_compute; reflexivity).
  split; [exact Hresp|].
  exact (alerts_always_sorted Demo.store Demo.today 7 _ _ _ _ _ Hresp).
Defined.

Lemma all_qualifying_rows_returned_witness :
  let req := Alerts.mk_args None (Some "2"%string) None None in
  Z.of_nat (length [Demo.widget_alert; Demo.gadget_alert]) ≤ 2
  ∧ ∃ dbg,
      Alerts.low_stock_alerts Demo.store Demo.today 7 req
      = Ok (Alerts.AlertsBody
              (Sql.sort_by Alerts.by_deficiency
                 [Demo.widget_alert; Demo.gadget_alert]) 2 dbg, 200).
Proof.
  intros req. split; [cbn; lia|].
  destruct (all_qualifying_rows_returned Demo.store Demo.today 7 req
              30 2 None Demo.window_start
              eq_refl eq_refl eq_refl eq_refl) as [q [Hq Hfew]].
  vm_compute in Hq. injection Hq as <-.
  destruct (Hfew ltac:(cbn; lia)) as (dbg & Hresp & _).
  exists dbg. exact Hresp.
Defined.

Lemma company_without_warehouses_witness :
  (∀ w, w ∈ DB.warehouses Demo.store → Warehouse.company_id w ≠ 8)
  ∧ ∃ dbg,
      Alerts.low_stock_alerts Demo.store Demo.today 8
        (Alerts.mk_args None None None None)
      = Ok (Alerts.AlertsBody [] 0 dbg, 200).
Proof.
  assert (∀ w, w ∈ DB.warehouses Demo.store → Warehouse.company_id w ≠ 8)
    as Hnone.
  { intros w Hw. apply list_elem_of_singleton in Hw. by subst w. }
  split; [exact Hnone|].
  assert (∃ alerts total dbg status,
    Alerts.low_stock_alerts Demo.store Demo.today 8
      (Alerts.mk_args None None None None)
    = Ok (Alerts.AlertsBody alerts total dbg, status))
    as (alerts & total & dbg & status & Hresp)
    by (eexists _, _, _, _; vm_compute; reflexivity).
  destruct (company_without_warehouses_has_no_alerts Demo.store Demo.today 8
              _ _ _ _ _ Hresp Hnone) as (-> & -> & -> & _).
  exists dbg. exact Hresp.
Defined.

(** ** Signs of rounded results *)

Section Sign.
Variables prec emax : Z.

Lemma binary_round_aux_sign sx mx ex lx :
  0 ≤ mx → has_sign sx (binary_round_aux prec emax sx mx ex lx).
Proof.
  intros Hm. unfold binary_round_aux.
  pose proof (shr_fexp_nonneg prec emax mx ex lx Hm) as H1.
  destruct (shr_fexp prec emax mx ex lx) as [mrs' e']. cbn [fst] in H1.
  set (m'' := round_nearest_even _ _).
  assert (0 ≤ m'') as H2.
  { subst m''. destruct (round_nearest_even_cases (shr_m mrs')
      (loc_of_shr_record mrs')) as [->| ->]; lia. }
  pose proof (shr_fexp_nonneg prec emax m'' e' loc_Exact H2) as H3.
  destruct (shr_fexp prec emax m'' e' loc_Exact) as [mrs'' e''].
  cbn [fst] in H3.
  destruct (shr_m mrs'') as [|m|m]; try done.
  by destruct (e'' <=? emax - prec).
Qed.

Lemma binary_normalize_sign m e szero :
  m ≠ 0 → has_sign (m <? 0) (binary_normalize prec emax m e szero).
Proof.
  unfold binary_normalize, binary_round. destruct m as [|p|p]; [done| |].
  - intros _. destruct (shl_align p e _).
    by apply binary_round_aux_sign.
  - intros _. destruct (shl_align p e _).
    by apply binary_round_aux_sign.
Qed.

Lemma SFdiv_sign x sx sy my ey :
  has_sign sx x →
  has_sign (xorb sx sy) (SFdiv prec emax x (S754_finite sy my ey)).
Proof.
  destruct x as [s|s| |s mx ex]; cbn [has_sign]; try done;
    try (by intros ->).
  intros ->. unfold SFdiv, SFdiv_core_binary.
  set (m' := match _ with Z0 => Z.pos mx | Z.pos _ => _ | Z.neg _ => 0 end).
  assert (0 ≤ m') as Hm'.
  { subst m'. destruct (_ - _ - _) as [|s|s]; [lia| |lia].
    apply Z.shiftl_nonneg. lia. }
  pose proof (Z_div_mod m' (Z.pos my) ltac:(lia)) as Hdiv.
  destruct (Z.div_eucl m' (Z.pos my)) as [q r].
  apply binary_round_aux_sign. nia.
Qed.

End Sign.

Lemma of_int_sign n f :
  PyFloat.of_int n = Ok f →
  if n =? 0 then f = PyFloat.zero else has_sign (n <? 0) f.
Proof.
  unfold PyFloat.of_int. destruct (Z.eqb_spec n 0) as [->|Hn].
  - by intros [= <-].
  - pose proof (binary_normalize_sign PyFloat.prec PyFloat.emax n 0 false Hn)
      as Hs.
    destruct (binary_normalize _ _ n 0 false); by intros [= <-].
Qed.

Lemma of_int_not_nan n f : PyFloat.of_int n = Ok f → PyFloat.is_nan f = false.
Proof.
  unfold PyFloat.of_int. destruct (binary_normalize _ _ n 0 false); try done;
    by intros [= <-].
Qed.

Lemma stock_of_not_nan qty : PyFloat.is_nan (Alerts.stock_of qty) = false.
Proof.
  unfold Alerts.stock_of. destruct qty as [n|]; [|done].
  destruct (PyFloat.of_int n) as [f|] eqn:Hf; [|done].
  by apply of_int_not_nan in Hf.
Qed.

Section AdsSign.

Import Alerts.

Variable db : DB.t.
Variables company_id product_id warehouse_id since : Z.

Lemma ads_total_not_nan :
  PyFloat.is_nan (ads_total db company_id product_id warehouse_id since)
  = false.
Proof.
  unfold ads_total, Sql.coalesce_sum.
  destruct (Sql.sum _) as [n|]; [|done]. cbn [Sql.to_float].
  destruct (PyFloat.of_int n) as [f|] eqn:Hf; [|done].
  by apply of_int_not_nan in Hf.
Qed.

(** The average is a number whenever it is returned. *)
Lemma ads_not_nan lookback_days ads :
  _ads db company_id product_id warehouse_id since lookback_days = Ok ads →
  PyFloat.is_nan ads = false.
Proof.
  destruct (ads_outcome db company_id product_id warehouse_id since
    lookback_days) as [[-> _]|(m & e & _ & ->)]; [done|].
  intros [= <-]. pose proof ads_total_not_nan as Hnum.
  destruct (ads_total _ _ _ _ _) as [s|s| |s mx ex] eqn:Htot; try done.
  pose proof (SFdiv_sign PyFloat.prec PyFloat.emax (S754_finite s mx ex) s
    false m e eq_refl) as Hs.
  by destruct (SFdiv _ _ _ _).
Qed.

Lemma ads_total_nonpositive :
  match Sql.sum (OrderLine.qty <$>
                   matching_lines db company_id product_id warehouse_id since)
  with
  | Some n => n ≤ 0
  | None => True
  end →
  ads_total db company_id product_id warehouse_id since = PyFloat.zero
  ∨ has_sign true (ads_total db company_id product_id warehouse_id since).
Proof.
  unfold ads_total, Sql.coalesce_sum.
  destruct (Sql.sum _) as [n|]; [|by left]. intros Hn. cbn [Sql.to_float].
  destruct (PyFloat.of_int n) as [f|] eqn:Hf; [|by left].
  apply of_int_sign in Hf. destruct (Z.eqb_spec n 0); [by left|right].
  by replace (n <? 0) with true in Hf by (symmetry; apply Z.ltb_lt; lia).
Qed.

End AdsSign.

Section NoSales.

Import Alerts.

Variable db : DB.t.
Variables company_id since lookback_days : Z.

(** X8. A row whose product has no net sales in the window is never
    reported, whatever its stock and threshold: when the matching order
    lines sum to nothing (no line, or only null quantities) or to zero or
    less, the average daily sales are not positive, the row is skipped and
    [no_recent_sales] is among its reasons. *)
Theorem no_net_sales_never_alerts p w pid wid qty :
  lookback_days < 2 ^ 1023 →
  match Sql.sum (OrderLine.qty <$>
                   matching_lines db company_id pid wid since)
  with
  | Some n => n ≤ 0
  | None => True
  end →
  ∃ d ads,
    scan_row db company_id since lookback_days p w pid wid qty = Ok (d, None)
    ∧ _ads db company_id pid wid since lookback_days = Ok ads
    ∧ PyFloat.le ads PyFloat.zero = true
    ∧ d_decision d = "skip"%string
    ∧ "no_recent_sales"%string ∈ d_reason_if_skip d.
Proof.
  intros Hlb Hsum.
  destruct (of_int_in_range (Z.max lookback_days 1)) as (m & e & Hconv).
  { assert (1 < 2 ^ 1023) by done. lia. }
  destruct (ads_outcome db company_id pid wid since lookback_days)
    as [[_ Hover]|(m' & e' & Hconv' & Hads)]; [congruence|].
  set (ads := SFdiv _ _ _ _) in Hads.
  assert (PyFloat.le ads PyFloat.zero = true
          ∧ PyFloat.gt ads PyFloat.zero = false) as [Hle Hgt].
  { destruct (ads_total_nonpositive db company_id pid wid since Hsum)
      as [Hz|Hs].
    - subst ads. by rewrite Hz.
    - pose proof (SFdiv_sign PyFloat.prec PyFloat.emax _ true false m' e' Hs)
        as Hs'.
      fold ads in Hs'. cbn [xorb] in Hs'.
      by destruct ads as [[]|[]| |[] ? ?]. }
  assert (∀ thr stock, keep_decision ads thr stock = false) as Hkeep.
  { intros thr stock. unfold keep_decision. by rewrite Hgt. }
  unfold scan_row. rewrite Hads. cbn [mbind result_bind].
  rewrite !Hkeep. cbn [negb].
  eexists _, ads. split; [done|]. split; [done|]. split; [done|].
  cbn [d_decision d_reason_if_skip].
  split; [done|]. unfold skip_reasons. rewrite Hle. set_solver.
Qed.

End NoSales.

Lemma no_net_sales_never_alerts_witness :
  30 < 2 ^ 1023
  ∧ Sql.sum (OrderLine.qty
             <$> Alerts.matching_lines (Demo.with_order_lines []) 7 1 1
                   Demo.window_start) = None
  ∧ ∃ d,
      Alerts.scan_row (Demo.with_order_lines []) 7 Demo.window_start 30
        Demo.widget Demo.main_warehouse 1 1 (Some 9) = Ok (d, None)
      ∧ Alerts.d_decision d = "skip"%string.
Proof.
  assert (30 < 2 ^ 1023) as Hlb by reflexivity.
  split; [exact Hlb|]. split; [reflexivity|].
  destruct (no_net_sales_never_alerts (Demo.with_order_lines []) 7
              Demo.window_start 30 Demo.widget Demo.main_warehouse 1 1
              (Some 9) Hlb I) as (d & ads & Hrow & _ & _ & Hskip & _).
  exists d. split; [exact Hrow|exact Hskip].
Defined.

(** ** The debug records *)

Section DebugRecords.

Import Alerts.

Variable db : DB.t.
Variables company_id since lookback_days limit : Z.
Variable products : gmap Z Product.t.
Variable warehouses : gmap Z Warehouse.t.

(** The record of a row: the decision matches the alert, and the reasons
    explain every skip whose threshold is a number. *)
Lemma scan_row_debug p w pid wid qty d kept :
  scan_row db company_id since lookback_days p w pid wid qty = Ok (d, kept) →
  (d_decision d = "keep"%string ∧ is_Some kept ∧ d_reason_if_skip d = []
   ∨ d_decision d = "skip"%string ∧ kept = None
     ∧ (PyFloat.is_nan (d_threshold d) = false → d_reason_if_skip d ≠ [])).
Proof.
  unfold scan_row.
  destruct (_ads db company_id pid wid since lookback_days) as [ads|] eqn:Hads;
    [|done].
  apply ads_not_nan in Hads. pose proof (stock_of_not_nan qty) as Hstock.
  cbn [mbind result_bind].
  set (thr := _threshold db company_id p wid) in *.
  set (stock := stock_of qty) in *.
  destruct (keep_decision ads thr stock) eqn:Hkeep; cbn [negb];
    intros [= <- <-]; cbn [d_decision d_reason_if_skip d_threshold].
  - left. split; [done|]. split; [by eexists|].
    unfold keep_decision in Hkeep.
    apply andb_prop in Hkeep as [Hk Hlt]. apply andb_prop in Hk as [Ha Ht].
    unfold skip_reasons, PyFloat.le, PyFloat.ge, PyFloat.gt, PyFloat.lt in *.
    apply SFltb_asym in Ha as Ha', Ht as Ht', Hlt as Hlt'.
    assert (∀ x y, SFltb x y = true → SFleb y x = false) as Hno.
    { intros x y. unfold SFltb, SFleb. rewrite (SFcompare_antisym x y).
      by destruct (SFcompare x y) as [[]|]. }
    by rewrite (Hno _ _ Ha), (Hno _ _ Ht), (Hno _ _ Hlt).
  - right. split; [done|]. split; [done|]. intros Hthr.
    unfold skip_reasons, keep_decision in *.
    unfold PyFloat.le, PyFloat.ge, PyFloat.gt, PyFloat.lt in *.
    destruct (SFleb ads PyFloat.zero) eqn:Ha; [done|].
    destruct (SFleb thr PyFloat.zero) eqn:Ht; [done|].
    destruct (SFleb thr stock) eqn:Hs; [done|]. exfalso.
    assert (∀ x y, PyFloat.is_nan x = false → PyFloat.is_nan y = false →
                   SFleb x y = false → SFltb y x = true) as Hyes.
    { intros x y Hx Hy Hle. destruct (SFltb y x) eqn:Hlt; [done|].
      by rewrite (SFleb_of_not_ltb x y Hx Hy Hlt) in Hle. }
    assert (PyFloat.is_nan PyFloat.zero = false) as Hzero by done.
    rewrite (Hyes _ _ Hads Hzero Ha), (Hyes _ _ Hthr Hzero Ht),
      (Hyes _ _ Hthr Hstock Hs) in Hkeep.
    done.
Qed.

Local Abbreviation consistent :=
  (λ d, d_decision d = "keep"%string ∧ d_reason_if_skip d = []
        ∨ d_decision d = "skip"%string
          ∧ (PyFloat.is_nan (d_threshold d) = false →
             d_reason_if_skip d ≠ [])).

Local Abbreviation kept d := (bool_decide (d_decision d = "keep"%string)).

(** With debug on, the loop appends one record per scanned row and one
    alert per record that says [keep]. *)
Lemma scan_debug rows : ∀ alerts dbg alerts' dbg',
  scan db company_id since lookback_days limit true products warehouses
    rows alerts dbg = Ok (alerts', dbg') →
  ∃ more_alerts more_dbg,
    alerts' = alerts ++ more_alerts ∧ dbg' = dbg ++ more_dbg
    ∧ Forall consistent more_dbg
    ∧ length more_alerts = length (filter (λ d, kept d = true) more_dbg).
Proof.
  induction rows as [|[[pid wid] qty] rows IH];
    intros alerts dbg alerts' dbg' Hscan; cbn [scan] in Hscan.
  { injection Hscan as <- <-. exists [], []. by rewrite !app_nil_r. }
  destruct (products !! pid) as [p|]; [|by eapply IH].
  destruct (warehouses !! wid) as [w|]; [|by eapply IH].
  destruct (scan_row db company_id since lookback_days p w pid wid qty)
    as [[d k]|] eqn:Hrow; [|done].
  cbn [mbind result_bind] in Hscan.
  apply scan_row_debug in Hrow as Hd.
  assert (consistent d) as Hcons by (cbv beta; tauto).
  assert (∀ more_alerts more_dbg,
    alerts' = (alerts ++ option_list k) ++ more_alerts →
    dbg' = (dbg ++ [d]) ++ more_dbg →
    Forall consistent more_dbg →
    length more_alerts = length (filter (λ d, kept d = true) more_dbg) →
    ∃ more_alerts more_dbg,
      alerts' = alerts ++ more_alerts ∧ dbg' = dbg ++ more_dbg
      ∧ Forall consistent more_dbg
      ∧ length more_alerts = length (filter (λ d, kept d = true) more_dbg))
    as Hstep.
  { intros ma md -> -> Hf Hlen. exists (option_list k ++ ma), (d :: md).
    rewrite <- !app_assoc. split; [done|]. split; [done|].
    split; [by constructor|].
    rewrite length_app, Hlen.
    destruct Hd as [(Hdec & [a ->] & _)|(Hdec & -> & _)].
    - rewrite filter_cons_True by (by rewrite Hdec). done.
    - rewrite filter_cons_False by (by rewrite Hdec). done. }
  destruct k as [a|].
  - destruct (limit <=? _).
    + injection Hscan as <- <-. apply (Hstep [] []); by rewrite ?app_nil_r.
    + destruct (IH _ _ _ _ Hscan) as (ma & md & Ha & Hm & Hf & Hlen).
      by apply (Hstep ma md).
  - destruct (IH _ _ _ _ Hscan) as (ma & md & Ha & Hm & Hf & Hlen).
    apply (Hstep ma md); try done. by rewrite app_nil_r.
Qed.

End DebugRecords.

Section DebugResponse.

Import Alerts.

Variable db : DB.t.
Variables now company_id : Z.

(** X9. With [debug=1] the response carries the debug records, and they
    explain the decisions: a record that says [keep] has no skip reason,
    a record that says [skip] has at least one unless its threshold is not
    a number, and for a limit of at least one the number of alerts equals
    the number of records that say [keep]. *)
Theorem debug_records_explain_decisions req alerts total dbg status limit :
  low_stock_alerts db now company_id req
  = Ok (AlertsBody alerts total dbg, status) →
  arg_debug req = Some "1"%string →
  int_arg (arg_limit req) 100 = Ok limit →
  ∃ records,
    dbg = Some records
    ∧ (∀ d, d ∈ records →
         d_decision d = "keep"%string ∧ d_reason_if_skip d = []
         ∨ d_decision d = "skip"%string
           ∧ (PyFloat.is_nan (d_threshold d) = false →
              d_reason_if_skip d ≠ []))
    ∧ (1 ≤ limit →
       length alerts
       = length (filter (λ d, d_decision d = "keep"%string) records)).
Proof.
  intros (c & Hc & -> & _ & -> & _)%response_inv Hdebug Hlimit.
  destruct (collect_inv db now company_id req c Hc)
    as (lb & tw & since & q & records & _ & Hlim & _ & _ & Hd & [_ Hscan]
        & Hal & Hrec).
  rewrite bool_decide_eq_true_2 in Hd by done. rewrite Hd in *.
  assert (c_limit c = limit) as Hcl by congruence.
  rewrite Hrec. exists records. split; [done|].
  destruct (scan_debug _ _ _ _ _ _ _ _ _ _ _ _ Hscan)
    as (ma & md & Ha & Hm & Hf & Hlen).
  cbn [app] in Ha, Hm. subst ma md. split.
  - intros d Hin. rewrite Forall_forall in Hf. by apply Hf.
  - intros Hpos.
    replace (c_limit c <? _) with false.
    + rewrite Hal, sort_by_length, Hlen. f_equal.
      apply list_filter_iff. intros d. by rewrite bool_decide_eq_true.
    + symmetry. apply Z.ltb_ge.
      rewrite Hal, sort_by_length, length_take. lia.
Qed.

(** X10. The [debug] flag changes nothing but the [debug] key: two requests
    that differ only in [debug] raise the same exception or get the same
    error, or get the same alerts, the same [total_alerts] and the same
    status. *)
Theorem debug_does_not_change_alerts lookback limit warehouse debug debug' :
  match low_stock_alerts db now company_id
          (mk_args lookback limit warehouse debug),
        low_stock_alerts db now company_id
          (mk_args lookback limit warehouse debug')
  with
  | Ok (AlertsBody alerts total _, status),
    Ok (AlertsBody alerts' total' _, status') =>
      alerts = alerts' ∧ total = total' ∧ status = status'
  | r, r' => r = r'
  end.
Proof.
  pose proof (collect_cases db now company_id
    (mk_args lookback limit warehouse debug)) as H1.
  pose proof (collect_cases db now company_id
    (mk_args lookback limit warehouse debug')) as H2.
  cbn [arg_lookback_days arg_limit arg_warehouse_id] in H1, H2.
  unfold low_stock_alerts.
  destruct (int_arg lookback 30) as [lb|] eqn:Hlb; [|by rewrite H1, H2].
  destruct (int_arg limit 100) as [lim|] eqn:Hlim; [|by rewrite H1, H2].
  destruct (parse_warehouse warehouse) as [tw|] eqn:Htw; [|by rewrite H1, H2].
  destruct (since_of now lb) as [since|] eqn:Hsince; [|by rewrite H1, H2].
  destruct H1 as [c1 Hc1], H2 as [c2 Hc2]. rewrite Hc1, Hc2.
  cbn [mbind result_bind]. unfold respond.
  destruct (collect_inv _ _ _ _ _ Hc1)
    as (lb1 & tw1 & s1 & q1 & ? & Hlb1 & Hlim1 & Htw1 & Hs1 & _ & [Hq1 _]
        & Hal1 & _).
  destruct (collect_inv _ _ _ _ _ Hc2)
    as (lb2 & tw2 & s2 & q2 & ? & Hlb2 & Hlim2 & Htw2 & Hs2 & _ & [Hq2 _]
        & Hal2 & _).
  cbn [arg_lookback_days arg_limit arg_warehouse_id] in *.
  assert (lb1 = lb2) as -> by congruence.
  assert (tw1 = tw2) as -> by congruence.
  assert (s1 = s2) as -> by congruence.
  assert (q1 = q2) as -> by congruence.
  assert (c_limit c1 = c_limit c2) as Hl by congruence.
  assert (c_alerts c1 = c_alerts c2) as Hal by congruence.
  by rewrite Hl, Hal.
Qed.

End DebugResponse.

Lemma debug_records_explain_decisions_witness :
  let req := Alerts.mk_args None None None (Some "1"%string) in
  Alerts.int_arg (Alerts.arg_limit req) 100 = Ok 100
  ∧ 1 ≤ 100
  ∧ ∃ records,
      Alerts.low_stock_alerts Demo.store Demo.today 7 req
      = Ok (Alerts.AlertsBody [Demo.gadget_alert; Demo.widget_alert] 2
              (Some records), 200)
      ∧ length [Demo.gadget_alert; Demo.widget_alert]
        = length (filter (λ d, Alerts.d_decision d = "keep"%string) records).
Proof.
  intros req. split; [reflexivity|]. split; [lia|].
  assert (∃ dbg,
    Alerts.low_stock_alerts Demo.store Demo.today 7 req
    = Ok (Alerts.AlertsBody [Demo.gadget_alert; Demo.widget_alert] 2 dbg,
          200)) as [dbg Hresp] by (eexists; vm_compute; reflexivity).
  destruct (debug_records_explain_decisions Demo.store Demo.today 7 req _ _ _
              _ 100 Hresp eq_refl eq_refl) as (records & -> & _ & Hcount).
  exists records. split; [exact Hresp|]. apply Hcount. lia.
Defined.

(** ** What the three lookups leave out *)

Section Frames.

Import Alerts.

(** X11. [_ads] counts only the lines of the company's own shipped or
    completed orders of the window, for the product and the warehouse
    asked: an order line of another product or warehouse, or whose order
    is of another company, older than the window or in another status,
    does not change the result. *)
Theorem ads_ignores_other_order_lines db db' company_id product_id
    warehouse_id since lookback_days l1 l2 x :
  DB.orders db' = DB.orders db →
  DB.order_lines db = l1 ++ l2 →
  DB.order_lines db' = l1 ++ x :: l2 →
  (∀ o, o ∈ DB.orders db → Order.id o = OrderLine.order_id x →
        Order.company_id o ≠ company_id
        ∨ Order.created_at o < since
        ∨ Order.status o ∉ ["shipped"; "completed"]%string)
  ∨ OrderLine.product_id x ≠ product_id
  ∨ OrderLine.warehouse_id x ≠ warehouse_id →
  _ads db' company_id product_id warehouse_id since lookback_days
  = _ads db company_id product_id warehouse_id since lookback_days.
Proof.
  intros Horders Hlines Hlines' Hother.
  assert (recent_orders db' company_id since
          = recent_orders db company_id since) as Hrecent.
  { unfold recent_orders. by rewrite Horders. }
  assert (matching_lines db' company_id product_id warehouse_id since
          = matching_lines db company_id product_id warehouse_id since)
    as Hmatch.
  { unfold matching_lines. rewrite Hrecent, Hlines, Hlines'.
    rewrite !filter_app. f_equal. apply filter_cons_False.
    intros (Hin & Hp & Hw). destruct Hother as [Hno|[?|?]]; try done.
    unfold recent_orders in Hin.
    apply list_elem_of_fmap in Hin as (o & Hid & Ho).
    apply list_elem_of_filter in Ho as [(Hc & Ht & Hs) Ho].
    destruct (Hno o Ho (eq_sym Hid)) as [?|[?|?]]; [done|lia|done]. }
  unfold _ads, ads_total. by rewrite Hmatch.
Qed.

(** X12. [_threshold] reads only the overrides of the company and the
    product asked: an override row of another company or product, or for
    another warehouse, does not change the result. *)
Theorem threshold_ignores_other_overrides db db' company_id product
    warehouse_id l1 l2 x :
  DB.product_types db' = DB.product_types db →
  DB.product_thresholds db = l1 ++ l2 →
  DB.product_thresholds db' = l1 ++ x :: l2 →
  ProductThreshold.company_id x ≠ company_id
  ∨ ProductThreshold.product_id x ≠ Product.id product
  ∨ (∃ w, ProductThreshold.warehouse_id x = Some w ∧ w ≠ warehouse_id) →
  _threshold db' company_id product warehouse_id
  = _threshold db company_id product warehouse_id.
Proof.
  intros Htypes Hrows Hrows' Hother.
  assert (warehouse_overrides db' company_id product warehouse_id
          = warehouse_overrides db company_id product warehouse_id) as Hwh.
  { unfold warehouse_overrides. rewrite Hrows, Hrows', !filter_app.
    do 2 f_equal. apply filter_cons_False. intros (Hc & Hp & Hw).
    destruct Hother as [?|[?|(w & Hw' & ?)]]; congruence. }
  assert (product_overrides db' company_id product
          = product_overrides db company_id product) as Hprod.
  { unfold product_overrides. rewrite Hrows, Hrows', !filter_app.
    do 2 f_equal. apply filter_cons_False. intros (Hc & Hp & Hw).
    destruct Hother as [?|[?|(w & Hw' & ?)]]; congruence. }
  unfold _threshold, type_defaults. by rewrite Hwh, Hprod, Htypes.
Qed.

(** X13. The supplier [_best_supplier] returns is a row of the supplier
    table that a link of this company and this product points to.  It
    returns [None] only when the product has no link, or when the link it
    chose names a supplier id without a row. *)
Theorem best_supplier_is_linked db company_id product_id :
  match _best_supplier db company_id product_id with
  | Some sup =>
      sup ∈ DB.suppliers db
      ∧ ∃ l, l ∈ DB.product_suppliers db
          ∧ ProductSupplier.company_id l = company_id
          ∧ ProductSupplier.product_id l = product_id
          ∧ ProductSupplier.supplier_id l = Supplier.id sup
  | None =>
      all_links db company_id product_id = []
      ∨ ∃ l, l ∈ all_links db company_id product_id
          ∧ _best_supplier_id db company_id product_id
            = Some (ProductSupplier.supplier_id l)
          ∧ ∀ s, s ∈ DB.suppliers db →
                 Supplier.id s ≠ ProductSupplier.supplier_id l
  end.
Proof.
  assert (∀ l, l ∈ preferred_links db company_id product_id →
               l ∈ all_links db company_id product_id) as Hsub.
  { intros l [(? & ? & ?) ?]%list_elem_of_filter.
    by apply list_elem_of_filter. }
  assert (match _best_supplier_id db company_id product_id with
          | Some sid =>
              ∃ l, l ∈ all_links db company_id product_id
                ∧ ProductSupplier.supplier_id l = sid
          | None => all_links db company_id product_id = []
          end) as Hid.
  { rewrite best_supplier_id_unfold.
    pose proof (best_link (preferred_links db company_id product_id)) as Hp.
    pose proof (best_link (all_links db company_id product_id)) as Ha.
    destruct (head (Sql.sort_by _ (preferred_links _ _ _))) as [l|]; cbn.
    - exists l. split; [apply Hsub; tauto|done].
    - destruct (head (Sql.sort_by _ (all_links _ _ _))) as [l|]; cbn;
        [|done].
      exists l. split; [tauto|done]. }
  unfold _best_supplier.
  destruct (_best_supplier_id db company_id product_id) as [sid|];
    [|by left].
  destruct Hid as (l & Hl & Hsid). unfold get_supplier.
  destruct (head (filter _ (DB.suppliers db))) as [sup|] eqn:Hhd.
  - apply head_Some_elem_of in Hhd.
    apply list_elem_of_filter in Hhd as [Hsup Hin]. split; [done|].
    apply list_elem_of_filter in Hl as [[? ?] ?].
    exists l. repeat split; congruence.
  - right. exists l. split; [done|]. split; [by rewrite Hsid|].
    intros s Hs Heq. apply head_None in Hhd.
    assert (s ∈ filter (λ s, Supplier.id s = sid) (DB.suppliers db)) as Hin
      by (apply list_elem_of_filter; split; [congruence|done]).
    rewrite Hhd in Hin. by apply elem_of_nil in Hin.
Qed.

End Frames.

Lemma ads_ignores_other_order_lines_witness :
  let gadget_line := OrderLine.mk 1 2 1 (Some 30) in
  OrderLine.product_id gadget_line ≠ 1
  ∧ Alerts._ads Demo.store 7 1 1 Demo.window_start 30
    = Alerts._ads (Demo.with_order_lines [OrderLine.mk 1 1 1 (Some 30)])
        7 1 1 Demo.window_start 30.
Proof.
  intros gadget_line.
  assert (OrderLine.product_id gadget_line ≠ 1) as Hother
    by (vm_compute; discriminate).
  split; [exact Hother|].
  apply (ads_ignores_other_order_lines
           (Demo.with_order_lines [OrderLine.mk 1 1 1 (Some 30)]) Demo.store
           7 1 1 Demo.window_start 30 [OrderLine.mk 1 1 1 (Some 30)] []
           gadget_line);
    [reflexivity|reflexivity|reflexivity|].
  right. left. exact Hother.
Defined.

Lemma threshold_ignores_other_overrides_witness :
  let other := ProductThreshold.mk 8 1 (Some 1) (Demo.dbl 99) in
  ProductThreshold.company_id other ≠ 7
  ∧ Alerts._threshold
      (Demo.with_thresholds (other :: DB.product_thresholds Demo.store))
      7 Demo.widget 1
    = Alerts._threshold Demo.store 7 Demo.widget 1.
Proof.
  intros other.
  assert (ProductThreshold.company_id other ≠ 7) as Hother
    by (vm_compute; discriminate).
  split; [exact Hother|].
  apply (threshold_ignores_other_overrides Demo.store
           (Demo.with_thresholds (other :: DB.product_thresholds Demo.store))
           7 Demo.widget 1 [] (DB.product_thresholds Demo.store) other);
    [reflexivity|reflexivity|reflexivity|].
  left. exact Hother.
Defined.

(** ** Money parsing: every outcome, and the size of the rounding *)

Section MoneyOutcomes.

Import PyDecimal Money.

(** X14. Whatever the input, [as_money] ends in one of three ways: it
    raises [ValueError] and nothing else; or it returns a finite amount
    with exponent [-2] and a coefficient below [10 ^ 28], with the sign of
    the literal; or it hands back a quiet NaN, which happens only for a
    quiet-NaN literal.  It never returns an infinity or a signaling
    NaN. *)
Theorem as_money_outcomes v :
  match as_money v with
  | Ok (Finite s c e) =>
      e = -2 ∧ fits_precision c
      ∧ ∃ c0 e0, of_string (py_str v) = Ok (Finite s c0 e0)
  | Ok (NaN s signaling _) =>
      signaling = false ∧ ∃ p, of_string (py_str v) = Ok (NaN s false p)
  | Ok (Infinity _) => False
  | Raise x => x = ValueError
  end.
Proof.
  pose proof (as_money_cases v) as Hcases.
  destruct (of_string (py_str v)) as [[s c e|s|s [] p]|x]; rewrite Hcases;
    try done.
  - destruct (N.ltb_spec (half_up_cents c e) (pow10 context_prec)); [|done].
    split; [done|]. split; [done|]. by exists c, e.
  - split; [done|]. by exists p.
Qed.

(** X15. The amount [as_money] returns is the amount of the literal
    rounded to the nearest cent, ties away from zero: a literal with at most
    two fractional digits keeps its value exactly, and otherwise the result
    differs from it by at most half a cent, a difference of exactly half a
    cent being rounded up in magnitude.  The sign is kept. *)
Theorem as_money_within_half_a_cent v s c e :
  as_money v = Ok (Finite s c e) →
  ∃ c0 e0,
    of_string (py_str v) = Ok (Finite s c0 e0)
    ∧ if -2 <=? e0 then c = (c0 * pow10 (e0 + 2))%N
      else
        let unit := pow10 (-2 - e0) in
        (2 * (c * unit) ≤ 2 * c0 + unit ∧ 2 * c0 < 2 * (c * unit) + unit)%N.
Proof.
  pose proof (as_money_cases v) as Hcases.
  destruct (of_string (py_str v)) as [[s0 c0 e0|s0|s0 [] p]|x];
    rewrite Hcases; try done.
  destruct (N.ltb_spec (half_up_cents c0 e0) (pow10 context_prec)); [|done].
  intros [= -> <- <-]. exists c0, e0. split; [done|].
  unfold half_up_cents. destruct (-2 <=? e0); [done|]. cbv zeta.
  pose proof (pow10_pos (-2 - e0)) as Hpos.
  set (unit := pow10 (-2 - e0)) in *.
  pose proof (N.Div0.div_mod (2 * c0 + unit) (2 * unit)) as Hdm.
  pose proof (N.mod_lt (2 * c0 + unit) (2 * unit) ltac:(lia)) as Hmod.
  generalize dependent ((2 * c0 + unit) / (2 * unit))%N.
  generalize dependent ((2 * c0 + unit) mod (2 * unit))%N.
  intros. lia.
Qed.

End MoneyOutcomes.

Lemma as_money_within_half_a_cent_witness :
  Money.as_money (PyStr "19.995") = Ok (PyDecimal.Finite false 2000 (-2))
  ∧ ∃ c0 e0,
      PyDecimal.of_string (py_str (PyStr "19.995"))
      = Ok (PyDecimal.Finite false c0 e0).
Proof.
  assert (Money.as_money (PyStr "19.995")
          = Ok (PyDecimal.Finite false 2000 (-2))) as H
    by (vm_compute; reflexivity).
  split; [exact H|].
  destruct (as_money_within_half_a_cent _ _ _ _ H) as (c0 & e0 & Hparse & _).
  exists c0, e0. exact Hparse.
Defined.

(** ** Product creation: validation, outcomes and the created rows *)

Section Validation.

Import Products.

Lemma stripped_field_raises payload key e :
  stripped_field payload key = Raise e → e = AttributeError.
Proof.
  unfold stripped_field. repeat case_match; congruence.
Qed.

(** The validation block once both fields have been stripped. *)
Lemma validate_cases payload name sku :
  stripped_field payload "name" = Ok name →
  stripped_field payload "sku" = Ok sku →
  let price := Money.as_money (default PyNone (payload !! "price"%string)) in
  let quantity :=
    py_int (default (PyInt 0) (payload !! "initial_quantity"%string)) in
  let bad_quantity :=
    match quantity with Ok n => n <? 0 | Raise _ => true end in
  match validate payload with
  | Ok (inr (n, k, p, q)) =>
      n = name ∧ k = sku ∧ name ≠ ""%string ∧ sku ≠ ""%string
      ∧ price = Ok p ∧ quantity = Ok q ∧ 0 ≤ q
  | Ok (inl errors) =>
      errors ≠ ∅
      ∧ errors !! "name"%string
        = (if String.eqb name "" then Some "required"%string else None)
      ∧ errors !! "sku"%string
        = (if String.eqb sku "" then Some "required"%string else None)
      ∧ errors !! "price"%string
        = (if is_ok price then None else Some "invalid_decimal"%string)
      ∧ errors !! "initial_quantity"%string
        = (if bad_quantity then Some "must_be_non_negative_integer"%string
           else None)
  | Raise _ => False
  end.
Proof.
  intros Hname Hsku price quantity bad_quantity. unfold validate.
  rewrite Hname, Hsku. cbn [mbind result_bind]. fold price. fold quantity.
  subst bad_quantity.
  destruct (String.eqb_spec name ""), (String.eqb_spec sku "");
    destruct price as [p|]; destruct quantity as [q|];
    cbn [mbind result_bind is_ok];
    try destruct (Z.ltb_spec q 0); cbn [is_ok];
    try case_bool_decide;
    repeat match goal with
    | |- _ ∧ _ => split
    | |- _ ≠ ∅ => try done; by apply insert_non_empty
    end;
    try done; try lia.
  all: match goal with
       | H : ¬ _ |- _ => destruct H; by apply insert_non_empty
       end.
Qed.

Lemma validate_errors_nonempty payload errors :
  validate payload = Ok (inl errors) → errors ≠ ∅.
Proof.
  intros Hv.
  destruct (stripped_field payload "name") as [name|] eqn:Hname.
  2:{ unfold validate in Hv. by rewrite Hname in Hv. }
  destruct (stripped_field payload "sku") as [sku|] eqn:Hsku.
  2:{ unfold validate in Hv. by rewrite Hname, Hsku in Hv. }
  pose proof (validate_cases payload name sku Hname Hsku) as H.
  cbv zeta in H. rewrite Hv in H. tauto.
Qed.

(** X16. The validation of [create_product] reports every invalid field
    at once, for a body whose values are [null], booleans, integers or
    strings.  A [name] or [sku] that is truthy and not a string makes the
    handler raise [AttributeError]; otherwise the request either passes,
    with a non-empty stripped name and sku, the price [as_money] returns
    and the quantity [int(initial_quantity)], which is zero or more (zero
    when the field is absent), or it is answered with a non-empty [errors]
    dictionary that has [name] and [sku] set to [required] exactly when
    the stripped field is empty, [price] set exactly when [as_money]
    raises, and [initial_quantity] set exactly when [int] of the value
    raises or gives a negative number. *)
Theorem validate_reports_every_error payload :
  let price := Money.as_money (default PyNone (payload !! "price"%string)) in
  let quantity :=
    py_int (default (PyInt 0) (payload !! "initial_quantity"%string)) in
  let bad_quantity :=
    match quantity with Ok n => n <? 0 | Raise _ => true end in
  match stripped_field payload "name", stripped_field payload "sku" with
  | Ok name, Ok sku =>
      match validate payload with
      | Ok (inr (n, k, p, q)) =>
          n = name ∧ k = sku ∧ name ≠ ""%string ∧ sku ≠ ""%string
          ∧ price = Ok p ∧ quantity = Ok q ∧ 0 ≤ q
      | Ok (inl errors) =>
          errors ≠ ∅
          ∧ errors !! "name"%string
            = (if String.eqb name "" then Some "required"%string else None)
          ∧ errors !! "sku"%string
            = (if String.eqb sku "" then Some "required"%string else None)
          ∧ errors !! "price"%string
            = (if is_ok price then None else Some "invalid_decimal"%string)
          ∧ errors !! "initial_quantity"%string
            = (if bad_quantity then Some "must_be_non_negative_integer"%string
               else None)
      | Raise _ => False
      end
  | _, _ => validate payload = Raise AttributeError
  end.
Proof.
  intros price quantity bad_quantity.
  destruct (stripped_field payload "name") as [name|e] eqn:Hname.
  2:{ apply stripped_field_raises in Hname as Hx. subst e.
      unfold validate. by rewrite Hname. }
  destruct (stripped_field payload "sku") as [sku|e] eqn:Hsku.
  2:{ apply stripped_field_raises in Hsku as Hx. subst e.
      unfold validate. by rewrite Hname, Hsku. }
  by apply validate_cases.
Qed.

End Validation.

(** A row appended to a table in which nothing matches is the only
    match. *)
Lemma filter_app_new {A} (P : A → Prop) `{!∀ x, Decision (P x)} l x :
  (∀ y, y ∈ l → ¬ P y) → P x → filter P (l ++ [x]) = [x].
Proof.
  intros Hold Hnew. rewrite filter_app, filter_cons_True by done.
  replace (filter P l) with (@nil A); [done|].
  symmetry. apply elem_of_nil_inv.
  intros y [HP Hy]%list_elem_of_filter. by apply (Hold y).
Qed.

Section Creation.

Import Products.

(** The id given to a new row is above every id in use. *)
Lemma next_product_id_fresh db p :
  p ∈ DB.products db → Product.id p < next_product_id db.
Proof.
  unfold next_product_id. induction (DB.products db) as [|x l IH].
  { by intros ?%elem_of_nil. }
  cbn [fmap list_fmap foldr].
  intros [->|Hin]%elem_of_cons; [lia|]. specialize (IH Hin). lia.
Qed.

Lemma create_product_unfold db json :
  create_product db json
  = let payload := default ∅ json in
    let warehouse_id := default PyNone (payload !! "warehouse_id"%string) in
    match validate payload with
    | Raise e => (db, Raise e)
    | Ok (inl errors) => (db, Ok (Errors errors, 400))
    | Ok (inr (name, sku, price, initial_quantity)) =>
        match warehouse_check db warehouse_id with
        | Raise e => (db, Raise e)
        | Ok false => (db, Ok (Error "warehouse_not_found", 404))
        | Ok true =>
            run_transaction db name sku price initial_quantity warehouse_id
        end
    end.
Proof. reflexivity. Qed.

(** Either the store is as it was, or a product was created. *)
Lemma create_product_same_or_created db json db' resp :
  create_product db json = (db', resp) →
  db' = db ∨ ∃ id status, resp = Ok (Created id, status).
Proof.
  rewrite create_product_unfold. cbv zeta.
  destruct (validate (default ∅ json)) as [[errors|[[[n k] p] q]]|e];
    [by intros [= <- _]; left| |by intros [= <- _]; left].
  destruct (warehouse_check db _) as [[]|e];
    [|by intros [= <- _]; left|by intros [= <- _]; left].
  pose proof (run_transaction_atomic db n k p q
    (default PyNone ((default ∅ json) !! "warehouse_id"%string))) as Hrun.
  destruct (run_transaction _ _ _ _ _ _) as [db1 resp1].
  intros [= <- <-].
  destruct Hrun as [[id ->]|[-> _]]; [right; by eexists _, _|by left].
Qed.

(** X17. [create_product] changes the store only when it answers 201.
    Its other responses are 400 with a non-empty [errors] dictionary, 404
    [warehouse_not_found], 409 [sku_already_exists] and 500, and each of
    them, like every exception that escapes the handler, leaves the store
    exactly as it was. *)
Theorem create_product_outcomes db json :
  let '(db', resp) := create_product db json in
  match resp with
  | Ok (Created id, status) => status = 201
  | Ok (Errors errors, status) => status = 400 ∧ errors ≠ ∅ ∧ db' = db
  | Ok (Error e, status) =>
      db' = db
      ∧ (e = "warehouse_not_found"%string ∧ status = 404
         ∨ e = "sku_already_exists"%string ∧ status = 409)
  | Ok (InternalError e, status) => status = 500 ∧ db' = db
  | Raise e => db' = db
  end.
Proof.
  rewrite create_product_unfold. cbv zeta.
  destruct (validate (default ∅ json)) as [[errors|[[[n k] p] q]]|e] eqn:Hv;
    [|destruct (warehouse_check db _) as [[]|e] eqn:Hw|]; try done.
  - split; [done|]. split; [|done]. by eapply validate_errors_nonempty.
  - pose proof (run_transaction_atomic db n k p q
      (default PyNone ((default ∅ json) !! "warehouse_id"%string))) as Hrun.
    destruct (run_transaction _ _ _ _ _ _) as [db' resp].
    destruct Hrun as [[id ->]|[-> [->|[e ->]]]]; [done| |done].
    split; [done|]. by right.
  - split; [done|]. by left.
Qed.

Lemma find_warehouse_int db w :
  find_warehouse db (PyInt w)
  = scalar_one_or_none
      (Warehouse.id <$> filter (λ r, Warehouse.id r = w) (DB.warehouses db)).
Proof.
  unfold find_warehouse. do 2 f_equal. apply list_filter_iff.
  intros r. cbn. split; congruence.
Qed.

(** X18. The warehouse is checked before anything is written and before
    the sku is looked at: a valid request that names a warehouse id no
    warehouse row has is answered 404 [warehouse_not_found] and leaves the
    store unchanged, whether or not its sku is already taken. *)
Theorem unknown_warehouse_is_refused_first db json name sku price quantity w :
  let payload := default ∅ json in
  validate payload = Ok (inr (name, sku, price, quantity)) →
  payload !! "warehouse_id"%string = Some (PyInt w) →
  (∀ r, r ∈ DB.warehouses db → Warehouse.id r ≠ w) →
  create_product db json = (db, Ok (Error "warehouse_not_found", 404)).
Proof.
  intros payload Hvalid Hwid Hnone. rewrite create_product_unfold.
  fold payload. cbv zeta. rewrite Hvalid, Hwid. change (default PyNone (Some (PyInt w))) with (PyInt w).
    cbn [warehouse_check].
  rewrite find_warehouse_int.
  replace (filter _ (DB.warehouses db)) with (@nil Warehouse.t); [done|].
  symmetry. apply elem_of_nil_inv. intros r [Hr Hin]%list_elem_of_filter.
  by apply (Hnone r).
Qed.

(** X19. A valid request with a sku that is not yet taken is answered
    201 with the id of the new product.  Without a [warehouse_id] the
    store gains exactly the product row: the stripped name and sku, the
    price rounded by [as_money], no product type.  With the id of an
    existing warehouse it also gains exactly one inventory row for the new
    product and that warehouse, holding the initial quantity (no inventory
    row can refer to the id before the product exists). *)
Theorem create_product_creates db json name sku price quantity :
  let payload := default ∅ json in
  let id := next_product_id db in
  let products :=
    DB.products db ++ [Product.mk id name sku price None] in
  validate payload = Ok (inr (name, sku, price, quantity)) →
  sku ∉ (Product.sku <$> DB.products db) →
  (default PyNone (payload !! "warehouse_id"%string) = PyNone →
   create_product db json
   = (with_products db products, Ok (Created id, 201)))
  ∧ (∀ w r,
       payload !! "warehouse_id"%string = Some (PyInt w) →
       filter (λ r, Warehouse.id r = w) (DB.warehouses db) = [r] →
       (∀ i, i ∈ DB.inventory db → Inventory.product_id i ≠ id) →
       create_product db json
       = (with_inventory (with_products db products)
            (DB.inventory db ++ [Inventory.mk id w (Some quantity)]),
          Ok (Created id, 201))).
Proof.
  intros payload id products Hvalid Hfresh.
  assert (add_product_flush (begin db) name sku price
          = (mk_session db (with_products db products),
             Ok (Product.mk id name sku price None))) as Hflush.
  { unfold add_product_flush. cbn [pending begin committed].
    by rewrite bool_decide_eq_false_2. }
  split.
  - intros Hwid. rewrite create_product_unfold. fold payload. cbv zeta.
    rewrite Hvalid, Hwid. cbn [warehouse_check].
    unfold run_transaction, create_in_transaction. by rewrite Hflush.
  - intros w r Hwid Hone Hinv. rewrite create_product_unfold. fold payload.
    cbv zeta. rewrite Hvalid, Hwid. change (default PyNone (Some (PyInt w))) with (PyInt w).
    cbn [warehouse_check].
    rewrite find_warehouse_int, Hone. cbn.
    unfold run_transaction, create_in_transaction. rewrite Hflush.
    cbn [pending Product.id int_param].
    replace (filter _ (DB.inventory (with_products db products)))
      with (@nil Inventory.t); [done|].
    symmetry. apply elem_of_nil_inv. intros i [[Hi _] Hin]%list_elem_of_filter.
    by apply (Hinv i).
Qed.

(** What the statements of the [try] block have done when they succeed. *)
Lemma create_in_transaction_ok s name sku price quantity warehouse_id s' id :
  create_in_transaction s name sku price quantity warehouse_id = (s', Ok id) →
  (sku ∉ Product.sku <$> DB.products (pending s))
  ∧ id = next_product_id (pending s)
  ∧ DB.products (pending s')
    = DB.products (pending s) ++ [Product.mk id name sku price None]
  ∧ DB.warehouses (pending s') = DB.warehouses (pending s)
  ∧ DB.product_types (pending s') = DB.product_types (pending s)
  ∧ DB.product_thresholds (pending s') = DB.product_thresholds (pending s)
  ∧ DB.orders (pending s') = DB.orders (pending s)
  ∧ DB.order_lines (pending s') = DB.order_lines (pending s)
  ∧ DB.suppliers (pending s') = DB.suppliers (pending s)
  ∧ DB.product_suppliers (pending s') = DB.product_suppliers (pending s)
  ∧ (∀ i, Inventory.product_id i ≠ id →
          i ∈ DB.inventory (pending s') ↔ i ∈ DB.inventory (pending s)).
Proof.
  unfold create_in_transaction, add_product_flush.
  case_bool_decide as Hdup; [done|].
  cbn [pending committed Product.id].
  set (new_id := next_product_id (pending s)).
  set (hit := λ i : Inventory.t,
         Inventory.product_id i = new_id
         ∧ Some (Inventory.warehouse_id i) = int_param warehouse_id).
  match goal with
  | |- _ → ?G =>
      assert (∀ inv,
        (∀ i, Inventory.product_id i ≠ new_id →
              i ∈ inv ↔ i ∈ DB.inventory (pending s)) →
        (mk_session (committed s)
           (with_inventory
              (with_products (pending s)
                 (DB.products (pending s)
                  ++ [Product.mk new_id name sku price None])) inv),
         @Ok Z new_id) = (s', Ok id) →
        G) as Hupsert
  end.
  all: swap 1 2.
  - destruct warehouse_id eqn:Hwid.
    + intros [= <- <-]. cbn. repeat split; done.
    + destruct (scalar_one_or_none _) as [[row|]|e]; [| |done].
      * apply Hupsert. intros i Hi. rewrite list_elem_of_fmap. split.
        -- intros (j & -> & Hj). case_bool_decide as Hhit; [|done].
           cbn in Hi. tauto.
        -- intros Hin. exists i. split; [|done].
           case_bool_decide as Hhit; [tauto|done].
      * apply Hupsert. intros i Hi. rewrite elem_of_app. split; [|tauto].
        intros [?| ->%list_elem_of_singleton]; done.
    + destruct (scalar_one_or_none _) as [[row|]|e]; [| |done].
      * apply Hupsert. intros i Hi. rewrite list_elem_of_fmap. split.
        -- intros (j & -> & Hj). case_bool_decide as Hhit; [|done].
           cbn in Hi. tauto.
        -- intros Hin. exists i. split; [|done].
           case_bool_decide as Hhit; [tauto|done].
      * apply Hupsert. intros i Hi. rewrite elem_of_app. split; [|tauto].
        intros [?| ->%list_elem_of_singleton]; done.
    + destruct (scalar_one_or_none _) as [[row|]|e]; [| |done].
      * apply Hupsert. intros i Hi. rewrite list_elem_of_fmap. split.
        -- intros (j & -> & Hj). case_bool_decide as Hhit; [|done].
           cbn in Hi. tauto.
        -- intros Hin. exists i. split; [|done].
           case_bool_decide as Hhit; [tauto|done].
      * apply Hupsert. intros i Hi. rewrite elem_of_app. split; [|tauto].
        intros [?| ->%list_elem_of_singleton]; done.
  - intros inv Hinv [= <- <-]. cbn. repeat split; try done; by apply Hinv.
Qed.

(** What a 201 response says about the store. *)
Lemma created_inv db json db' id status :
  create_product db json = (db', Ok (Created id, status)) →
  ∃ name sku price quantity,
    validate (default ∅ json) = Ok (inr (name, sku, price, quantity))
    ∧ warehouse_check db
        (default PyNone ((default ∅ json) !! "warehouse_id"%string))
      = Ok true
    ∧ (sku ∉ Product.sku <$> DB.products db)
    ∧ id = next_product_id db
    ∧ DB.products db'
      = DB.products db ++ [Product.mk id name sku price None]
    ∧ DB.warehouses db' = DB.warehouses db
    ∧ DB.product_types db' = DB.product_types db
    ∧ DB.product_thresholds db' = DB.product_thresholds db
    ∧ DB.orders db' = DB.orders db
    ∧ DB.order_lines db' = DB.order_lines db
    ∧ DB.suppliers db' = DB.suppliers db
    ∧ DB.product_suppliers db' = DB.product_suppliers db
    ∧ (∀ i, Inventory.product_id i ≠ id →
            i ∈ DB.inventory db' ↔ i ∈ DB.inventory db).
Proof.
  rewrite create_product_unfold. cbv zeta.
  destruct (validate (default ∅ json)) as [[errors|[[[n k] p] q]]|e] eqn:Hv;
    [done| |done].
  destruct (warehouse_check db _) as [[]|e] eqn:Hw; [|done|done].
  unfold run_transaction.
  destruct (create_in_transaction _ _ _ _ _ _) as [s [new_id|e]] eqn:Hrun.
  - intros [= <- <- <-]. apply create_in_transaction_ok in Hrun.
    exists n, k, p, q. split; [done|]. split; [done|]. exact Hrun.
  - by destruct e.
Qed.

(** X20. Whatever the request and the outcome, [create_product] never
    touches the warehouses, product types, thresholds, orders, order
    lines, suppliers or supplier links, never changes or removes an
    existing product row, and never changes the inventory rows of existing
    products. *)
Theorem create_product_touches_nothing_else db json :
  let db' := (create_product db json).1 in
  DB.warehouses db' = DB.warehouses db
  ∧ DB.product_types db' = DB.product_types db
  ∧ DB.product_thresholds db' = DB.product_thresholds db
  ∧ DB.orders db' = DB.orders db
  ∧ DB.order_lines db' = DB.order_lines db
  ∧ DB.suppliers db' = DB.suppliers db
  ∧ DB.product_suppliers db' = DB.product_suppliers db
  ∧ DB.products db `prefix_of` DB.products db'
  ∧ (∀ i, Inventory.product_id i ≠ next_product_id db →
          i ∈ DB.inventory db' ↔ i ∈ DB.inventory db).
Proof.
  destruct (create_product db json) as [db' resp] eqn:Hcp. cbn [fst].
  match goal with |- ?G => assert (db' = db → G) as Hsame end.
  { intros ->. repeat split; done. }
  destruct (create_product_same_or_created _ _ _ _ Hcp)
    as [Heq|(id & status & ->)]; [by apply Hsame|].
  destruct (created_inv _ _ _ _ _ Hcp)
    as (n & k & p & q & _ & _ & _ & -> & Hp & ? & ? & ? & ? & ? & ? & ? & Hi).
  repeat split; try done; try (by apply Hi). rewrite Hp. by eexists.
Qed.

(** X21. Creation is not repeatable: once a request has been answered
    201, every later valid request with the same sku and the same
    [warehouse_id], the very same request included, is answered 409
    [sku_already_exists] and leaves the store as the first one left
    it. *)
Theorem create_product_is_not_repeatable db json db' id status name sku price
    quantity json' name' price' quantity' :
  create_product db json = (db', Ok (Created id, status)) →
  validate (default ∅ json) = Ok (inr (name, sku, price, quantity)) →
  validate (default ∅ json') = Ok (inr (name', sku, price', quantity')) →
  (default ∅ json') !! "warehouse_id"%string
  = (default ∅ json) !! "warehouse_id"%string →
  create_product db' json' = (db', Ok (Error "sku_already_exists", 409)).
Proof.
  intros Hcp Hv Hv' Hwid.
  destruct (created_inv _ _ _ _ _ Hcp)
    as (n & k & p & q & Hv0 & Hcheck & _ & -> & Hp & Hw & _).
  assert (k = sku) as -> by congruence.
  rewrite create_product_unfold. cbv zeta. rewrite Hv', Hwid.
  assert (warehouse_check db'
            (default PyNone ((default ∅ json) !! "warehouse_id"%string))
          = Ok true) as ->.
  { rewrite <- Hcheck. unfold warehouse_check, find_warehouse.
    by rewrite Hw. }
  unfold run_transaction, create_in_transaction.
  rewrite duplicate_sku_flush; [done|].
  cbn [pending begin]. rewrite Hp, fmap_app. apply elem_of_app. right.
  cbn. apply list_elem_of_here.
Qed.

Local Abbreviation hit_row new_id w :=
  (λ i : Inventory.t,
     Inventory.product_id i = new_id
     ∧ Some (Inventory.warehouse_id i) = Some w).

(** Setting the quantity of the rows that match keeps them matching. *)
Lemma filter_set_quantity new_id w quantity (l : list Inventory.t) :
  filter (hit_row new_id w)
    ((λ i, if bool_decide (hit_row new_id w i)
           then Inventory.mk (Inventory.product_id i)
                  (Inventory.warehouse_id i) (Some quantity)
           else i) <$> l)
  = (λ i, Inventory.mk (Inventory.product_id i)
            (Inventory.warehouse_id i) (Some quantity))
      <$> filter (hit_row new_id w) l.
Proof.
  induction l as [|x l IH]; [done|]. cbn [fmap list_fmap].
  destruct (decide (hit_row new_id w x)) as [Hx|Hx].
  - rewrite bool_decide_eq_true_2 by done.
    rewrite (filter_cons_True (hit_row new_id w) x) by done.
    rewrite filter_cons_True by done.
    cbn [fmap list_fmap]. f_equal. exact IH.
  - rewrite bool_decide_eq_false_2 by done.
    rewrite !filter_cons_False by done. exact IH.
Qed.

(** The inventory row of the new product after the upsert. *)
Lemma create_in_transaction_inventory s name sku price quantity w s' id :
  create_in_transaction s name sku price quantity (PyInt w) = (s', Ok id) →
  filter (λ i, Inventory.product_id i = id ∧ Inventory.warehouse_id i = w)
    (DB.inventory (pending s'))
  = [Inventory.mk id w (Some quantity)].
Proof.
  unfold create_in_transaction, add_product_flush.
  case_bool_decide as Hdup; [done|].
  cbn [pending committed Product.id int_param DB.inventory with_products].
  set (new_id := next_product_id (pending s)).
  set (inv := DB.inventory (pending s)).
  assert (∀ l : list Inventory.t,
            filter (λ i, Inventory.product_id i = new_id
                         ∧ Inventory.warehouse_id i = w) l
            = filter (hit_row new_id w) l) as Hhit.
  { intros l. apply list_filter_iff. intros i.
    split; intros [? ?]; split; congruence. }
  destruct (scalar_one_or_none (filter (hit_row new_id w) inv))
    as [[row|]|e] eqn:Hone; [| |done].
  - intros [= <- <-]. cbn [pending DB.inventory with_inventory].
    assert (filter (hit_row new_id w) inv = [row]) as Hrow.
    { destruct (filter (hit_row new_id w) inv) as [|r [|r' l]];
        cbn in Hone; congruence. }
    rewrite Hhit, filter_set_quantity, Hrow. cbn.
    assert (hit_row new_id w row) as [Hp Hw].
    { assert (row ∈ filter (hit_row new_id w) inv) as Hin
        by (rewrite Hrow; apply list_elem_of_here).
      by apply list_elem_of_filter in Hin as [? _]. }
    injection Hw as Hw. by rewrite Hp, Hw.
  - intros [= <- <-]. cbn [pending DB.inventory with_inventory].
    assert (filter (hit_row new_id w) inv = []) as Hrow.
    { destruct (filter (hit_row new_id w) inv) as [|r [|r' l]];
        cbn in Hone; congruence. }
    rewrite Hhit, filter_app, Hrow.
    rewrite filter_cons_True by done. done.
Qed.

(** X22. After a 201 the new product can be read back by the id of the
    response and by its sku: exactly one product row has that id, exactly
    one has that sku, and it holds the validated name, sku and price.  When
    the request named a warehouse by an integer id, exactly one inventory
    row exists for the new product and that warehouse, and its quantity is
    the initial quantity of the request. *)
Theorem created_product_can_be_read_back db json db' id status :
  create_product db json = (db', Ok (Created id, status)) →
  ∃ name sku price quantity,
    validate (default ∅ json) = Ok (inr (name, sku, price, quantity))
    ∧ filter (λ p, Product.id p = id) (DB.products db')
      = [Product.mk id name sku price None]
    ∧ filter (λ p, Product.sku p = sku) (DB.products db')
      = [Product.mk id name sku price None]
    ∧ ∀ w, (default ∅ json) !! "warehouse_id"%string = Some (PyInt w) →
           filter (λ i, Inventory.product_id i = id
                        ∧ Inventory.warehouse_id i = w)
             (DB.inventory db')
           = [Inventory.mk id w (Some quantity)].
Proof.
  intros Hcp.
  destruct (created_inv _ _ _ _ _ Hcp)
    as (n & k & p & q & Hv & _ & Hfresh & Hid & Hp & _).
  exists n, k, p, q. split; [done|].
  rewrite Hp.
  split; [|split].
  - apply filter_app_new; [|done]. intros x Hx Heq.
    apply next_product_id_fresh in Hx. lia.
  - apply filter_app_new; [|done]. intros x Hx Heq. apply Hfresh.
    apply list_elem_of_fmap. by exists x.
  - intros w Hw. revert Hcp. rewrite create_product_unfold. cbv zeta.
    rewrite Hv, Hw.
    change (default PyNone (Some (PyInt w))) with (PyInt w).
    destruct (warehouse_check db (PyInt w)) as [[]|]; [|done|done].
    unfold run_transaction.
    destruct (create_in_transaction _ _ _ _ _ _) as [s [new_id|e]] eqn:Hrun.
    + intros [= <- <- _]. by apply create_in_transaction_inventory in Hrun.
    + by destruct e.
Qed.

End Creation.

Lemma unknown_warehouse_is_refused_first_witness :
  let request := <["warehouse_id"%string := PyInt 99]> Demo.new_request in
  (∀ r, r ∈ DB.warehouses Demo.store → Warehouse.id r ≠ 99)
  ∧ Products.create_product Demo.store (Some request)
    = (Demo.store, Ok (Products.Error "warehouse_not_found", 404)).
Proof.
  intros request.
  assert (∀ r, r ∈ DB.warehouses Demo.store → Warehouse.id r ≠ 99) as Hnone.
  { intros r Hr. apply list_elem_of_singleton in Hr. by subst r. }
  split; [exact Hnone|].
  apply (unknown_warehouse_is_refused_first Demo.store (Some request)
           "Sprocket" "S-1" (PyDecimal.Finite false 451 (-2)) 12 99).
  - vm_compute. reflexivity.
  - vm_compute. reflexivity.
  - exact Hnone.
Defined.

Lemma create_product_creates_witness :
  Products.validate Demo.new_request
  = Ok (inr ("Sprocket"%string, "S-1"%string,
             PyDecimal.Finite false 451 (-2), 12))
  ∧ Products.create_product Demo.store (Some Demo.new_request)
    = (Products.with_inventory
         (Products.with_products Demo.store
            (DB.products Demo.store ++ [Demo.sprocket]))
         (DB.inventory Demo.store ++ [Inventory.mk 3 1 (Some 12)]),
       Ok (Products.Created 3, 201)).
Proof.
  assert (Products.validate Demo.new_request
          = Ok (inr ("Sprocket"%string, "S-1"%string,
                     PyDecimal.Finite false 451 (-2), 12))) as Hvalid
    by (vm_compute; reflexivity).
  split; [exact Hvalid|].
  assert ("S-1"%string ∉ Product.sku <$> DB.products Demo.store) as Hfresh.
  { intros Hin. apply elem_of_cons in Hin as [Hin|Hin]; [discriminate|].
    apply list_elem_of_singleton in Hin. discriminate. }
  apply (proj2 (create_product_creates Demo.store (Some Demo.new_request)
                  "Sprocket" "S-1" (PyDecimal.Finite false 451 (-2)) 12
                  Hvalid Hfresh) 1 Demo.main_warehouse).
  - vm_compute. reflexivity.
  - vm_compute. reflexivity.
  - intros i Hi. apply elem_of_cons in Hi as [->|Hi]; [discriminate|].
    apply list_elem_of_singleton in Hi. subst i. discriminate.
Defined.

Lemma create_product_is_not_repeatable_witness :
  ∃ db',
    Products.create_product Demo.store (Some Demo.new_request)
    = (db', Ok (Products.Created 3, 201))
    ∧ Products.create_product db' (Some Demo.new_request)
      = (db', Ok (Products.Error "sku_already_exists", 409)).
Proof.
  assert (∃ db',
    Products.create_product Demo.store (Some Demo.new_request)
    = (db', Ok (Products.Created 3, 201))) as [db' Hfirst]
    by (eexists; vm_compute; reflexivity).
  exists db'. split; [exact Hfirst|].
  apply (create_product_is_not_repeatable Demo.store (Some Demo.new_request)
           db' 3 201 "Sprocket" "S-1" (PyDecimal.Finite false 451 (-2)) 12
           (Some Demo.new_request) "Sprocket"
           (PyDecimal.Finite false 451 (-2)) 12 Hfirst).
  - vm_compute. reflexivity.
  - vm_compute. reflexivity.
  - reflexivity.
Defined.

Lemma created_product_can_be_read_back_witness :
  ∃ db',
    Products.create_product Demo.store (Some Demo.new_request)
    = (db', Ok (Products.Created 3, 201))
    ∧ ∃ name sku price,
        filter (λ p, Product.id p = 3) (DB.products db')
        = [Product.mk 3 name sku price None].
Proof.
  assert (∃ db',
    Products.create_product Demo.store (Some Demo.new_request)
    = (db', Ok (Products.Created 3, 201))) as [db' Hfirst]
    by (eexists; vm_compute; reflexivity).
  exists db'. split; [exact Hfirst|].
  destruct (created_product_can_be_read_back Demo.store
              (Some Demo.new_request) db' 3 201 Hfirst)
    as (name & sku & price & quantity & _ & Hid & _).
  exists name, sku, price. exact Hid.
Defined.
